(** * htaub-cli: the payslip synchroniser and the cached-token check

    A shallow embedding of
      - [src/payslip_sync.py]   (PayslipIndex, PayslipSyncer),
      - [src/ihcm_extractor.py] (IHCMExtractor.fetch_batch / extract_all),
      - [src/ihcm_auth.py]      (SessionCache.is_token_expired),
    followed by the properties that the design document states about them.

    Conventions.
      - A Python [dict] read from JSON is an association list in insertion
        order; a lookup takes the first binding of the key.
      - JSON numbers are the integer literals (Python [int], here [Z]);
        fractional numbers are outside the model.
      - Exceptions are values: a computation returns [Ret v] or [Raise e].
        A [while True] loop is run with fuel and returns [NoFuel] when the
        fuel is used up.
      - The network, the wall clock, the file system and the part of the
        Python library that the sources only call (base64, json, datetime,
        repr) are explicit: the first two are oracles indexed by the number
        of effects performed so far, the file system is part of the state,
        the library is a record of functions.
      - The file system is a map from paths to contents.  Directories are
        not part of it: every write of the sources follows a
        [mkdir(parents=True, exist_ok=True)] of the directory of the file,
        and both are taken to succeed.  Paths are strings, joined as
        [pathlib] joins them but not normalised. *)

From Stdlib Require Import ZArith Lia Ascii.
From stdpp Require Import gmap strings list pretty.

Set Warnings "-register-all,-clear-no-such-hyp".

Open Scope string_scope.
Open Scope Z_scope.

(** ** Python values *)

Module Py.

(** *** [str] methods used by the sources *)

(** [sub in s] *)
Fixpoint contains (sub s : string) : bool :=
  String.prefix sub s ||
  match s with
  | EmptyString => false
  | String _ s' => contains sub s'
  end.

(** [s.startswith(p)] *)
Definition startswith (s p : string) : bool := String.prefix p s.

(** [s.split(sep)] for a non-empty [sep]: a left-to-right scan for
    non-overlapping occurrences.  [skip] counts the characters of an
    occurrence of [sep] that are still to be passed over, [cur] is the
    piece being accumulated. *)
Fixpoint split_go (sep : string) (skip : nat) (cur s : string) : list string :=
  match s with
  | EmptyString => [cur]
  | String c s' =>
      match skip with
      | S k => split_go sep k cur s'
      | O =>
          if String.prefix sep s
          then cur :: split_go sep (String.length sep - 1) "" s'
          else split_go sep 0 (cur +:+ String c "") s'
      end
  end.

Definition split (s sep : string) : list string := split_go sep 0 "" s.

(** [c.lower()] and [s.lower()] on ASCII *)
Definition lower_ascii (c : ascii) : ascii :=
  let n := nat_of_ascii c in
  if (65 <=? n)%nat && (n <=? 90)%nat then ascii_of_nat (n + 32) else c.

Fixpoint lower (s : string) : string :=
  match s with
  | EmptyString => EmptyString
  | String c s' => String (lower_ascii c) (lower s')
  end.

(** [c.isspace()] on ASCII: TAB..CR, FS..US and the blank *)
Definition isspace (c : ascii) : bool :=
  let n := nat_of_ascii c in
  ((9 <=? n)%nat && (n <=? 13)%nat) || ((28 <=? n)%nat && (n <=? 32)%nat).

Fixpoint lstrip (s : string) : string :=
  match s with
  | EmptyString => EmptyString
  | String c s' => if isspace c then lstrip s' else s
  end.

(** [s.strip()] *)
Definition strip (s : string) : string :=
  String.rev (lstrip (String.rev (lstrip s))).

(** [s[:n]] *)
Definition slice_to (n : nat) (s : string) : string := String.substring 0 n s.

(** [s.endswith(p)] *)
Definition endswith (s p : string) : bool :=
  String.prefix (String.rev p) (String.rev s).

(** [s[:-n]] *)
Definition drop_last (n : nat) (s : string) : string :=
  String.substring 0 (String.length s - n) s.

(** [c * n] for a one-character string *)
Fixpoint replicate_char (n : nat) (c : ascii) : string :=
  match n with
  | O => EmptyString
  | S k => String c (replicate_char k c)
  end.

(** [sep.join(l)] *)
Fixpoint join (sep : string) (l : list string) : string :=
  match l with
  | [] => ""
  | [x] => x
  | x :: rest => x +:+ sep +:+ join sep rest
  end.

(** *** JSON documents as Python sees them after [json.loads] *)

Inductive json : Type :=
| JNull
| JBool (b : bool)
| JNum (n : Z)
| JStr (s : string)
| JList (l : list json)
| JObj (o : list (string * json)).

(** [d[k]] / [k in d] on a dict *)
Fixpoint dict_get (k : string) (o : list (string * json)) : option json :=
  match o with
  | [] => None
  | (k', v) :: rest => if String.eqb k k' then Some v else dict_get k rest
  end.

Definition dict_has (k : string) (o : list (string * json)) : bool :=
  bool_decide (is_Some (dict_get k o)).

Definition dict_keys (o : list (string * json)) : list string := o.*1.

(** Truth value of an object, as tested by [if v:] and [not v] *)
Definition truthy (v : json) : bool :=
  match v with
  | JNull => false
  | JBool b => b
  | JNum n => negb (n =? 0)%Z
  | JStr s => negb (String.eqb s "")
  | JList l => match l with [] => false | _ => true end
  | JObj o => match o with [] => false | _ => true end
  end.

Definition str_truthy (s : string) : bool := negb (String.eqb s "").

(** *** Exceptions *)

Inductive exn_class : Type :=
| RuntimeError
| ValueError
| BinasciiError            (* binascii.Error, a ValueError *)
| JSONDecodeError          (* json.JSONDecodeError, a ValueError *)
| UnicodeDecodeError       (* a ValueError *)
| KeyError
| IndexError
| TypeError
| AttributeError
| OverflowError
| OSError
| RequestException         (* requests.RequestException, an OSError *)
| RequestsJSONDecodeError  (* requests.exceptions.JSONDecodeError *)
| KeyboardInterrupt.

Record exn : Type := Exn { exn_cls : exn_class; exn_msg : string }.

(** [isinstance(e, c)]: the part of the class hierarchy that the handlers
    of the sources can tell apart. *)
Definition isinstance (e : exn) (c : exn_class) : bool :=
  match c, exn_cls e with
  | RuntimeError, RuntimeError => true
  | ValueError, (ValueError | BinasciiError | JSONDecodeError
                 | UnicodeDecodeError | RequestsJSONDecodeError) => true
  | JSONDecodeError, (JSONDecodeError | RequestsJSONDecodeError) => true
  | KeyError, KeyError => true
  | RequestException, (RequestException | RequestsJSONDecodeError) => true
  | RequestsJSONDecodeError, RequestsJSONDecodeError => true
  | KeyboardInterrupt, KeyboardInterrupt => true
  | TypeError, TypeError => true
  | AttributeError, AttributeError => true
  | IndexError, IndexError => true
  | OverflowError, OverflowError => true
  | OSError, (OSError | RequestException | RequestsJSONDecodeError) => true
  | _, _ => false
  end.

Arguments isinstance : simpl never.

(** The result of running a piece of Python. *)
Inductive outcome (A : Type) : Type :=
| Ret (a : A)
| Raise (e : exn)
| NoFuel.
Arguments Ret {A} a.
Arguments Raise {A} e.
Arguments NoFuel {A}.

Definition obind {A B} (x : outcome A) (f : A → outcome B) : outcome B :=
  match x with
  | Ret a => f a
  | Raise e => Raise e
  | NoFuel => NoFuel
  end.

Declare Scope outcome_scope.
Delimit Scope outcome_scope with outcome.
Notation "'let?' x := e 'in' k" := (obind e (λ x, k))
  (at level 10, x pattern, e at level 100, k at level 200) : outcome_scope.
Open Scope outcome_scope.

(** *** Operators on values whose type is only known at run time *)

(** [key in v] for a string [key] *)
Definition py_in (key : string) (v : json) : outcome bool :=
  match v with
  | JObj o => Ret (dict_has key o)
  | JList l =>
      Ret (existsb (λ x, match x with JStr s => String.eqb s key | _ => false end) l)
  | JStr s => Ret (contains key s)
  | _ => Raise (Exn TypeError "argument is not iterable")
  end.

(** [v[key]] for a string [key] *)
Definition py_getitem (v : json) (key : string) : outcome json :=
  match v with
  | JObj o =>
      match dict_get key o with
      | Some x => Ret x
      | None => Raise (Exn KeyError key)
      end
  | _ => Raise (Exn TypeError "indices must be integers or object is not subscriptable")
  end.

(** [v.split(sep)[n]]: only a [str] has [split] *)
Definition py_split_item (v : json) (sep : string) (n : nat) : outcome string :=
  match v with
  | JStr s =>
      match split s sep !! n with
      | Some x => Ret x
      | None => Raise (Exn IndexError "list index out of range")
      end
  | _ => Raise (Exn AttributeError "object has no attribute 'split'")
  end.

(** [list(v.keys())]: only a dict has [keys] *)
Definition py_keys (v : json) : outcome (list string) :=
  match v with
  | JObj o => Ret (dict_keys o)
  | _ => Raise (Exn AttributeError "object has no attribute 'keys'")
  end.

(** [len(v)] *)
Definition py_len (v : json) : outcome nat :=
  match v with
  | JList l => Ret (length l)
  | JObj o => Ret (length o)
  | JStr s => Ret (String.length s)
  | _ => Raise (Exn TypeError "object has no len()")
  end.

(** The elements that [list.extend(v)] appends *)
Fixpoint chars (s : string) : list json :=
  match s with
  | EmptyString => []
  | String c s' => JStr (String c "") :: chars s'
  end.

Definition py_iter (v : json) : outcome (list json) :=
  match v with
  | JList l => Ret l
  | JObj o => Ret (map JStr (dict_keys o))
  | JStr s => Ret (chars s)
  | _ => Raise (Exn TypeError "object is not iterable")
  end.

(** The integer that [n >= v] and [v > 0] compare with *)
Definition py_int (v : json) : outcome Z :=
  match v with
  | JNum n => Ret n
  | JBool b => Ret (if b then 1 else 0)
  | _ => Raise (Exn TypeError "'>=' not supported between these instances")
  end.

(** *** The Python library functions that the sources call *)

Record pylib : Type := PyLib {
  (** [base64.urlsafe_b64decode]; [None] is [binascii.Error] *)
  urlsafe_b64decode : string → option string;
  (** [json.loads] on bytes; [None] is a decoding error (a [ValueError]) *)
  json_loads : string → option json;
  (** [datetime.fromtimestamp(n)] for an [int]: [None] when it succeeds,
      otherwise the class it raises ([ValueError] for a year out of range,
      [OverflowError], [OSError]) *)
  fromtimestamp_fails : Z → option exn_class;
  (** [datetime.fromisoformat(s)]: the year and the month; [None] is
      [ValueError] *)
  fromisoformat : string → option (Z * Z);
  (** [repr(s)] of a [str] *)
  repr_str : string → string;
}.

Section Repr.
Variable L : pylib.

(** [repr(v)] *)
Fixpoint repr (v : json) : string :=
match v with
| JNull => "None"
| JBool true => "True"
| JBool false => "False"
| JNum n => pretty n
| JStr s => repr_str L s
| JList l => "[" +:+ join ", " (map repr l) +:+ "]"
| JObj o =>
    "{" +:+ join ", " (map (λ kv, repr_str L kv.1 +:+ ": " +:+ repr kv.2) o)
        +:+ "}"
end.

(** [str(v)] *)
Definition str (v : json) : string :=
match v with
| JStr s => s
| _ => repr v
end.
End Repr.

End Py.

(** ** [ihcm_auth.py]: SessionCache.is_token_expired *)

Module Auth.
Import Py.

Section SessionCache.
Variable L : pylib.

(** Lines 268-271: the payload segment with its padding restored. *)
Definition pad_payload (payload_b64 : string) : string :=
let padding := (4 - String.length payload_b64 mod 4)%nat in
if negb (padding =? 4)%nat
then payload_b64 +:+ replicate_char padding "="%char
else payload_b64.

(** [payload.get('exp')]: only a dict has [get]. *)
Definition payload_get_exp (payload : json) : outcome json :=
match payload with
| JObj o => Ret (default JNull (dict_get "exp" o))
| _ => Raise (Exn AttributeError "object has no attribute 'get'")
end.

(** [datetime.fromtimestamp(exp_timestamp)] followed by [.timestamp()]:
  the seconds of the claim when the conversion succeeds.  [True] is
  the integer 1; a string, a list or a dict is a [TypeError]. *)
Definition from_timestamp (n : Z) : outcome Z :=
match fromtimestamp_fails L n with
| None => Ret n
| Some c => Raise (Exn c "fromtimestamp")
end.

Definition exp_seconds (exp_timestamp : json) : outcome Z :=
match exp_timestamp with
| JNum n => from_timestamp n
| JBool true => from_timestamp 1
| _ => Raise (Exn TypeError "an integer is required")
end.

(** The body of the [try] block, lines 262-290.  [now_us] is the reading
  of [datetime.now()] in microseconds since the epoch; the comparison
  of line 286 is done on exact numbers. *)
Definition is_token_expired_try
  (now_us : Z) (bearer_token : string) (buffer_minutes : Z) : outcome bool :=
let parts := split bearer_token "." in
if negb (length parts =? 3)%nat then Ret true else
match parts !! 1%nat with
| None => Raise (Exn IndexError "list index out of range")
| Some payload_b64 =>
    match urlsafe_b64decode L (pad_payload payload_b64) with
    | None => Raise (Exn BinasciiError "Incorrect padding")
    | Some payload_json =>
        match json_loads L payload_json with
        | None => Raise (Exn JSONDecodeError "Expecting value")
        | Some payload =>
            obind (payload_get_exp payload) (λ exp_timestamp,
            if negb (truthy exp_timestamp) then Ret false else
            obind (exp_seconds exp_timestamp) (λ exp_s,
            let buffer_seconds := buffer_minutes * 60 in
            if exp_s * 1000000 - now_us <? buffer_seconds * 1000000
            then Ret true
            else Ret false))
        end
    end
end.

(** Lines 254-294, with the handler
  [except (ValueError, KeyError, json.JSONDecodeError): return True]. *)
Definition is_token_expired
  (now_us : Z) (bearer_token : string) (buffer_minutes : Z) : outcome bool :=
match is_token_expired_try now_us bearer_token buffer_minutes with
| Raise e =>
    if isinstance e ValueError || isinstance e KeyError
       || isinstance e JSONDecodeError
    then Ret true
    else Raise e
| r => r
end.

(** The default [buffer_minutes: int = 5]. *)
Definition is_token_expired_default (now_us : Z) (bearer_token : string) :=
is_token_expired now_us bearer_token 5.

End SessionCache.

End Auth.

(** ** The world outside the process: HTTP, the clock and the cache directory *)

Module World.
Import Py.

(** A request made through [requests.Session]. *)
Inductive request : Type :=
| POST (url : string) (payload : json)
| GET (url : string).

(** What the sources read from a [requests.Response]: [resp_json] is the
    result of [response.json()], [inl msg] when it raises
    [requests.exceptions.JSONDecodeError]. *)
Record response : Type := Response {
  status_code : Z;
  text : string;
  resp_json : string + json;
  location : option string;       (* headers.get("Location") *)
  content_type : option string;   (* headers.get("Content-Type") *)
  content : string;
}.

Inductive http_result : Type :=
| Responds (r : response)
| Fails (e : exn).

Inductive file_content : Type :=
| JsonText (doc : json)           (* json.dumps(doc, indent=2) *)
| Bytes (b : string).

(** The call site of a request. *)
Inductive caller : Type := Lister | DetailFetcher | PdfFetcher.

Inductive event : Type :=
| EvHttp (who : caller) (r : request)
| EvWrite (path : string) (c : file_content)
| EvSaveIndex
| EvPrint (msg : string)
| EvSleep.

(** The environment of one run.  Both oracles are asked with the number of
    events that the run has produced so far, so that the same request can
    be answered differently at different moments. *)
Record env : Type := Env {
  http : nat → request → http_result;
  clock : nat → string;           (* datetime.now().isoformat() *)
}.

(** One row of the index, lines 120-125.  [json_path] and [pdf_path] are
    [None] when the key is missing or null in the stored file. *)
Record entry : Type := Entry {
  pay_date : string;
  json_path : option string;
  pdf_path : option string;
  cached_at : string;
}.

(** [PayslipIndex._data] after [load]. *)
Record index_data : Type := IndexData {
  payslips : gmap string entry;
  total_count : Z;
  last_sync : option string;
}.

(** The file [index.json]: missing, unreadable as JSON, or a JSON object in
    which each of the three keys may be missing. *)
Inductive index_file : Type :=
| IndexAbsent
| IndexCorrupt (err : string)
| IndexStored (p : option (gmap string entry)) (tc : option Z)
              (ls : option string).

(** The state threaded through a run: the in-memory index of the
    [PayslipIndex] object, the artifact files by their paths (those of the
    cache directory and any the run writes elsewhere), the index file, and
    the events so far (most recent first). *)
Record state : Type := State {
  mem : index_data;
  files : gmap string file_content;
  index_json : index_file;
  trace : list event;
}.

Definition set_mem (d : index_data) (st : state) : state :=
  State d (files st) (index_json st) (trace st).
Definition set_files (f : gmap string file_content) (st : state) : state :=
  State (mem st) f (index_json st) (trace st).
Definition set_index_json (i : index_file) (st : state) : state :=
  State (mem st) (files st) i (trace st).
Definition push_event (e : event) (st : state) : state :=
  State (mem st) (files st) (index_json st) (e :: trace st).

(** Stateful computations that may raise. *)
Definition M (A : Type) : Type := state → outcome A * state.

Definition ret {A} (a : A) : M A := λ st, (Ret a, st).
Definition raise {A} (e : exn) : M A := λ st, (Raise e, st).
Definition lift {A} (x : outcome A) : M A := λ st, (x, st).
Definition bind {A B} (m : M A) (f : A → M B) : M B :=
  λ st, match m st with
        | (Ret a, st') => f a st'
        | (Raise e, st') => (Raise e, st')
        | (NoFuel, st') => (NoFuel, st')
        end.

(** [try: body except <classes>: handler] *)
Definition try_except {A} (body : M A) (handles : exn → bool)
    (handler : exn → M A) : M A :=
  λ st, match body st with
        | (Raise e, st') => if handles e then handler e st' else (Raise e, st')
        | r => r
        end.

(** [wp m st Q]: running [m] from [st] ends in an outcome and a state
    related by [Q]. *)
Definition wp {A} (m : M A) (st : state) (Q : outcome A → state → Prop) : Prop :=
  Q (m st).1 (m st).2.

(** What the continuation of a [bind] has to establish. *)
Definition after {A B} (f : A → M B) (Q : outcome B → state → Prop)
    (r : outcome A) (st : state) : Prop :=
  match r with
  | Ret a => wp (f a) st Q
  | Raise e => Q (Raise e) st
  | NoFuel => Q NoFuel st
  end.

(** What the handler of a [try] has to establish. *)
Definition caught {A} (handles : exn → bool) (handler : exn → M A)
    (Q : outcome A → state → Prop) (r : outcome A) (st : state) : Prop :=
  match r with
  | Raise e => if handles e then wp (handler e) st Q else Q (Raise e) st
  | _ => Q r st
  end.

(** [preserves R m]: [R] relates the state before [m] to the state after. *)
Definition preserves {A} (R : relation state) (m : M A) : Prop :=
  ∀ st, R st (m st).2.

Declare Scope py_scope.
Delimit Scope py_scope with py.
Notation "'let*' x := m 'in' k" := (bind m (λ x, k))
  (at level 10, x pattern, m at level 100, k at level 200) : py_scope.
Notation "'run' m 'in' k" := (bind m (λ _, k))
  (at level 10, m at level 100, k at level 200) : py_scope.
Open Scope py_scope.

Definition emit (e : event) : M unit := λ st, (Ret (), push_event e st).

Section Effects.
Variable E : env.

(** [session.get] / [session.post] *)
Definition send (who : caller) (r : request) : M response :=
λ st, match http E (length (trace st)) r with
      | Responds resp => (Ret resp, push_event (EvHttp who r) st)
      | Fails e => (Raise e, push_event (EvHttp who r) st)
      end.

(** [datetime.now().isoformat()] *)
Definition now : M string := λ st, (Ret (clock E (length (trace st))), st).

(** [time.sleep] *)
Definition sleep : M unit := emit EvSleep.

(** [path.write_text] / [path.write_bytes], parents created first *)
Definition write_file (path : string) (c : file_content) : M unit :=
λ st, (Ret (), push_event (EvWrite path c)
           (set_files (<[path := c]> (files st)) st)).
End Effects.

(** [path.exists()] *)
Definition exists_file (st : state) (path : string) : bool :=
  bool_decide (is_Some (files st !! path)).

End World.

(** ** [payslip_sync.py] *)

Module Sync.
Import Py World.

Definition nl : string := String "010"%char "".

Definition IHCM_BASE_URL : string := "https://ihcm.adp.com/whrmux/webapi".
Definition CACHE_DIR : string := ".cache/payslips".
Definition QUERY_API : string := IHCM_BASE_URL +:+ "/api/pay/pay-statement-query".
Definition DETAIL_API : string := IHCM_BASE_URL +:+ "/api/pay/pay-statement".

(** [name.is_absolute()] on a POSIX path written as a string *)
Definition is_absolute (name : string) : bool := startswith name "/".

(** [dir / name] on paths written as strings: an absolute [name] replaces
    [dir], as the [/] of [pathlib] does. *)
Definition path_join (dir name : string) : string :=
  if is_absolute name then name else dir +:+ "/" +:+ name.

(** [path.relative_to(base)] *)
Definition relative_to (path base : string) : outcome string :=
  if String.prefix (base +:+ "/") path
  then Ret (String.substring (String.length base + 1)
              (String.length path - (String.length base + 1)) path)
  else Raise (Exn ValueError "path is not in the subpath of base").

(** *** Pure helpers of [PayslipSyncer] *)

(** [uri.get("href") if isinstance(uri, dict) else uri] *)
Definition href_of (uri : json) : json :=
  match uri with
  | JObj o => default JNull (dict_get "href" o)
  | _ => uri
  end.

Section Helpers.
Variable L : pylib.

(** Lines 446-450: the identifier taken from [payDetailUri]. *)
Definition detail_link_id (payslip : json) : outcome (option string) :=
let? has := py_in "payDetailUri" payslip in
if has then
  let? uri := py_getitem payslip "payDetailUri" in
  let href := href_of uri in
  if truthy href then
    let? found := py_in "/payStatement/" href in
    if found then
      let? x := py_split_item href "/payStatement/" 1 in Ret (Some x)
    else Ret None
  else Ret None
else Ret None.

(** Lines 453-455: the first fallback field that is present and true. *)
Fixpoint fallback_id (fields : list string) (payslip : json)
  : outcome (option string) :=
match fields with
| [] => Ret None
| field :: rest =>
    let? has := py_in field payslip in
    if has then
      let? v := py_getitem payslip field in
      if truthy v then Ret (Some (str L v)) else fallback_id rest payslip
    else fallback_id rest payslip
end.

Definition id_fields : list string :=
["id"; "encodedId"; "encoded_id"; "payStatementId"].

(** Lines 442-457. *)
Definition _get_encoded_id (payslip : json) : outcome string :=
let? linked := detail_link_id payslip in
match linked with
| Some x => Ret x
| None =>
    let? named := fallback_id id_fields payslip in
    match named with
    | Some x => Ret x
    | None =>
        let? keys := py_keys payslip in
        Raise (Exn ValueError
                 ("Could not find ID in payslip: "
                    +:+ repr L (JList (map JStr keys))))
    end
end.

(** Lines 431-440. *)
Fixpoint pay_date_from (fields : list string) (payslip : json)
  : outcome string :=
match fields with
| [] => Ret "unknown"
| field :: rest =>
    let? has := py_in field payslip in
    if has then
      let? date_val := py_getitem payslip field in
      match date_val with
      | JStr s => Ret (default "" (head (split s "T")))
      | _ => pay_date_from rest payslip
      end
    else pay_date_from rest payslip
end.

Definition _get_pay_date (payslip : json) : outcome string :=
pay_date_from ["payDate"; "pay_date"; "paymentDate"; "date"; "periodEndDate"]
  payslip.

(** Lines 459-491. *)
Definition _get_pdf_info (payslip : json)
  : outcome (option string * option string) :=
let? has := py_in "statementImageUri" payslip in
if has then
  let? uri := py_getitem payslip "statementImageUri" in
  let href := href_of uri in
  if truthy href then
    let? c1 := py_in "/payStatement/" href in
    if c1 then
      let? c2 := py_in "/images/" href in
      if c2 then
        let? after_paystatement := py_split_item href "/payStatement/" 1 in
        let statement_id := default "" (head (split after_paystatement "/images/")) in
        let? filename := py_split_item href "/images/" 1 in
        let image_id :=
          if endswith filename ".pdf" then Some (drop_last 4 filename) else None in
        Ret (Some statement_id, image_id)
      else Ret (None, None)
    else Ret (None, None)
  else Ret (None, None)
else Ret (None, None).

(** Lines 493-498. *)
Definition _build_pdf_api_url (statement_id image_id : string) : string :=
IHCM_BASE_URL +:+ "/api/pay/payslip/file" +:+ "?statementId=" +:+ statement_id
  +:+ "&imageId=" +:+ image_id +:+ "&imageType=pdf".

(** [f"{month:02d}"] *)
Definition two_digits (m : Z) : string :=
if (0 <=? m) && (m <? 10) then "0" +:+ pretty m else pretty m.

(** Lines 500-511. *)
Definition _make_file_path (pay_date extension : string) : string :=
let '(year, month) :=
  match fromisoformat L (default "" (head (split pay_date "T"))) with
  | Some (y, m) => (pretty y, two_digits m)
  | None => ("unknown", "unknown")
  end in
path_join (path_join (path_join CACHE_DIR year) month)
  (pay_date +:+ "." +:+ extension).

(** Lines 160-174. *)
Definition _check_session_valid (r : response) : outcome unit :=
if status_code r =? 401 then
  Raise (Exn RuntimeError
    ("Authentication failed (401). Session may have expired." +:+ nl +:+
     "Try running with --clear-cache to force fresh authentication."))
else
  let content := strip (text r) in
  if startswith content "<!" || startswith content "<html" then
    Raise (Exn RuntimeError
      ("Session expired - received login page instead of JSON." +:+ nl +:+
       "Try running with --clear-cache to force fresh authentication."))
  else Ret ().
End Helpers.

(** [type(v)] as printed in an f-string *)
Definition type_name (v : json) : string :=
  match v with
  | JNull => "<class 'NoneType'>"
  | JBool _ => "<class 'bool'>"
  | JNum _ => "<class 'int'>"
  | JStr _ => "<class 'str'>"
  | JList _ => "<class 'list'>"
  | JObj _ => "<class 'dict'>"
  end.

(** Lines 189-217: the body of the listing query. *)
Definition query_filter (id : Z) (operator value displayValue : string) : json :=
  JObj [("id", JNum id); ("operator", JStr operator); ("value", JStr value);
        ("property", JStr "dateFilter"); ("boolean", JStr "OR");
        ("group", JNum 2); ("groupName", JStr "Date range");
        ("displayValue", JStr displayValue)].

Definition query_payload (start batch_size : Z) : json :=
  JObj [("filter", JList [query_filter 6 "lteq" "2019-01-01" "Start date";
                          query_filter 7 "gteq" "2030-12-31" "End date"]);
        ("orderBy", JStr "PAYCHECKDATE DESC");
        ("limit", JNum batch_size);
        ("showParameterics", JBool false);
        ("start", JNum start);
        ("end", JNum (start + batch_size - 1))].

(** [f"{parsed.scheme}://{parsed.netloc}"] for [urlparse(url)], the network
    location being delimited by the next slash. *)
Definition url_origin (url : string) : string :=
  match split url "/" with
  | scheme_colon :: _ :: netloc :: _ => scheme_colon +:+ "//" +:+ netloc
  | _ => "://"
  end.

Definition is_redirect (status : Z) : bool :=
  bool_decide (status ∈ [301; 302; 303; 307; 308]).

Definition opt_truthy (s : option string) : bool :=
  match s with
  | Some x => str_truthy x
  | None => false
  end.

(** *** [PayslipIndex] and the stateful part of [PayslipSyncer]

    Of the [print] calls only the warnings are recorded as events. *)

Section Syncer.
Variable L : pylib.
Variable E : env.

(** Lines 63-78. *)
Definition load : M unit := λ st,
match index_json st with
| IndexAbsent => (Ret (), set_mem (IndexData ∅ 0 None) st)
| IndexCorrupt err =>
    (Ret (), push_event (EvPrint ("  Warning: Failed to load index: " +:+ err))
               (set_mem (IndexData ∅ 0 None) st))
| IndexStored p tc ls =>
    (Ret (), set_mem (IndexData (default ∅ p) (default 0 tc) ls) st)
end.

(** Lines 80-86. *)
Definition save : M unit := λ st,
let stamp := clock E (length (trace st)) in
let rows := payslips (mem st) in
let count := Z.of_nat (size rows) in
(Ret (), push_event EvSaveIndex
           (set_index_json (IndexStored (Some rows) (Some count) (Some stamp))
              (set_mem (IndexData rows count (Some stamp)) st))).

(** Lines 88-110. *)
Definition is_cached (st : state) (encoded_id : string) (verify_exists : bool)
  : bool :=
match payslips (mem st) !! encoded_id with
| None => false
| Some entry =>
    if negb verify_exists then true
    else
      match json_path entry with
      | Some p =>
          if str_truthy p
          then exists_file st (path_join CACHE_DIR p)
          else true
      | None => true
      end
end.

(** Lines 112-125. *)
Definition mark_cached (encoded_id pay_date json_path : string)
  (pdf_path : option string) : M unit := λ st,
let row := Entry pay_date (Some json_path) pdf_path
             (clock E (length (trace st))) in
(Ret (), set_mem (IndexData (<[encoded_id := row]> (payslips (mem st)))
                    (total_count (mem st)) (last_sync (mem st))) st).

(** Lines 235-246: the batch and the total of one page, [None] for the
  [break] on an unexpected structure. *)
Definition read_page (data : json) : M (option (json * json)) :=
match data with
| JList l => ret (Some (data, JNum (Z.of_nat (length l))))
| JObj o =>
    if dict_has "data" o then
      let* batch := lift (py_getitem data "data") in
      let* n := lift (py_len batch) in
      ret (Some (batch, default (JNum (Z.of_nat n)) (dict_get "total" o)))
    else
      run emit (EvPrint ("  Warning: Unexpected response structure: "
                           +:+ type_name data)) in
      run emit (EvPrint ("  Keys: " +:+ repr L (JList (map JStr (dict_keys o))))) in
      ret None
| _ =>
    run emit (EvPrint ("  Warning: Unexpected response structure: "
                         +:+ type_name data)) in
    ret None
end.

(** Lines 186-255: the [while True] loop of [list_all_payslips]. *)
Fixpoint list_loop (fuel : nat) (batch_size : Z) (all_payslips : list json)
  (start : Z) : M (list json) :=
match fuel with
| O => lift NoFuel
| S fuel' =>
    let* response := send E Lister (POST QUERY_API (query_payload start batch_size)) in
    run lift (_check_session_valid response) in
    if negb (status_code response =? 200) then
      raise (Exn RuntimeError
               ("Failed to query payslips: HTTP " +:+ pretty (status_code response)
                  +:+ nl +:+ "Response: " +:+ slice_to 500 (text response)))
    else
      let* data :=
        match resp_json response with
        | inl err =>
            raise (Exn RuntimeError
                     ("Invalid JSON response from payslip query: " +:+ err))
        | inr d => ret d
        end in
      let* page := read_page data in
      match page with
      | None => ret all_payslips
      | Some (batch, total) =>
          let* items := lift (py_iter batch) in
          let all_payslips := (all_payslips ++ items)%list in
          let* total := lift (py_int total) in
          if (Z.of_nat (length all_payslips) >=? total)
             || (length items =? 0)%nat
          then ret all_payslips
          else
            run sleep in
            list_loop fuel' batch_size all_payslips
              (start + Z.of_nat (length items))
      end
end.

(** Lines 176-257, with the page size of line 184 as a parameter. *)
Definition list_all_payslips_with (batch_size : Z) (fuel : nat)
  : M (list json) :=
list_loop fuel batch_size [] 0.

Definition list_all_payslips (fuel : nat) : M (list json) :=
list_all_payslips_with 100 fuel.

(** Lines 259-277. *)
Definition fetch_payslip_detail (encoded_id : string) : M json :=
let url := DETAIL_API +:+ "/" +:+ encoded_id in
let* response := send E DetailFetcher (GET url) in
run lift (_check_session_valid response) in
if status_code response =? 404 then
  raise (Exn RuntimeError ("Payslip not found: " +:+ encoded_id))
else if negb (status_code response =? 200) then
  raise (Exn RuntimeError
           ("Failed to fetch payslip detail: HTTP "
              +:+ pretty (status_code response)))
else
  match resp_json response with
  | inl err => raise (Exn RequestsJSONDecodeError err)
  | inr d => ret d
  end.

(** Lines 385-398: at most ten redirects are followed by hand. *)
Fixpoint follow_redirects (budget : nat) (pdf_url : string)
  (response : World.response) : M World.response :=
match budget with
| O => ret response
| S budget' =>
    if is_redirect (status_code response) then
      if opt_truthy (location response) then
        let redirect_url := default "" (location response) in
        let redirect_url :=
          if startswith redirect_url "/"
          then url_origin pdf_url +:+ redirect_url
          else redirect_url in
        let* response := send E PdfFetcher (GET redirect_url) in
        follow_redirects budget' pdf_url response
      else ret response
    else ret response
end.

(** Lines 376-413. *)
Definition _fetch_pdf_via_requests (pdf_url : string) : M (option string) :=
let* got :=
  try_except
    (let* response := send E PdfFetcher (GET pdf_url) in
     let* response := follow_redirects 10 pdf_url response in
     ret (Some response))
    (λ e, isinstance e RequestException)
    (λ _, ret None) in
match got with
| None => ret None
| Some response =>
    if negb (status_code response =? 200) then ret None
    else
      let ct := default "" (content_type response) in
      if negb (contains "application/pdf" ct)
         && negb (contains "octet-stream" ct)
      then ret None
      else ret (Some (content response))
end.

(** Lines 415-429. *)
Definition fetch_payslip_pdf (pdf_url : string) : M (option string) :=
if negb (str_truthy pdf_url) then ret None
else _fetch_pdf_via_requests pdf_url.

(** Lines 539-546: the records that are not cached, in listing order.  A
  record whose identifier cannot be found is reported and left out. *)
Fixpoint find_missing (payslips : list json) : M (list json) :=
match payslips with
| [] => ret []
| ps :: rest =>
    let* keep :=
      try_except
        (let* encoded_id := lift (_get_encoded_id L ps) in
         λ st, (Ret (negb (is_cached st encoded_id true)), st))
        (λ e, isinstance e ValueError)
        (λ e, run emit (EvPrint ("  Warning: " +:+ exn_msg e)) in ret false) in
    let* more := find_missing rest in
    ret (if keep then ps :: more else more)
end.

(** Lines 579-588: the PDF of a record, when it is wanted and can be
  located; the result is its path relative to the cache directory. *)
Definition pdf_phase (skip_pdf : bool) (pay_date : string)
  (statement_id image_id : option string) : M (option string) :=
if negb skip_pdf && opt_truthy statement_id && opt_truthy image_id then
  let pdf_url := _build_pdf_api_url (default "" statement_id)
                   (default "" image_id) in
  let* pdf_data := fetch_payslip_pdf pdf_url in
  if opt_truthy pdf_data then
    let pdf_path := _make_file_path L pay_date "pdf" in
    run write_file pdf_path (Bytes (default "" pdf_data)) in
    let* rel := lift (relative_to pdf_path CACHE_DIR) in
    ret (Some rel)
  else ret None
else ret None.

(** Lines 571-596: the body of the [try] block for one record. *)
Definition download_one (skip_pdf : bool) (encoded_id pay_date : string)
  (statement_id image_id : option string) : M unit :=
let* detail := fetch_payslip_detail encoded_id in
let json_path := _make_file_path L pay_date "json" in
run write_file json_path (JsonText detail) in
let* pdf_rel_path := pdf_phase skip_pdf pay_date statement_id image_id in
let* json_rel_path := lift (relative_to json_path CACHE_DIR) in
mark_cached encoded_id pay_date json_rel_path pdf_rel_path.

(** Lines 598-606: the handler of the [try] block. *)
Definition is_expiry_message (msg : string) : bool :=
contains "401" msg || contains "expired" (lower msg).

Definition on_runtime_error (newly_downloaded : Z) (e : exn) : M Z :=
if is_expiry_message (exn_msg e) then
  run save in raise e
else ret newly_downloaded.

(** Lines 563-608: the download loop. *)
Fixpoint download_loop (skip_pdf : bool) (missing : list json)
  (newly_downloaded : Z) : M Z :=
match missing with
| [] => ret newly_downloaded
| ps :: rest =>
    let* encoded_id := lift (_get_encoded_id L ps) in
    let* pay_date := lift (_get_pay_date ps) in
    let* ids := lift (_get_pdf_info ps) in
    let* newly_downloaded :=
      try_except
        (run download_one skip_pdf encoded_id pay_date ids.1 ids.2 in
         ret (newly_downloaded + 1))
        (λ e, isinstance e RuntimeError)
        (on_runtime_error newly_downloaded) in
    run sleep in
    download_loop skip_pdf rest newly_downloaded
end.

(** Lines 531-613: the part of [sync_all] that follows the listing. *)
Definition sync_listed (skip_pdf : bool) (payslips : list json) : M (Z * Z * Z) :=
let total_available := Z.of_nat (length payslips) in
match payslips with
| [] => ret (0, 0, 0)
| _ =>
    let* missing := find_missing payslips in
    let already_cached := total_available - Z.of_nat (length missing) in
    match missing with
    | [] =>
        run save in
        ret (total_available, already_cached, 0)
    | _ =>
        let* newly_downloaded := download_loop skip_pdf missing 0 in
        run save in
        ret (total_available, already_cached, newly_downloaded)
    end
end.

(** Lines 513-613. *)
Definition sync_all (fuel : nat) (skip_pdf : bool) : M (Z * Z * Z) :=
run load in
let* payslips := list_all_payslips fuel in
sync_listed skip_pdf payslips.
End Syncer.

End Sync.

(** ** [ihcm_extractor.py]: IHCMExtractor *)

Module Extractor.
Import Py World.

Definition API_URL : string := "https://ihcm.adp.com/whrmux/webapi/api/employee".

(** Lines 84-92. *)
Definition batch_payload (start batch_size : Z) : json :=
  JObj [("start", JNum start);
        ("end", JNum (start + batch_size - 1));
        ("limit", JNum batch_size);
        ("filter", JList []);
        ("boolStr", JStr "AND");
        ("orderBy", JStr "PEOPLE.LASTNAME, PEOPLE.FIRSTNAME");
        ("showParameterics", JBool false)].

(** [result.get(key, dflt)]: only a dict has [get]. *)
Definition py_get (result : json) (key : string) (dflt : json) : outcome json :=
  match result with
  | JObj o => Ret (default dflt (dict_get key o))
  | _ => Raise (Exn AttributeError "object has no attribute 'get'")
  end.

(** The number shown by [f'{total:,}']: an [int] can be formatted with a
    thousands separator, [None] and containers raise [TypeError], a string
    raises [ValueError]. *)
Definition format_thousands (total : json) : outcome Z :=
  match total with
  | JNum n => Ret n
  | JBool b => Ret (if b then 1 else 0)
  | JStr _ => Raise (Exn ValueError "Cannot specify ',' with 's'.")
  | _ => Raise (Exn TypeError "unsupported format string")
  end.

Section IHCMExtractor.
Variable E : env.
Variable batch_size : Z.

(** Lines 79-109. *)
Definition fetch_batch (start : Z) : M (json * json) :=
let* response := send E Lister (POST API_URL (batch_payload start batch_size)) in
if status_code response =? 401 then
  raise (Exn RuntimeError
           ("Authentication failed (401). Session may have expired."
              +:+ Sync.nl +:+
            "Try running with --clear-cache to force fresh authentication."))
else if negb (status_code response =? 200) then
  raise (Exn RuntimeError
           ("API returned status " +:+ pretty (status_code response) +:+ ": "
              +:+ slice_to 200 (text response)))
else if startswith (strip (text response)) "<!doctype"
        || startswith (strip (text response)) "<html" then
  raise (Exn RuntimeError
           "Session expired - received login page. Please refresh credentials.")
else
  match resp_json response with
  | inl err => raise (Exn RequestsJSONDecodeError err)
  | inr result =>
      let* data := lift (py_get result "data" (JList [])) in
      let* total := lift (py_get result "total" (JNum 0)) in
      ret (data, total)
  end.

(** Lines 121-144: the [while True] loop of [extract_all].  [total] is
  [None] until the first page has been read. *)
Fixpoint extract_loop (fuel : nat) (all_employees : list json) (start : Z)
  (total : option Z) : M (list json) :=
match fuel with
| O => lift NoFuel
| S fuel' =>
    let* page := fetch_batch start in
    let '(batch, reported_total) := page in
    let* total :=
      match total with
      | None => lift (format_thousands reported_total)
      | Some t => ret t
      end in
    if negb (truthy batch) then ret all_employees
    else
      let* items := lift (py_iter batch) in
      let all_employees := (all_employees ++ items)%list in
      let progress := Z.of_nat (length all_employees) in
      if progress >=? total then ret all_employees
      else
        run sleep in
        extract_loop fuel' all_employees (start + Z.of_nat (length items))
          (Some total)
end.

(** Lines 111-148. *)
Definition extract_all (fuel : nat) : M (list json) :=
extract_loop fuel [] 0 None.
End IHCMExtractor.

End Extractor.

(** ** A reference implementation of the library record

    Used to run the embedding on concrete inputs.  It agrees with CPython
    on base64 text that is well padded and within the alphabet, on JSON
    text without string escapes and fractional numbers, on calendar dates
    written [YYYY-MM-DD], on time stamps in the UTC zone, and on the [repr]
    of strings without quotes, backslashes and control characters. *)

Module Reference.
Import Py.

Definition b64_value (c : ascii) : option N :=
  let n := N_of_ascii c in
  if (65 <=? n)%N && (n <=? 90)%N then Some (n - 65)%N
  else if (97 <=? n)%N && (n <=? 122)%N then Some (n - 71)%N
  else if (48 <=? n)%N && (n <=? 57)%N then Some (n + 4)%N
  else if (n =? 43)%N || (n =? 45)%N then Some 62%N
  else if (n =? 47)%N || (n =? 95)%N then Some 63%N
  else None.

Definition is_pad (c : ascii) : bool := (N_of_ascii c =? 61)%N.

Definition byte (n : N) : ascii := ascii_of_N (n mod 256).

Fixpoint b64decode (s : string) : option string :=
  match s with
  | EmptyString => Some EmptyString
  | String a (String b (String c (String d rest))) =>
      match b64_value a, b64_value b with
      | Some x, Some y =>
          let b1 := byte (x * 4 + y / 16) in
          if is_pad d then
            match rest with
            | EmptyString =>
                if is_pad c then Some (String b1 EmptyString)
                else
                  match b64_value c with
                  | Some z =>
                      Some (String b1 (String (byte ((y mod 16) * 16 + z / 4)) EmptyString))
                  | None => None
                  end
            | _ => None
            end
          else
            match b64_value c, b64_value d, b64decode rest with
            | Some z, Some w, Some tail =>
                Some (String b1
                        (String (byte ((y mod 16) * 16 + z / 4))
                           (String (byte ((z mod 4) * 64 + w)) tail)))
            | _, _, _ => None
            end
      | _, _ => None
      end
  | _ => None
  end.

Fixpoint skip_ws (s : string) : string :=
  match s with
  | String c s' =>
      let n := N_of_ascii c in
      if (n =? 32)%N || (n =? 9)%N || (n =? 10)%N || (n =? 13)%N
      then skip_ws s' else s
  | EmptyString => EmptyString
  end.

Definition digit_value (c : ascii) : option Z :=
  let n := Z.of_N (N_of_ascii c) in
  if (48 <=? n) && (n <=? 57) then Some (n - 48) else None.

(** The digits at the head of [s], read as a number that continues [acc]. *)
Fixpoint read_digits (acc : Z) (seen : bool) (s : string) : option (Z * string) :=
  match s with
  | String c s' =>
      match digit_value c with
      | Some d => read_digits (acc * 10 + d) true s'
      | None => if seen then Some (acc, s) else None
      end
  | EmptyString => if seen then Some (acc, s) else None
  end.

(** The characters up to the closing quote; escapes are not read. *)
Fixpoint read_string (s : string) : option (string * string) :=
  match s with
  | String c s' =>
      let n := N_of_ascii c in
      if (n =? 34)%N then Some (EmptyString, s')
      else if (n =? 92)%N then None
      else
        match read_string s' with
        | Some (body, rest) => Some (String c body, rest)
        | None => None
        end
  | EmptyString => None
  end.

Definition expect (p s : string) : option string :=
  if String.prefix p s
  then Some (String.substring (String.length p)
               (String.length s - String.length p) s)
  else None.

Fixpoint parse_value (fuel : nat) (s : string) : option (json * string) :=
  match fuel with
  | O => None
  | S fuel' =>
      match skip_ws s with
      | String c rest =>
          let n := N_of_ascii c in
          if (n =? 123)%N then
            match skip_ws rest with
            | String c' rest' =>
                if (N_of_ascii c' =? 125)%N then Some (JObj [], rest')
                else
                  match parse_members fuel' (skip_ws rest) with
                  | Some (o, r) => Some (JObj o, r)
                  | None => None
                  end
            | EmptyString => None
            end
          else if (n =? 91)%N then
            match skip_ws rest with
            | String c' rest' =>
                if (N_of_ascii c' =? 93)%N then Some (JList [], rest')
                else
                  match parse_elements fuel' rest with
                  | Some (l, r) => Some (JList l, r)
                  | None => None
                  end
            | EmptyString => None
            end
          else if (n =? 34)%N then
            match read_string rest with
            | Some (body, r) => Some (JStr body, r)
            | None => None
            end
          else if (n =? 45)%N then
            match read_digits 0 false rest with
            | Some (v, r) => Some (JNum (- v), r)
            | None => None
            end
          else
            match read_digits 0 false (String c rest) with
            | Some (v, r) => Some (JNum v, r)
            | None =>
                match expect "true" (String c rest), expect "false" (String c rest),
                      expect "null" (String c rest) with
                | Some r, _, _ => Some (JBool true, r)
                | _, Some r, _ => Some (JBool false, r)
                | _, _, Some r => Some (JNull, r)
                | _, _, _ => None
                end
            end
      | EmptyString => None
      end
  end
with parse_elements (fuel : nat) (s : string) : option (list json * string) :=
  match fuel with
  | O => None
  | S fuel' =>
      match parse_value fuel' s with
      | Some (v, r) =>
          match skip_ws r with
          | String c rest =>
              if (N_of_ascii c =? 93)%N then Some ([v], rest)
              else if (N_of_ascii c =? 44)%N then
                match parse_elements fuel' rest with
                | Some (l, r') => Some (v :: l, r')
                | None => None
                end
              else None
          | EmptyString => None
          end
      | None => None
      end
  end
with parse_members (fuel : nat) (s : string)
    : option (list (string * json) * string) :=
  match fuel with
  | O => None
  | S fuel' =>
      match skip_ws s with
      | String q after_quote =>
          if (N_of_ascii q =? 34)%N then
            match read_string after_quote with
            | Some (key, r) =>
                match skip_ws r with
                | String colon r1 =>
                    if (N_of_ascii colon =? 58)%N then
                      match parse_value fuel' r1 with
                      | Some (v, r2) =>
                          match skip_ws r2 with
                          | String c rest =>
                              if (N_of_ascii c =? 125)%N then Some ([(key, v)], rest)
                              else if (N_of_ascii c =? 44)%N then
                                match parse_members fuel' rest with
                                | Some (o, r') => Some ((key, v) :: o, r')
                                | None => None
                                end
                              else None
                          | EmptyString => None
                          end
                      | None => None
                      end
                    else None
                | EmptyString => None
                end
            | None => None
            end
          else None
      | EmptyString => None
      end
  end.

Definition loads (s : string) : option json :=
  match parse_value (2 * String.length s + 2) s with
  | Some (v, rest) =>
      match skip_ws rest with
      | EmptyString => Some v
      | _ => None
      end
  | None => None
  end.

(** Years 1 to 9999 in the UTC zone. *)
Definition timestamp_fails (n : Z) : option exn_class :=
  if (-62135596800 <=? n) && (n <=? 253402300799) then None
  else Some ValueError.

Definition number_of (s : string) : option Z :=
  match read_digits 0 false s with
  | Some (v, EmptyString) => Some v
  | _ => None
  end.

Definition isoformat_date (s : string) : option (Z * Z) :=
  if negb (String.length s =? 10)%nat then None
  else
    match number_of (String.substring 0 4 s), String.substring 4 1 s,
          number_of (String.substring 5 2 s), String.substring 7 1 s,
          number_of (String.substring 8 2 s) with
    | Some y, "-", Some m, "-", Some d =>
        if (1 <=? y) && (1 <=? m) && (m <=? 12) && (1 <=? d) && (d <=? 31)
        then Some (y, m) else None
    | _, _, _, _, _ => None
    end.

Definition quote (s : string) : string := "'" +:+ s +:+ "'".

Definition lib : pylib :=
  PyLib b64decode loads timestamp_fails isoformat_date quote.

End Reference.
(** ** What a run leaves behind: observations used in the statements *)

Module Obs.
Import Py World Sync.

(** The URL that [fetch_payslip_detail] requests, line 265. *)
Definition detail_url (encoded_id : string) : string :=
  DETAIL_API +:+ "/" +:+ encoded_id.

(** The path of an artifact relative to the cache directory. *)
Definition rel_file_path (L : pylib) (pay_date extension : string) : string :=
  let '(year, month) :=
    match fromisoformat L (default "" (head (split pay_date "T"))) with
    | Some (y, m) => (pretty y, two_digits m)
    | None => ("unknown", "unknown")
    end in
  year +:+ "/" +:+ month +:+ "/" +:+ pay_date +:+ "." +:+ extension.

(** The URLs of the detail requests of a trace, most recent first. *)
Fixpoint detail_gets (tr : list event) : list string :=
  match tr with
  | [] => []
  | EvHttp DetailFetcher (GET url) :: tr' => url :: detail_gets tr'
  | _ :: tr' => detail_gets tr'
  end.

(** The paths of the detail documents written, most recent first. *)
Fixpoint json_writes (tr : list event) : list string :=
  match tr with
  | [] => []
  | EvWrite path (JsonText _) :: tr' => path :: json_writes tr'
  | _ :: tr' => json_writes tr'
  end.

(** The bodies of the listing requests, most recent first. *)
Fixpoint lister_posts (tr : list event) : list json :=
  match tr with
  | [] => []
  | EvHttp Lister (POST _ payload) :: tr' => payload :: lister_posts tr'
  | _ :: tr' => lister_posts tr'
  end.

(** The [start] field of the body of a paginated request. *)
Definition post_start (payload : json) : Z :=
  match payload with
  | JObj o => match dict_get "start" o with Some (JNum z) => z | _ => 0 end
  | _ => 0
  end.

(** The offsets that the listing requested, most recent first. *)
Definition lister_starts (tr : list event) : list Z :=
  post_start <$> lister_posts tr.

(** The page that a server holding [records] returns at offset [start]
    when it returns [k s] records at offset [s]. *)
Definition page_of (records : list json) (k : nat → nat) (start : Z) : response :=
  Response 200 "{}"
    (inr (JObj [("data", JList (take (k (Z.to_nat start))
                                  (drop (Z.to_nat start) records)));
                ("total", JNum (Z.of_nat (length records)))]))
    None None "".

(** [E] answers the listing requests of both extractors with such pages. *)
Definition serves_pages (E : env) (records : list json) (k : nat → nat) : Prop :=
  ∀ t start batch_size,
    http E t (POST QUERY_API (query_payload start batch_size))
    = Responds (page_of records k start)
    ∧ http E t (POST Extractor.API_URL (Extractor.batch_payload start batch_size))
      = Responds (page_of records k start).

(** [starts] are the successive offsets of a listing of [n] records and
    [final] the number of records it returned: each offset is the previous
    one plus the number of records that the previous page held, the
    listing went on only after a page that was not empty and did not reach
    the total, and it stopped at the first page that was empty or reached
    the total. *)
Fixpoint paged (k : nat → nat) (n : nat) (starts : list nat) (final : nat)
    : Prop :=
  match starts with
  | [] => False
  | s :: rest =>
      let got := (k s `min` (n - s))%nat in
      match rest with
      | [] => final = (s + got)%nat ∧ (n ≤ final ∨ got = 0)%nat
      | s' :: _ =>
          s' = (s + got)%nat ∧ (s' < n)%nat ∧ (0 < got)%nat
          ∧ paged k n rest final
      end
  end.

(** The number of times the index file was written. *)
Fixpoint index_saves (tr : list event) : nat :=
  match tr with
  | [] => O
  | EvSaveIndex :: tr' => S (index_saves tr')
  | _ :: tr' => index_saves tr'
  end.

(** The warnings printed, most recent first. *)
Fixpoint warnings (tr : list event) : list string :=
  match tr with
  | [] => []
  | EvPrint msg :: tr' => msg :: warnings tr'
  | _ :: tr' => warnings tr'
  end.

(** The rows that [load] reads from the index file. *)
Definition stored_rows (f : index_file) : gmap string entry :=
  match f with
  | IndexStored (Some p) _ _ => p
  | _ => ∅
  end.

(** The [total_count] of the index file, when it has one. *)
Definition stored_count (f : index_file) : option Z :=
  match f with
  | IndexStored _ tc _ => tc
  | _ => None
  end.

(** The state in which a run starts its work: [mem] is what [load] reads. *)
Definition loaded (st : state) : state :=
  set_mem (IndexData (stored_rows (index_json st))
             (default 0 (stored_count (index_json st)))
             (match index_json st with IndexStored _ _ ls => ls | _ => None end))
    st.

(** A record is satisfied at the start of a run: the index file has a row
    for its identifier and [is_cached] accepts it. *)
Definition satisfied (st : state) (encoded_id : string) : Prop :=
  is_cached (loaded st) encoded_id true = true.
(** The result of the listing with which a run starts. *)
Definition listing_of (L : pylib) (E : env) (fuel : nat) (st : state)
    : outcome (list json) :=
  (list_all_payslips L E fuel (load st).2).1.

(** Whether the loop of lines 540-546 keeps a record as missing. *)
Definition wanted (L : pylib) (st : state) (ps : json) : outcome bool :=
  match _get_encoded_id L ps with
  | Ret encoded_id => Ret (negb (is_cached st encoded_id true))
  | Raise e => if isinstance e ValueError then Ret false else Raise e
  | NoFuel => NoFuel
  end.

(** The list [missing] of line 539, as a function of the listing and of the
    state in which the loop starts. *)
Fixpoint missing_of (L : pylib) (st : state) (payslips : list json)
    : outcome (list json) :=
  match payslips with
  | [] => Ret []
  | ps :: rest =>
      let? keep := wanted L st ps in
      let? more := missing_of L st rest in
      Ret (if keep then ps :: more else more)
  end.

(** The identifiers that a run may download: those that [is_cached]
    rejects when the run starts. *)
Definition absent (st : state) (encoded_id : string) : Prop :=
  is_cached (loaded st) encoded_id true = false.

(** Nothing but the trace changes, and the trace gains no detail request,
    no write and no save. *)
Definition quiet (st st' : state) : Prop :=
  mem st' = mem st ∧ files st' = files st ∧ index_json st' = index_json st
  ∧ detail_gets (trace st') = detail_gets (trace st)
  ∧ json_writes (trace st') = json_writes (trace st)
  ∧ index_saves (trace st') = index_saves (trace st).

(** The rows outside [D] are the rows [rows0], in memory and on disk. *)
Definition untouched (D : string → Prop) (rows0 : gmap string entry)
    (st : state) : Prop :=
  ∀ id, ¬ D id →
    payslips (mem st) !! id = rows0 !! id
    ∧ stored_rows (index_json st) !! id = rows0 !! id.

(** Between [st] and [st'] only rows of [D] were written, files were only
    added, and only records of [D] were requested. *)
Definition evolves (D : string → Prop) (st st' : state) : Prop :=
  (∀ rows0, untouched D rows0 st → untouched D rows0 st')
  ∧ (∀ p, is_Some (files st !! p) → is_Some (files st' !! p))
  ∧ (∃ news, detail_gets (trace st') = (news ++ detail_gets (trace st))%list
             ∧ Forall (λ u, ∃ id, D id ∧ u = detail_url id) news).

(** The index rows in memory and the observations of the trace are as
    before; files may have been added. *)
Definition calm (st st' : state) : Prop :=
  mem st' = mem st ∧ index_json st' = index_json st
  ∧ detail_gets (trace st') = detail_gets (trace st)
  ∧ json_writes (trace st') = json_writes (trace st)
  ∧ index_saves (trace st') = index_saves (trace st)
  ∧ ∀ p, is_Some (files st !! p) → is_Some (files st' !! p).

(** Between [st] and [st'] the record [encoded_id] was downloaded: its
    detail was requested, a document was written, and the row in memory
    points to that document. *)
Definition downloaded_since (st st' : state) (encoded_id : string) : Prop :=
  ∃ gets writes row path,
    detail_gets (trace st') = (gets ++ detail_gets (trace st))%list
    ∧ json_writes (trace st') = (writes ++ json_writes (trace st))%list
    ∧ detail_url encoded_id ∈ gets
    ∧ payslips (mem st') !! encoded_id = Some row
    ∧ json_path row = Some path
    ∧ path_join CACHE_DIR path ∈ writes.

(** Every row in memory that differs between [st] and [st'] belongs to a
    record downloaded in between. *)
Definition tracked (st st' : state) : Prop :=
  (∃ gets, detail_gets (trace st') = (gets ++ detail_gets (trace st))%list)
  ∧ (∃ writes, json_writes (trace st') = (writes ++ json_writes (trace st))%list)
  ∧ ∀ id, payslips (mem st') !! id ≠ payslips (mem st) !! id →
          downloaded_since st st' id.

(** What [is_cached] accepts in [st] it accepts in [st']. *)
Definition still_cached (st st' : state) : Prop :=
  ∀ id, is_cached st id true = true → is_cached st' id true = true.

(** The server answers every request for the detail of [encoded_id] with a
    document. *)
Definition answers_detail (E : env) (encoded_id : string) : Prop :=
  ∀ t, ∃ resp doc,
    http E t (GET (detail_url encoded_id)) = Responds resp
    ∧ _check_session_valid resp = Ret ()
    ∧ status_code resp = 200
    ∧ resp_json resp = inr doc.

(** The server answers every request for the detail of [encoded_id] as it
    does when the session has expired: with the status 401, or with an
    HTML login page. *)
Definition expired_for (E : env) (encoded_id : string) : Prop :=
  ∀ t, ∃ resp,
    http E t (GET (detail_url encoded_id)) = Responds resp
    ∧ (status_code resp = 401
       ∨ startswith (strip (text resp)) "<!" = true
       ∨ startswith (strip (text resp)) "<html" = true).

(** A request fails, if it fails, with an exception of [requests]. *)
Definition polite (E : env) : Prop :=
  ∀ t url e, http E t (GET url) = Fails e → isinstance e RequestException = true.

(** [ids] are the identifiers of [records], in order. *)
Definition identified (L : pylib) (records : list json) (ids : list string)
    : Prop :=
  Forall2 (λ ps id, _get_encoded_id L ps = Ret id) records ids.

(** The PDF of every record can be looked for: [_get_pdf_info] returns. *)
Definition locatable (records : list json) : Prop :=
  Forall (λ ps, ∃ info, _get_pdf_info ps = Ret info) records.

(** The pay date of every record is a plain file name: it contains no
    slash, so that the files of the record are made in the directory of its
    month, below the cache directory.  (A pay date that starts with a slash
    is an absolute path, which [/] takes in place of the directory.) *)
Definition storable (records : list json) : Prop :=
  Forall (λ ps, ∃ d, _get_pay_date ps = Ret d ∧ contains "/" d = false) records.

(** The index file holds the rows that are in memory. *)
Definition in_sync (st : state) : Prop :=
  stored_rows (index_json st) = payslips (mem st)
  ∧ stored_count (index_json st) = Some (Z.of_nat (size (payslips (mem st)))).

(** The identifier of a record is cached in [st]. *)
Definition cached_record (L : pylib) (st : state) (ps : json) : Prop :=
  ∀ id, _get_encoded_id L ps = Ret id → is_cached st id true = true.

(** The detail of a record is among the requested URLs [gets]. *)
Definition requested_record (L : pylib) (gets : list string) (ps : json) : Prop :=
  ∀ id, _get_encoded_id L ps = Ret id → detail_url id ∈ gets.
End Obs.

(** ** Concrete servers and records on which the embedding is run *)

Module Fixtures.
Import Py World Sync Obs.

(** A 200 response whose body is the JSON document [j]. *)
Definition ok_json (j : json) : response :=
  Response 200 "{}" (inr j) None None "".

(** A listed record with a detail link and a pay date. *)
Definition summary (encoded_id date : string) : json :=
  JObj [("payDetailUri",
         JObj [("href", JStr ("/v1_0/O/A/payStatement/" +:+ encoded_id))]);
        ("payDate", JStr date)].

(** A listed record without a detail link and without an identifier. *)
Definition nameless : json := JObj [("payDate", JStr "2024-03-31")].

Definition listing (records : list json) : response :=
  ok_json (JObj [("data", JList records);
                 ("total", JNum (Z.of_nat (length records)))]).

Definition stamp (t : nat) : string := "T" +:+ pretty t.

(** A server that holds [records], returns [k s] of them at offset [s]
    whatever page size is asked for, and answers every detail request. *)
Definition paging_server (records : list json) (k : nat → nat) : env :=
  Env (λ _ r, match r with
              | POST _ payload => Responds (page_of records k (post_start payload))
              | GET url => Responds (ok_json (JObj [("url", JStr url)]))
              end)
      stamp.

(** A server that lists [records] in one page. *)
Definition server (records : list json) : env :=
  paging_server records (λ _, length records).

(** The same server, with the user pressing Ctrl-C during the request that
    is made when [moment] events have happened. *)
Definition interrupted_server (records : list json) (moment : nat) : env :=
  Env (λ t r, if (t =? moment)%nat
              then Fails (Exn KeyboardInterrupt "")
              else http (server records) t r)
      stamp.

(** The same server when the session has expired for the record [bad]:
    its detail request is answered with the status 401. *)
Definition expiring_server (records : list json) (bad : string) : env :=
  Env (λ t r, match r with
              | GET url =>
                  if String.eqb url (detail_url bad)
                  then Responds (Response 401 "" (inl "") None None "")
                  else http (server records) t r
              | POST _ _ => http (server records) t r
              end)
      stamp.

(** An empty cache directory. *)
Definition fresh : state := State (IndexData ∅ 0 None) ∅ IndexAbsent [].

Definition january : json := summary "a" "2024-01-31".
Definition february : json := summary "b" "2024-02-29".

Definition march : json := summary "c" "2024-03-29".

(** The cache directory after a first run against a server that lists
    January and February. *)
Definition synced_once : state :=
  (sync_all Reference.lib (server [january; february]) 5 true fresh).2.

(** The same directory after the January document has been deleted. *)
Definition dangling : state :=
  set_files (delete ".cache/payslips/2024/01/2024-01-31.json" (files synced_once))
    synced_once.

(** An index with a row that names no document, in an empty directory. *)
Definition pathless : state :=
  State (IndexData {["x" := Entry "2024-01-31" None None "T0"]} 1 None)
    ∅ IndexAbsent [].

Definition four : list json := [JNum 1; JNum 2; JNum 3; JNum 4].

(** The server of the scenario: a total of four records, two per page. *)
Definition two_by_two : env := paging_server four (λ _, 2%nat).

(** Tokens: the payloads are the base64 text of [{"exp":0}] and of [1]. *)
Definition token_exp_zero : string := "h.eyJleHAiOjB9.s".
Definition token_payload_one : string := "x.MQ.y".
End Fixtures.

(** ** Further observations and scenarios *)

Module Watch.
Import Py World Sync Obs.

(** The URLs of the PDF requests of a trace, most recent first. *)
Fixpoint pdf_gets (tr : list event) : list string :=
  match tr with
  | [] => []
  | EvHttp PdfFetcher (GET url) :: tr' => url :: pdf_gets tr'
  | _ :: tr' => pdf_gets tr'
  end.

(** The paths of the PDF files written, most recent first. *)
Fixpoint pdf_writes (tr : list event) : list string :=
  match tr with
  | [] => []
  | EvWrite path (Bytes _) :: tr' => path :: pdf_writes tr'
  | _ :: tr' => pdf_writes tr'
  end.

(** An event is a request of [_fetch_pdf_via_requests]. *)
Definition is_pdf_get (e : event) : Prop :=
  ∃ url, e = EvHttp PdfFetcher (GET url).

(** Between [st] and [st'] no PDF was requested or written, and every row
    in memory that is not a row of [st] has no [pdf_path]. *)
Definition without_pdf (st st' : state) : Prop :=
  pdf_gets (trace st') = pdf_gets (trace st)
  ∧ pdf_writes (trace st') = pdf_writes (trace st)
  ∧ ∀ id row, payslips (mem st') !! id = Some row →
              payslips (mem st) !! id = Some row ∨ pdf_path row = None.

(** Rows are only added or replaced, files only added or overwritten. *)
Definition grows (st st' : state) : Prop :=
  dom (payslips (mem st)) ⊆ dom (payslips (mem st'))
  ∧ ∀ p, is_Some (files st !! p) → is_Some (files st' !! p).

(** [x] raises no [RuntimeError]. *)
Definition tame {A} (x : outcome A) : Prop :=
  ∀ e, x = Raise e → isinstance e RuntimeError = false.

(** The content type of a response is one that
    [_fetch_pdf_via_requests] accepts, line 409. *)
Definition pdf_content_type (r : response) : bool :=
  contains "application/pdf" (default "" (content_type r))
  || contains "octet-stream" (default "" (content_type r)).
End Watch.

Module Scenarios.
Import Py World Sync Obs Fixtures.

(** The server of [Fixtures.server], answering the detail request of the
    record [bad] with the bare status [status]. *)
Definition refusing_server (records : list json) (bad : string) (status : Z)
    : env :=
  Env (λ t r, match r with
              | GET url =>
                  if String.eqb url (detail_url bad)
                  then Responds (Response status "" (inl "") None None "")
                  else http (server records) t r
              | POST _ _ => http (server records) t r
              end)
      stamp.

(** A server whose listing endpoint answers with the bare status
    [status]. *)
Definition broken_lister (status : Z) : env :=
  Env (λ _ r, match r with
              | POST _ _ => Responds (Response status "down" (inl "") None None "")
              | GET url => Responds (ok_json (JObj [("url", JStr url)]))
              end)
      stamp.

(** A server that redirects every PDF request to itself. *)
Definition redirecting_server : env :=
  Env (λ _ r, Responds (Response 302 "" (inl "") (Some "/again") None ""))
      stamp.

(** A server that lists [records] and answers every other request with a
    PDF. *)
Definition pdf_server (records : list json) : env :=
  Env (λ _ r, match r with
              | POST _ _ => Responds (listing records)
              | GET url =>
                  Responds (Response 200 "{}" (inr (JObj [("url", JStr url)]))
                              None (Some "application/pdf") "%PDF")
              end)
      stamp.

(** A listed record with a detail link, a pay date and a statement image. *)
Definition with_image (encoded_id date statement image : string) : json :=
  JObj [("payDetailUri",
         JObj [("href", JStr ("/v1_0/O/A/payStatement/" +:+ encoded_id))]);
        ("payDate", JStr date);
        ("statementImageUri",
         JObj [("href", JStr ("/v1_0/O/A/payStatement/" +:+ statement
                                +:+ "/images/" +:+ image +:+ ".pdf"))])].

(** January with a statement image, and the cache directory after a run
    that skipped the PDFs. *)
Definition january_image : json := with_image "a" "2024-01-31" "S1" "I1".

Definition json_only : state :=
  (sync_all Reference.lib (pdf_server [january_image]) 5 true fresh).2.

(** The cache directory after a run that fetched the PDFs. *)
Definition with_pdfs : state :=
  (sync_all Reference.lib (pdf_server [january_image]) 5 false fresh).2.

(** A record whose pay date is an absolute path. *)
Definition stray : json := summary "z" "/tmp/x".
End Scenarios.

(** ** [payslip_sync.py]: the PDF-only mode *)

Module PdfOnly.
Import Py World Sync.

(** [except Exception]: every class of the model but [KeyboardInterrupt]. *)
Definition is_exception (e : exn) : bool :=
  negb (isinstance e KeyboardInterrupt).

Section Syncer.
Variable L : pylib.
Variable E : env.

(** [dict.items()]: the rows in the order of the dict, which the state does
    not record. *)
Variable items : gmap string entry → list (string * entry).

(** Lines 127-129. *)
Definition get_all (st : state) : gmap string entry := payslips (mem st).

(** Lines 629-636: the loop that fills [id_map]. *)
Fixpoint pdf_ids_of (payslips : list json)
    (id_map : gmap string (string * string))
    : outcome (gmap string (string * string)) :=
  match payslips with
  | [] => Ret id_map
  | ps :: rest =>
      let? encoded_id := _get_encoded_id L ps in
      let? info := _get_pdf_info ps in
      if opt_truthy info.1 && opt_truthy info.2
      then pdf_ids_of rest
             (<[encoded_id := (default "" info.1, default "" info.2)]> id_map)
      else pdf_ids_of rest id_map
  end.

(** Lines 615-639. *)
Definition _get_pdf_statement_ids (fuel : nat)
    : M (gmap string (string * string)) :=
  let* payslips := list_all_payslips L E fuel in
  lift (pdf_ids_of payslips ∅).

(** Lines 661-667: whether a row goes to [missing_pdf]. *)
Definition lacks_pdf (st : state) (info : entry) : bool :=
  match pdf_path info with
  | Some p =>
      if str_truthy p
      then negb (exists_file st (path_join CACHE_DIR p))
      else true
  | None => true
  end.

(** Line 711: [self.index._data["payslips"][encoded_id]["pdf_path"] = rel]. *)
Definition set_pdf_path (encoded_id rel : string) : M unit := λ st,
  match payslips (mem st) !! encoded_id with
  | Some row =>
      (Ret (),
       set_mem (IndexData
                  (<[encoded_id := Entry (pay_date row) (json_path row) (Some rel)
                                     (cached_at row)]> (payslips (mem st)))
                  (total_count (mem st)) (last_sync (mem st))) st)
  | None => (Raise (Exn KeyError encoded_id), st)
  end.

(** Lines 692-715: the body of the [try] block for one row; [None] is the
    [continue] of line 696, which also passes over the pause of
    line 721. *)
Definition pdf_only_one (pdf_id_map : gmap string (string * string))
    (encoded_id pay_date : string) (newly_downloaded : Z) : M (option Z) :=
  match pdf_id_map !! encoded_id with
  | None => ret None
  | Some (statement_id, image_id) =>
      let pdf_url := _build_pdf_api_url statement_id image_id in
      let* pdf_data := fetch_payslip_pdf E pdf_url in
      if opt_truthy pdf_data then
        let pdf_path := _make_file_path L pay_date "pdf" in
        run write_file pdf_path (Bytes (default "" pdf_data)) in
        let* pdf_rel_path := lift (relative_to pdf_path CACHE_DIR) in
        run set_pdf_path encoded_id pdf_rel_path in
        ret (Some (newly_downloaded + 1))
      else ret (Some newly_downloaded)
  end.

(** Lines 687-721: the download loop.  The pay date of a row is always
    there in the index of the model. *)
Fixpoint pdf_only_loop (pdf_id_map : gmap string (string * string))
    (missing_pdf : list (string * entry)) (newly_downloaded : Z) : M Z :=
  match missing_pdf with
  | [] => ret newly_downloaded
  | (encoded_id, info) :: rest =>
      let* step :=
        try_except
          (pdf_only_one pdf_id_map encoded_id (pay_date info) newly_downloaded)
          is_exception
          (λ _, ret (Some newly_downloaded)) in
      match step with
      | None => pdf_only_loop pdf_id_map rest newly_downloaded
      | Some n => run sleep in pdf_only_loop pdf_id_map rest n
      end
  end.

(** Lines 658-667. *)
Definition missing_pdf_of (st : state) : list (string * entry) :=
  List.filter (λ kv, lacks_pdf st kv.2) (items (get_all st)).

(** Lines 650-726: what follows the loading of the index. *)
Definition sync_pdfs_loaded (fuel : nat) : M (Z * Z * Z) := λ st,
  let all_cached := get_all st in
  let total_cached := Z.of_nat (size all_cached) in
  if (size all_cached =? 0)%nat then (Ret (0, 0, 0), st)
  else
    let missing_pdf := missing_pdf_of st in
    let already_have_pdf := total_cached - Z.of_nat (length missing_pdf) in
    match missing_pdf with
    | [] => (Ret (total_cached, already_have_pdf, 0), st)
    | _ =>
        (let* pdf_id_map := _get_pdf_statement_ids fuel in
         let* newly_downloaded := pdf_only_loop pdf_id_map missing_pdf 0 in
         run save E in
         ret (total_cached, already_have_pdf, newly_downloaded)) st
    end.

(** Lines 641-726. *)
Definition sync_pdfs_only (fuel : nat) : M (Z * Z * Z) :=
  run load in sync_pdfs_loaded fuel.
End Syncer.

(** The fields of a row other than [pdf_path] are the same, and a
    [pdf_path] that differs names a file that exists in [st']. *)
Definition same_but_pdf (st' : state) (row row' : entry) : Prop :=
  pay_date row' = pay_date row
  ∧ json_path row' = json_path row
  ∧ cached_at row' = cached_at row
  ∧ (pdf_path row' = pdf_path row ∨ lacks_pdf st' row' = false).

(** Between [st] and [st'] the rows in memory have at most gained a PDF,
    and files were only added. *)
Definition gains_pdfs (st st' : state) : Prop :=
  dom (payslips (mem st')) = dom (payslips (mem st))
  ∧ (∀ id row, payslips (mem st) !! id = Some row →
       ∃ row', payslips (mem st') !! id = Some row' ∧ same_but_pdf st' row row')
  ∧ (∀ p, is_Some (files st !! p) → is_Some (files st' !! p))
  ∧ Obs.detail_gets (trace st') = Obs.detail_gets (trace st)
  ∧ Obs.json_writes (trace st') = Obs.json_writes (trace st)
  ∧ index_json st' = index_json st.

(** The server answers every [GET] with a PDF that is not empty. *)
Definition delivers_pdfs (E : env) : Prop :=
  ∀ t url, ∃ resp,
    http E t (GET url) = Responds resp
    ∧ status_code resp = 200
    ∧ Watch.pdf_content_type resp = true
    ∧ str_truthy (content resp) = true.

(** [ids] are the identifiers of [records], in order, and every record
    names a statement and an image. *)
Definition pictured (L : pylib) (records : list json) (ids : list string)
    : Prop :=
  Forall2 (λ ps id,
             _get_encoded_id L ps = Ret id
             ∧ ∃ sid iid, _get_pdf_info ps = Ret (Some sid, Some iid)
                          ∧ str_truthy sid = true ∧ str_truthy iid = true)
    records ids.
End PdfOnly.

(** ** [ihcm_auth.py]: the session cache file *)

Module Session.
Import Py World.

(** The file [~/.cache/ihcm/session.json]: missing, or a text with its
    permission bits; a file that exists can be read.  A text that
    [json.dumps] wrote is kept as the document it encodes. *)
Inductive cache_file : Type :=
| Missing
| Holds (c : file_content) (mode : Z).

(** What the methods of [SessionCache] see and change: the file, the number
    of times the clock has been read, and the lines printed (most recent
    first). *)
Record disk : Type := Disk {
  session_file : cache_file;
  clock_reads : nat;
  printed : list string;
}.

Definition set_file (f : cache_file) (d : disk) : disk :=
  Disk f (clock_reads d) (printed d).

(** [d[k] = v] on a dict: the binding is replaced in place, or added at the
    end. *)
Fixpoint dict_set (k : string) (v : json) (o : list (string * json))
    : list (string * json) :=
  match o with
  | [] => [(k, v)]
  | (k', v') :: rest =>
      if String.eqb k k' then (k, v) :: rest else (k', v') :: dict_set k v rest
  end.

(** [data[k] = v] on a value whose type is only known at run time. *)
Definition py_setitem (data : json) (k : string) (v : json) : outcome json :=
  match data with
  | JObj o => Ret (JObj (dict_set k v o))
  | JList _ =>
      Raise (Exn TypeError "list indices must be integers or slices, not str")
  | _ => Raise (Exn TypeError "object does not support item assignment")
  end.

(** [all(field in data for field in fields)] *)
Fixpoint has_all (fields : list string) (data : json) : outcome bool :=
  match fields with
  | [] => Ret true
  | field :: rest =>
      let? present := py_in field data in
      if present then has_all rest data else Ret false
  end.

Definition required_fields : list string :=
  ["bearer_token"; "cookies"; "created_at"].

Section SessionCache.
Variable L : pylib.

(** [datetime.now().isoformat()] at the [n]-th reading of the clock. *)
Variable clock : nat → string.

(** [self.verbose] and [str(self.CACHE_FILE)]. *)
Variable verbose : bool.
Variable CACHE_FILE : string.

(** The permission bits of a file that [write_text] creates. *)
Variable default_mode : Z.

(** Lines 196-198. *)
Definition _log (message : string) (d : disk) : disk :=
  if verbose
  then Disk (session_file d) (clock_reads d) (message :: printed d)
  else d.

Definition now (d : disk) : string * disk :=
  (clock (clock_reads d), Disk (session_file d) (S (clock_reads d)) (printed d)).

(** [path.write_text(json.dumps(doc, indent=2))]: an existing file keeps
    its permission bits. *)
Definition write_text (doc : json) (f : cache_file) : cache_file :=
  match f with
  | Holds _ mode => Holds (JsonText doc) mode
  | _ => Holds (JsonText doc) default_mode
  end.

(** [path.chmod(mode)] *)
Definition chmod (mode : Z) (f : cache_file) : cache_file :=
  match f with
  | Holds c _ => Holds c mode
  | _ => f
  end.

(** [json.loads(path.read_text())]; [None] is [json.JSONDecodeError]. *)
Definition read_json (c : file_content) : option json :=
  match c with
  | JsonText doc => Some doc
  | Bytes b => json_loads L b
  end.

(** Lines 200-219; [0o600] is 384. *)
Definition save (bearer_token : string) (cookies : json)
    (xsrf_token : option string) (d : disk) : disk :=
  let '(created_at, d) := now d in
  let '(last_validated, d) := now d in
  let cache_data :=
    JObj [("bearer_token", JStr bearer_token);
          ("cookies", cookies);
          ("xsrf_token", match xsrf_token with
                         | Some x => JStr x
                         | None => JNull
                         end);
          ("created_at", JStr created_at);
          ("last_validated", JStr last_validated)] in
  _log ("  Session cached to " +:+ CACHE_FILE)
    (set_file (chmod 384 (write_text cache_data (session_file d))) d).

(** Lines 248-252. *)
Definition clear (d : disk) : disk :=
  match session_file d with
  | Missing => d
  | _ => _log "  Session cache cleared" (set_file Missing d)
  end.

(** Lines 221-239. *)
Definition load (d : disk) : outcome (option json) * disk :=
  let corrupted d :=
    (Ret None, clear (_log "  Cache file corrupted, will re-authenticate" d)) in
  match session_file d with
  | Missing => (Ret None, d)
  | Holds c _ =>
      match read_json c with
      | None => corrupted d
      | Some data =>
          match has_all required_fields data with
          | Ret true => (Ret (Some data), d)
          | Ret false =>
              (Ret None,
               clear (_log "  Cache missing required fields, will re-authenticate"
                        d))
          | Raise e => (Raise e, d)
          | NoFuel => (NoFuel, d)
          end
      end
  end.

(** Lines 241-246. *)
Definition update_last_validated (d : disk) : outcome unit * disk :=
  match load d with
  | (Ret (Some data), d) =>
      if truthy data then
        let '(stamp, d) := now d in
        match py_setitem data "last_validated" (JStr stamp) with
        | Ret data => (Ret (), set_file (write_text data (session_file d)) d)
        | Raise e => (Raise e, d)
        | NoFuel => (NoFuel, d)
        end
      else (Ret (), d)
  | (Ret None, d) => (Ret (), d)
  | (Raise e, d) => (Raise e, d)
  | (NoFuel, d) => (NoFuel, d)
  end.
End SessionCache.

(** [json.loads] gives a number, a truth value or [null]. *)
Definition scalar (data : json) : Prop :=
  match data with
  | JNull | JBool _ | JNum _ => True
  | _ => False
  end.

(** A cache file that [load] gives up on: it is not JSON, or it is a JSON
    object without one of the required fields. *)
Definition unusable (L : pylib) (f : cache_file) : Prop :=
  match f with
  | Missing => False
  | Holds c _ =>
      match read_json L c with
      | None => True
      | Some (JObj o) => ∃ field, field ∈ required_fields ∧ dict_get field o = None
      | Some _ => False
      end
  end.
End Session.

(** ** [ihcm_auth.py]: getting the credentials *)

Module Credentials.
Import Py.

Definition nl : string := String "010"%char "".

(** The double quote. *)
Definition dq : string := String "034"%char "".

(** How [subprocess.run(..., check=True)] ends: with the standard output of
    the command, with [CalledProcessError] and its standard error, with
    [FileNotFoundError], or with another exception. *)
Inductive proc : Type :=
| Completed (stdout : string)
| CalledProcessError (stderr : string)
| FileNotFoundError
| OtherFailure (e : exn).

(** What the functions ask of the machine and of the user:
    [shutil.which('op') is not None], the run of
    [op item get <item> --fields <field>], and what [input] and
    [getpass.getpass] return or raise. *)
Record terminal : Type := Terminal {
  which_op : bool;
  op_get : string → string → proc;
  typed_username : outcome string;
  typed_password : outcome string;
}.

(** Lines 349-358: the two handlers of [get_credentials_from_1password]. *)
Definition run_op (p : proc) : outcome string :=
  match p with
  | Completed stdout => Ret stdout
  | CalledProcessError stderr =>
      Raise (Exn RuntimeError
               ("Failed to get credentials from 1Password: " +:+ stderr +:+ nl
                  +:+ "Make sure you are signed into 1Password CLI (run: op signin)"))
  | FileNotFoundError =>
      Raise (Exn RuntimeError
               ("1Password CLI (op) not found. Please install it:" +:+ nl
                  +:+ "  brew install 1password-cli"))
  | OtherFailure e => Raise e
  end.

Section Terminal.
Variable T : terminal.

(** Lines 297-299. *)
Definition is_1password_available : bool := which_op T.

(** Lines 302-316: the result and the lines printed. *)
Definition get_credentials_from_prompt
    : outcome (string * string) * list string :=
  let out := [""; "Please enter your ADP iHCM credentials:"] in
  (let? typed := typed_username T in
   let username := strip typed in
   let? password := typed_password T in
   if negb (str_truthy username) || negb (str_truthy password)
   then Raise (Exn ValueError "Username and password are required")
   else Ret (username, password),
   out).

(** Lines 319-358. *)
Definition get_credentials_from_1password (item_name : string)
    : outcome (string * string) :=
  let? stdout := run_op (op_get T item_name "username") in
  let username := strip stdout in
  let? stdout := run_op (op_get T item_name "password") in
  let password := strip stdout in
  if negb (str_truthy username) || negb (str_truthy password)
  then Raise (Exn ValueError
                ("Empty credentials retrieved from 1Password item " +:+ dq
                   +:+ item_name +:+ dq))
  else Ret (username, password).

(** Lines 361-385. *)
Definition get_credentials (item_name : string) (verbose : bool)
    : outcome (string * string) * list string :=
  let say (lines : list string) := if verbose then lines else [] in
  if is_1password_available then
    let out :=
      say ["Getting credentials from 1Password (" +:+ item_name +:+ ")..."] in
    match get_credentials_from_1password item_name with
    | Raise e =>
        if isinstance e RuntimeError then
          let out := (out ++ say ["  Warning: " +:+ exn_msg e;
                                  "  Falling back to manual credential entry..."])%list in
          ((get_credentials_from_prompt).1,
           (out ++ (get_credentials_from_prompt).2)%list)
        else (Raise e, out)
    | r => (r, out)
    end
  else
    let out :=
      say ["1Password CLI not found. You can install it for automatic credential management.";
           "  See: https://developer.1password.com/docs/cli/get-started/"] in
    ((get_credentials_from_prompt).1,
     (out ++ (get_credentials_from_prompt).2)%list).
End Terminal.
End Credentials.
Module Paths.
Import Py World Sync Obs.

Lemma append_cons (x : ascii) (a b : string) :
  String x a +:+ b = String x (a +:+ b).
Proof. reflexivity. Qed.

Lemma append_assoc (a b c : string) : (a +:+ b) +:+ c = a +:+ (b +:+ c).
Proof.
  induction a as [|x a IH]; [done|].
  rewrite !append_cons. f_equal. exact IH.
Qed.

Lemma append_inj_l (a b c : string) : a +:+ b = a +:+ c → b = c.
Proof.
  induction a as [|x a IH]; [done|].
  rewrite !append_cons. intros H. injection H. auto.
Qed.

Lemma substring_all (s : string) : String.substring 0 (String.length s) s = s.
Proof. induction s as [|c s IH]; simpl; [done|]. f_equal. exact IH. Qed.

(** A number is never printed with a leading slash. *)
Lemma pretty_N_go_relative (x : N) (s : string) :
  is_absolute s = false → s ≠ "" → is_absolute (pretty_N_go x s) = false.
Proof.
  revert s. induction (N.lt_wf_0 x) as [x _ IH]; intros s Hs Hne.
  destruct (decide (x = 0)%N) as [->|Hx].
  { by rewrite pretty_N_go_0. }
  rewrite pretty_N_go_step by lia.
  apply IH; [apply N.div_lt; lia| |done].
  unfold pretty_N_char. by repeat case_match.
Qed.

Lemma pretty_N_relative (x : N) : is_absolute (pretty x) = false.
Proof.
  unfold pretty, pretty_N. destruct (decide (x = 0)%N) as [->|Hx]; [done|].
  rewrite pretty_N_go_step by lia.
  apply pretty_N_go_relative; [|done].
  unfold pretty_N_char. by repeat case_match.
Qed.

Lemma pretty_Z_relative (z : Z) : is_absolute (pretty z) = false.
Proof.
  destruct z as [|p|p]; [done| |done].
  apply (pretty_N_relative (N.pos p)).
Qed.

Lemma two_digits_relative (m : Z) : is_absolute (two_digits m) = false.
Proof.
  unfold two_digits. destruct (_ && _); [done|apply pretty_Z_relative].
Qed.

Lemma prefix_empty (s : string) : String.prefix "" s = true.
Proof. by destruct s. Qed.

Lemma is_absolute_cons (c : ascii) (s : string) :
  is_absolute (String c s) = if ascii_dec "/" c then true else false.
Proof.
  unfold is_absolute, startswith. cbn [String.prefix].
  destruct (ascii_dec "/" c); [apply prefix_empty|done].
Qed.

Lemma is_absolute_app (a b : string) :
  a ≠ "" → is_absolute (a +:+ b) = is_absolute a.
Proof.
  destruct a as [|c a]; [done|]. intros _.
  by rewrite append_cons, !is_absolute_cons.
Qed.

Lemma pretty_Z_nonempty (z : Z) : pretty z ≠ "".
Proof.
  intros H. pose proof (pretty_Z_inj z 0) as Hinj.
  destruct z as [|p|p]; [done| |done].
  change (pretty (Z.pos p)) with (pretty (N.pos p)) in H.
  unfold pretty, pretty_N in H. simpl in H.
  rewrite pretty_N_go_step in H by lia.
  assert (Hlen : ∀ x s, s ≠ "" → pretty_N_go x s ≠ "").
  { clear. intros x. induction (N.lt_wf_0 x) as [x _ IH]; intros s Hs.
    destruct (decide (x = 0)%N) as [->|Hx]; [by rewrite pretty_N_go_0|].
    rewrite pretty_N_go_step by lia. apply IH; [apply N.div_lt; lia|done]. }
  by eapply Hlen in H.
Qed.

(** A plain file name is not an absolute path. *)
Lemma plain_name_relative (d : string) :
  contains "/" d = false → is_absolute d = false.
Proof.
  unfold is_absolute, startswith. destruct d as [|c d]; [done|].
  cbn [contains]. by intros [? _]%orb_false_iff.
Qed.

(** The path that [relative_to] gives back is not absolute. *)
Lemma rel_file_path_relative L pay_date ext :
  is_absolute (rel_file_path L pay_date ext) = false.
Proof.
  unfold rel_file_path.
  destruct (fromisoformat L _) as [[y m]|]; [|done].
  rewrite is_absolute_app by apply pretty_Z_nonempty.
  apply pretty_Z_relative.
Qed.

(** An absolute file name replaces the directory: a pay date that starts
    with a slash takes the file out of the cache directory. *)
Lemma make_file_path_absolute L pay_date ext :
  is_absolute pay_date = true →
  _make_file_path L pay_date ext = pay_date +:+ "." +:+ ext.
Proof.
  intros Habs. unfold _make_file_path.
  destruct (fromisoformat L _) as [[y m]|]; unfold path_join at 1;
    by (rewrite is_absolute_app, Habs; [|by destruct pay_date]).
Qed.

Lemma make_file_path_rel L pay_date ext :
  is_absolute pay_date = false →
  _make_file_path L pay_date ext = path_join CACHE_DIR (rel_file_path L pay_date ext).
Proof.
  intros Hrel.
  assert (Hname : is_absolute (pay_date +:+ "." +:+ ext) = false).
  { destruct pay_date as [|c d]; [done|]. by rewrite is_absolute_app. }
  unfold path_join at 1. rewrite rel_file_path_relative.
  unfold _make_file_path, rel_file_path.
  destruct (fromisoformat L _) as [[y m]|]; unfold path_join;
    rewrite Hname, ?pretty_Z_relative, ?two_digits_relative;
    by rewrite ?append_assoc.
Qed.

Lemma relative_to_cache_dir (rel : string) :
  is_absolute rel = false →
  relative_to (path_join CACHE_DIR rel) CACHE_DIR = Ret rel.
Proof.
  intros Hrel. unfold relative_to, path_join, CACHE_DIR. rewrite Hrel. simpl.
  change ("" +:+ rel) with rel.
  by rewrite prefix_empty, Nat.sub_0_r, substring_all.
Qed.

Lemma relative_to_make_file_path L pay_date ext :
  is_absolute pay_date = false →
  relative_to (_make_file_path L pay_date ext) CACHE_DIR
  = Ret (rel_file_path L pay_date ext).
Proof.
  intros Hrel. rewrite make_file_path_rel by done.
  apply relative_to_cache_dir, rel_file_path_relative.
Qed.

(** A file outside the cache directory has no relative path: line 591
    raises [ValueError]. *)
Lemma relative_to_absolute L pay_date ext :
  is_absolute pay_date = true →
  relative_to (_make_file_path L pay_date ext) CACHE_DIR
  = Raise (Exn ValueError "path is not in the subpath of base").
Proof.
  intros Habs. rewrite make_file_path_absolute by done.
  destruct pay_date as [|c d]; [done|].
  rewrite is_absolute_cons in Habs.
  destruct (ascii_dec "/" c) as [<-|]; [done|discriminate].
Qed.

(** When [relative_to] returns, the file is the one below the cache
    directory that the pay date names. *)
Lemma relative_to_make_file_path_inv L pay_date ext rel :
  relative_to (_make_file_path L pay_date ext) CACHE_DIR = Ret rel →
  is_absolute pay_date = false ∧ rel = rel_file_path L pay_date ext.
Proof.
  destruct (is_absolute pay_date) eqn:Habs.
  - by rewrite relative_to_absolute.
  - rewrite relative_to_make_file_path by done. intros [= <-]. done.
Qed.

Lemma rel_file_path_truthy L pay_date ext :
  str_truthy (rel_file_path L pay_date ext) = true.
Proof.
  unfold rel_file_path, two_digits.
  destruct (fromisoformat L _) as [[y m]|]; [|done].
  unfold str_truthy.
  destruct (pretty y +:+ _) eqn:Hs; [|done].
  exfalso. destruct (pretty y) eqn:Hy; simpl in Hs; discriminate.
Qed.

Lemma detail_url_inj a b : detail_url a = detail_url b → a = b.
Proof. unfold detail_url. intros H. by apply append_inj_l, append_inj_l in H. Qed.
End Paths.
(** ** Reasoning about stateful computations *)

Module Logic.
Import Py World.

Lemma bind_run {A B} (m : M A) (f : A → M B) st :
  bind m f st =
  match m st with
  | (Ret a, st') => f a st'
  | (Raise e, st') => (Raise e, st')
  | (NoFuel, st') => (NoFuel, st')
  end.
Proof. reflexivity. Qed.

Lemma try_run {A} (body : M A) handles handler st :
  try_except body handles handler st =
  match body st with
  | (Raise e, st') => if handles e then handler e st' else (Raise e, st')
  | r => r
  end.
Proof. reflexivity. Qed.

Lemma wp_elim {A} (m : M A) st r st' Q :
  m st = (r, st') → wp m st Q → Q r st'.
Proof. unfold wp. by intros ->. Qed.

Lemma wp_mono {A} (m : M A) st (Q Q' : outcome A → state → Prop) :
  wp m st Q → (∀ r s, Q r s → Q' r s) → wp m st Q'.
Proof. unfold wp. auto. Qed.

Lemma wp_ret {A} (a : A) st (Q : outcome A → state → Prop) :
  Q (Ret a) st → wp (ret a) st Q.
Proof. done. Qed.

Lemma wp_raise {A} e st (Q : outcome A → state → Prop) :
  Q (Raise e) st → wp (raise e) st Q.
Proof. done. Qed.

Lemma wp_lift {A} (x : outcome A) st (Q : outcome A → state → Prop) :
  Q x st → wp (lift x) st Q.
Proof. done. Qed.

Lemma wp_bind {A B} (m : M A) (f : A → M B) st Q :
  wp m st (after f Q) → wp (bind m f) st Q.
Proof.
  unfold wp, bind, after. destruct (m st) as [[a|e|] st1]; simpl; auto.
Qed.

Lemma wp_try {A} (body : M A) handles handler st Q :
  wp body st (caught handles handler Q) → wp (try_except body handles handler) st Q.
Proof.
  unfold wp, try_except, caught.
  destruct (body st) as [[a|e|] st1]; simpl; auto.
  destruct (handles e); auto.
Qed.

Section Preserves.
Variable R : relation state.
Hypothesis HR : PreOrder R.

Lemma preserves_ret {A} (a : A) : preserves R (ret a).
Proof. intros st. reflexivity. Qed.

Lemma preserves_raise {A} e : preserves R (@raise A e).
Proof. intros st. reflexivity. Qed.

Lemma preserves_lift {A} (x : outcome A) : preserves R (lift x).
Proof. intros st. reflexivity. Qed.

Lemma preserves_bind {A B} (m : M A) (f : A → M B) :
  preserves R m → (∀ a, preserves R (f a)) → preserves R (bind m f).
Proof.
  intros Hm Hf st. unfold bind. specialize (Hm st).
  destruct (m st) as [[a|e|] st1]; simpl in *; auto.
  etrans; [exact Hm|apply Hf].
Qed.

Lemma preserves_bind_lift {A B} (x : outcome A) (f : A → M B) :
  (∀ a, x = Ret a → preserves R (f a)) → preserves R (bind (lift x) f).
Proof.
  intros Hf st. unfold bind, lift. destruct x as [a|e|]; simpl; try reflexivity.
  by apply Hf.
Qed.

Lemma preserves_try {A} (body : M A) handles handler :
  preserves R body → (∀ e, preserves R (handler e)) →
  preserves R (try_except body handles handler).
Proof.
  intros Hb Hh st. unfold try_except. specialize (Hb st).
  destruct (body st) as [[a|e|] st1]; simpl in *; auto.
  destruct (handles e); auto. etrans; [exact Hb|apply Hh].
Qed.
End Preserves.

Lemma preserves_wp {A} R (m : M A) st :
  preserves R m → wp m st (λ _ st', R st st').
Proof. intros H. apply H. Qed.

(** One step of a frame proof: split a [bind] or a [try], or case on the
    test of a conditional. *)
Ltac frame_step :=
  lazymatch goal with
  | |- preserves _ (bind (lift _) _) =>
      apply preserves_bind_lift; [exact _|intros ? ?]
  | |- preserves _ (bind _ _) => apply preserves_bind; [exact _| |intros ?]
  | |- preserves _ (try_except _ _ _) =>
      apply preserves_try; [exact _| |intros ?]
  | |- preserves _ (ret _) => apply preserves_ret; exact _
  | |- preserves _ (raise _) => apply preserves_raise; exact _
  | |- preserves _ (lift _) => apply preserves_lift; exact _
  | |- preserves _ (if ?b then _ else _) => destruct b eqn:?
  | |- preserves _ (match ?x with _ => _ end) => destruct x eqn:?
  end.

End Logic.
(** ** Frame properties of the synchroniser *)

Module Frame.
Import Py World Sync Obs Logic.

#[export] Instance quiet_preorder : PreOrder quiet.
Proof.
  split.
  - intros st. by repeat split.
  - intros a b c (?&?&?&?&?&?) (?&?&?&?&?&?). repeat split; congruence.
Qed.

#[export] Instance evolves_preorder D : PreOrder (evolves D).
Proof.
  split.
  - intros st. split; [done|]. split; [done|]. by exists [].
  - intros a b c (H1&H2&n1&E1&F1) (H1'&H2'&n2&E2&F2).
    split; [auto|]. split; [auto|].
    exists (n2 ++ n1)%list. split.
    + by rewrite E2, E1, app_assoc.
    + by apply Forall_app.
Qed.

Lemma quiet_evolves D st st' : quiet st st' → evolves D st st'.
Proof.
  intros (Hm&Hf&Hi&Hd&_&_). split; [|split].
  - intros rows0 H id Hid. rewrite Hm, Hi. by apply H.
  - by rewrite Hf.
  - exists []. by rewrite Hd.
Qed.

Lemma preserves_weaken {A} (R R' : relation state) (m : M A) :
  (∀ a b, R a b → R' a b) → preserves R m → preserves R' m.
Proof. intros H Hm st. apply H, Hm. Qed.

(** *** The primitive effects *)

Lemma emit_quiet e :
  match e with
  | EvHttp DetailFetcher (GET _) | EvWrite _ (JsonText _) | EvSaveIndex => False
  | _ => True
  end → preserves quiet (emit e).
Proof.
  intros He st. unfold emit, quiet; simpl.
  destruct e as [[] []| ? []| | |]; try done.
Qed.

Lemma sleep_quiet : preserves quiet sleep.
Proof. by apply emit_quiet. Qed.

Lemma send_quiet E who r :
  who ≠ DetailFetcher → preserves quiet (send E who r).
Proof.
  intros Hw st. unfold send.
  destruct (http E _ r); unfold quiet; simpl; destruct who, r; done.
Qed.

Lemma send_detail_evolves E D id :
  D id → preserves (evolves D) (send E DetailFetcher (GET (detail_url id))).
Proof.
  intros HD st. unfold send.
  assert (evolves D st (push_event (EvHttp DetailFetcher (GET (detail_url id))) st)).
  { split; [done|]. split; [done|]. exists [detail_url id]. split; [done|].
    constructor; [|done]. by exists id. }
  by destruct (http E _ _).
Qed.

Lemma write_file_evolves D path c : preserves (evolves D) (write_file path c).
Proof.
  intros st. unfold write_file; simpl. split; [done|]. split.
  - intros p Hp; simpl. destruct (decide (path = p)) as [->|].
    + rewrite lookup_insert_eq. eauto.
    + by rewrite lookup_insert_ne.
  - exists []. split; [|done]. simpl. by destruct c.
Qed.

Section WithEnv.
Variable L : pylib.
Variable E : env.

Lemma mark_cached_evolves (D : string → Prop) id pay_date jp pp :
  D id → preserves (evolves D) (mark_cached E id pay_date jp pp).
Proof.
  intros HD st. unfold mark_cached; simpl. split; [|split; [done|by exists []]].
  intros rows0 H id' Hid'; simpl.
  rewrite lookup_insert_ne by (intros ->; done). by apply H.
Qed.

Lemma save_evolves D : preserves (evolves D) (save E).
Proof.
  intros st. unfold save; simpl. split; [|split; [done|by exists []]].
  intros rows0 H id Hid; simpl. split; by apply H.
Qed.

(** *** The network functions *)

Lemma read_page_quiet data : preserves quiet (read_page L data).
Proof.
  unfold read_page. repeat (frame_step; try (by apply emit_quiet)).
Qed.

Lemma list_loop_quiet fuel batch_size all_payslips start :
  preserves quiet (list_loop L E fuel batch_size all_payslips start).
Proof.
  revert all_payslips start.
  induction fuel as [|fuel IH]; intros all_payslips start; simpl.
  { by apply preserves_lift; exact _. }
  repeat (frame_step;
          try (by apply send_quiet); try apply read_page_quiet;
          try apply sleep_quiet; try apply IH).
Qed.

Lemma follow_redirects_quiet budget pdf_url response :
  preserves quiet (follow_redirects E budget pdf_url response).
Proof.
  revert response. induction budget as [|budget IH]; intros response; simpl.
  { by apply preserves_ret; exact _. }
  repeat (frame_step; try (by apply send_quiet); try apply IH).
Qed.

Lemma fetch_payslip_pdf_quiet pdf_url :
  preserves quiet (fetch_payslip_pdf E pdf_url).
Proof.
  unfold fetch_payslip_pdf, _fetch_pdf_via_requests.
  repeat (frame_step; try (by apply send_quiet);
          try apply follow_redirects_quiet).
Qed.

Lemma find_missing_quiet payslips : preserves quiet (find_missing L payslips).
Proof.
  induction payslips as [|ps rest IH]; simpl.
  { by apply preserves_ret; exact _. }
  repeat (frame_step; try (by apply emit_quiet); try apply IH).
  intros st. reflexivity.
Qed.

Lemma fetch_payslip_detail_evolves D id :
  D id → preserves (evolves D) (fetch_payslip_detail E id).
Proof.
  intros HD. unfold fetch_payslip_detail.
  repeat (frame_step; try (by apply (send_detail_evolves E D id))).
Qed.

Lemma pdf_phase_evolves D skip_pdf pay_date sid iid :
  preserves (evolves D) (pdf_phase L E skip_pdf pay_date sid iid).
Proof.
  unfold pdf_phase.
  repeat (frame_step;
          try apply write_file_evolves;
          try (apply (preserves_weaken quiet);
               [apply quiet_evolves|apply fetch_payslip_pdf_quiet])).
Qed.

Lemma download_one_evolves (D : string → Prop) skip_pdf id pay_date sid iid :
  D id → preserves (evolves D) (download_one L E skip_pdf id pay_date sid iid).
Proof.
  intros HD. unfold download_one.
  repeat (frame_step;
          try (by apply fetch_payslip_detail_evolves);
          try apply write_file_evolves;
          try (by apply mark_cached_evolves);
          try apply pdf_phase_evolves).
Qed.

Lemma download_loop_evolves (D : string → Prop) skip_pdf missing n :
  Forall (λ ps, ∀ id, _get_encoded_id L ps = Ret id → D id) missing →
  preserves (evolves D) (download_loop L E skip_pdf missing n).
Proof.
  intros HD. revert n. induction HD as [|ps rest Hps _ IH]; intros n; simpl.
  { by apply preserves_ret; exact _. }
  unfold on_runtime_error.
  repeat (frame_step;
          try (apply download_one_evolves; by auto);
          try apply save_evolves;
          try (apply (preserves_weaken quiet);
               [apply quiet_evolves|apply sleep_quiet]);
          try apply IH).
Qed.
End WithEnv.
End Frame.

(** ** Facts about [is_token_expired] *)

Module TokenFacts.
Import Py Auth.

Section Token.
Variable L : pylib.

(** What the function computes on a token of three segments whose payload
    decodes to a JSON object. *)
Lemma expired_on_object now_us token h p s bytes o buffer_minutes :
  split token "." = [h; p; s] →
  urlsafe_b64decode L (pad_payload p) = Some bytes →
  json_loads L bytes = Some (JObj o) →
  is_token_expired L now_us token buffer_minutes =
    match dict_get "exp" o with
    | None => Ret false
    | Some v =>
        if negb (truthy v) then Ret false
        else
          match exp_seconds L v with
          | Ret n => Ret (n * 1000000 - now_us <? buffer_minutes * 60 * 1000000)
          | Raise e =>
              if isinstance e ValueError || isinstance e KeyError
                 || isinstance e JSONDecodeError
              then Ret true else Raise e
          | NoFuel => NoFuel
          end
    end.
Proof.
  intros Hs Hb Hj. unfold is_token_expired, is_token_expired_try.
  rewrite Hs; simpl. rewrite Hb, Hj; simpl.
  destruct (dict_get "exp" o) as [v|]; simpl; [|done].
  destruct (truthy v); simpl; [|done].
  destruct (exp_seconds L v) as [n|e|]; simpl; [|done|done].
  by destruct (_ <? _).
Qed.

(** A payload without an [exp] claim: not expired. *)
Lemma no_exp_claim now_us token h p s bytes o buffer_minutes :
  split token "." = [h; p; s] →
  urlsafe_b64decode L (pad_payload p) = Some bytes →
  json_loads L bytes = Some (JObj o) →
  dict_get "exp" o = None →
  is_token_expired L now_us token buffer_minutes = Ret false.
Proof.
  intros Hs Hb Hj He. by rewrite (expired_on_object _ _ _ _ _ _ _ _ Hs Hb Hj), He.
Qed.

(** An integer claim other than 0 that [datetime] accepts: expired exactly
    when it is less than the buffer away. *)
Lemma nonzero_exp_claim now_us token h p s bytes o n :
  split token "." = [h; p; s] →
  urlsafe_b64decode L (pad_payload p) = Some bytes →
  json_loads L bytes = Some (JObj o) →
  dict_get "exp" o = Some (JNum n) →
  n ≠ 0 →
  fromtimestamp_fails L n = None →
  is_token_expired_default L now_us token
  = Ret (bool_decide (n * 1000000 - now_us < 300 * 1000000)).
Proof.
  intros Hs Hb Hj He Hn Hf. unfold is_token_expired_default.
  rewrite (expired_on_object _ _ _ _ _ _ _ _ Hs Hb Hj), He; simpl.
  destruct (n =? 0) eqn:Hz; [lia|]; simpl.
  unfold from_timestamp. rewrite Hf. f_equal.
  destruct (_ <? _) eqn:Hlt.
  - rewrite bool_decide_eq_true_2; [done|lia].
  - rewrite bool_decide_eq_false_2; [done|lia].
Qed.

(** The claim 0 is taken for a missing claim. *)
Lemma zero_exp_claim now_us token h p s bytes o buffer_minutes :
  split token "." = [h; p; s] →
  urlsafe_b64decode L (pad_payload p) = Some bytes →
  json_loads L bytes = Some (JObj o) →
  dict_get "exp" o = Some (JNum 0) →
  is_token_expired L now_us token buffer_minutes = Ret false.
Proof.
  intros Hs Hb Hj He. by rewrite (expired_on_object _ _ _ _ _ _ _ _ Hs Hb Hj), He.
Qed.

(** The three kinds of malformed token that the handler covers. *)
Lemma wrong_segment_count now_us token buffer_minutes :
  length (split token ".") ≠ 3%nat →
  is_token_expired L now_us token buffer_minutes = Ret true.
Proof.
  intros Hn. unfold is_token_expired, is_token_expired_try.
  destruct (length _ =? 3)%nat eqn:E; [|done].
  apply Nat.eqb_eq in E. done.
Qed.

Lemma payload_not_base64 now_us token h p s buffer_minutes :
  split token "." = [h; p; s] →
  urlsafe_b64decode L (pad_payload p) = None →
  is_token_expired L now_us token buffer_minutes = Ret true.
Proof.
  intros Hs Hb. unfold is_token_expired, is_token_expired_try.
  rewrite Hs; simpl. by rewrite Hb.
Qed.

Lemma payload_not_json now_us token h p s bytes buffer_minutes :
  split token "." = [h; p; s] →
  urlsafe_b64decode L (pad_payload p) = Some bytes →
  json_loads L bytes = None →
  is_token_expired L now_us token buffer_minutes = Ret true.
Proof.
  intros Hs Hb Hj. unfold is_token_expired, is_token_expired_try.
  rewrite Hs; simpl. by rewrite Hb, Hj.
Qed.

(** A payload that is JSON but not an object: the [AttributeError] of
    [payload.get] is not among the handled classes. *)
Lemma payload_not_object now_us token h p s bytes v buffer_minutes :
  split token "." = [h; p; s] →
  urlsafe_b64decode L (pad_payload p) = Some bytes →
  json_loads L bytes = Some v →
  (∀ o, v ≠ JObj o) →
  is_token_expired L now_us token buffer_minutes
  = Raise (Exn AttributeError "object has no attribute 'get'").
Proof.
  intros Hs Hb Hj Hv. unfold is_token_expired, is_token_expired_try.
  rewrite Hs; simpl. rewrite Hb, Hj.
  destruct v; try done. by destruct (Hv o).
Qed.
End Token.
End TokenFacts.

(** ** The partition into cached and missing records *)

Module Partition.
Import Py World Sync Obs Logic Frame.

Lemma is_cached_ext st st' id v :
  payslips (mem st') = payslips (mem st) → files st' = files st →
  is_cached st' id v = is_cached st id v.
Proof.
  intros Hm Hf. unfold is_cached, exists_file. by rewrite Hm, Hf.
Qed.

Lemma is_cached_quiet st st' id v :
  quiet st st' → is_cached st' id v = is_cached st id v.
Proof. intros (Hm&Hf&_). apply is_cached_ext; congruence. Qed.

(** [load] reads the state [loaded], up to the warning about a corrupt
    file. *)
Lemma load_loaded st :
  mem (load st).2 = mem (loaded st)
  ∧ files (load st).2 = files st
  ∧ index_json (load st).2 = index_json st
  ∧ detail_gets (trace (load st).2) = detail_gets (trace st)
  ∧ json_writes (trace (load st).2) = json_writes (trace st)
  ∧ index_saves (trace (load st).2) = index_saves (trace st)
  ∧ (load st).1 = Ret ().
Proof.
  unfold load, loaded. destruct (index_json st) as [|err|[p|] tc ls] eqn:Hi;
    simpl; rewrite ?Hi; done.
Qed.

Lemma loaded_rows st : payslips (mem (loaded st)) = stored_rows (index_json st).
Proof. done. Qed.

Lemma is_cached_load st id v :
  is_cached (load st).2 id v = is_cached (loaded st) id v.
Proof.
  destruct (load_loaded st) as (Hm&Hf&_).
  unfold is_cached, exists_file. by rewrite Hm, Hf.
Qed.

Section WithLib.
Variable L : pylib.

(** [find_missing] computes [missing_of] and changes nothing but the
    trace. *)
Lemma missing_of_ext st st' records :
  payslips (mem st') = payslips (mem st) → files st' = files st →
  missing_of L st' records = missing_of L st records.
Proof.
  intros Hm Hf. induction records as [|p r IH]; simpl; [done|].
  rewrite IH. unfold wanted.
  destruct (_get_encoded_id L p); try done.
  by rewrite (is_cached_ext st st').
Qed.

(** [find_missing] computes [missing_of] and changes nothing but the
    trace. *)
Lemma find_missing_spec payslips st :
  (find_missing L payslips st).1 = missing_of L st payslips
  ∧ quiet st (find_missing L payslips st).2.
Proof.
  revert st. induction payslips as [|ps rest IH]; intros st.
  { split; [done|reflexivity]. }
  cbn [find_missing missing_of].
  match goal with |- context [bind ?k _] => set (keep := k) end.
  assert (Hk : (keep st).1 = wanted L st ps ∧ quiet st (keep st).2).
  { unfold keep, try_except, bind, lift, wanted.
    destruct (_get_encoded_id L ps) as [id|e|]; simpl;
      [split; [done|reflexivity]| |split; [done|reflexivity]].
    destruct (isinstance e ValueError); simpl;
      [|split; [done|reflexivity]].
    split; [done|]. by repeat split. }
  destruct Hk as [Hk Hq]. rewrite bind_run.
  destruct (keep st) as [[k|e|] st1]; simpl in Hk, Hq; rewrite <- Hk;
    simpl; [|split; [done|exact Hq]..].
  destruct (IH st1) as [H1 H2].
  rewrite <- (missing_of_ext st st1 rest)
    by (destruct Hq as (Hm&Hf&_); by rewrite ?Hm, ?Hf).
  rewrite <- H1, bind_run. unfold ret.
  destruct (find_missing L rest st1) as [[ms|e|] st2]; simpl in *;
    (split; [reflexivity|by etrans]).
Qed.

(** Every record kept as missing has an identifier that is not cached. *)
Lemma missing_of_Forall st payslips ms :
  missing_of L st payslips = Ret ms →
  Forall (λ ps, ∃ id, _get_encoded_id L ps = Ret id
                      ∧ is_cached st id true = false) ms.
Proof.
  revert ms. induction payslips as [|p r IH]; intros ms; simpl.
  { intros [= <-]. constructor. }
  unfold wanted.
  destruct (_get_encoded_id L p) as [id|e|] eqn:Hid; simpl; [| |done].
  - destruct (missing_of L st r) as [more| |]; simpl; [|done|done].
    intros [= <-]. destruct (is_cached st id true) eqn:Hc; simpl; [by apply IH|].
    constructor; [by exists id|by apply IH].
  - destruct (isinstance e ValueError); simpl; [|done].
    destruct (missing_of L st r) as [more| |]; simpl; [|done|done].
    intros [= <-]. by apply IH.
Qed.

Lemma missing_of_length st payslips ms :
  missing_of L st payslips = Ret ms → (length ms ≤ length payslips)%nat.
Proof.
  revert ms. induction payslips as [|p r IH]; intros ms; simpl.
  { by intros [= <-]. }
  destruct (wanted L st p) as [keep| |]; simpl; [|done|done].
  destruct (missing_of L st r) as [more| |]; simpl; [|done|done].
  intros [= <-]. specialize (IH more eq_refl). destruct keep; simpl; lia.
Qed.

(** A listed record whose identifier is not cached is kept. *)
Lemma missing_of_elem st records ms ps :
  missing_of L st records = Ret ms → ps ∈ records →
  wanted L st ps = Ret true → ps ∈ ms.
Proof.
  revert ms. induction records as [|p r IH]; intros ms; simpl.
  { intros _ Hin. by apply elem_of_nil in Hin. }
  intros Hms Hin Hw.
  destruct (wanted L st p) as [keep| |] eqn:Hp; simpl in Hms; [|done|done].
  destruct (missing_of L st r) as [more| |]; simpl in Hms; [|done|done].
  injection Hms as <-.
  apply elem_of_cons in Hin as [->|Hin].
  - rewrite Hw in Hp. injection Hp as <-. by left.
  - specialize (IH more eq_refl Hin Hw). destruct keep; [by right|done].
Qed.

(** When every listed record with an identifier is cached, none is
    missing. *)
Lemma missing_of_all_cached st records ms :
  missing_of L st records = Ret ms →
  Forall (cached_record L st) records → ms = [].
Proof.
  revert ms. induction records as [|p r IH]; intros ms; simpl.
  { by intros [= <-]. }
  intros Hms Hall. apply Forall_cons in Hall as [Hp Hr].
  unfold wanted in Hms.
  destruct (_get_encoded_id L p) as [id|e|] eqn:Hid; simpl in Hms; [| |done].
  - rewrite (Hp id Hid) in Hms. simpl in Hms.
    destruct (missing_of L st r) as [more| |]; simpl in Hms; [|done|done].
    injection Hms as <-. by apply IH.
  - destruct (isinstance e ValueError); simpl in Hms; [|done].
    destruct (missing_of L st r) as [more| |]; simpl in Hms; [|done|done].
    injection Hms as <-. by apply IH.
Qed.

(** The records of a listing that starts with cached records and goes on
    with records that are not cached: the latter are missing. *)
Lemma missing_of_split st cached ids_cached rest ids_rest :
  identified L cached ids_cached → identified L rest ids_rest →
  Forall (λ id, is_cached st id true = true) ids_cached →
  Forall (λ id, is_cached st id true = false) ids_rest →
  missing_of L st (cached ++ rest) = Ret rest.
Proof.
  intros Hc Hr. induction Hc as [|ps id cached' ids' Hid _ IH]; intros H1 H2.
  - simpl. clear H1. induction Hr as [|ps id rest' ids' Hid _ IH]; [done|].
    apply Forall_cons in H2 as [Hps H2]. simpl. unfold wanted.
    rewrite Hid, Hps. simpl. by rewrite IH.
  - apply Forall_cons in H1 as [Hps H1]. simpl. unfold wanted.
    rewrite Hid, Hps. simpl. by rewrite IH.
Qed.

(** If the partition has returned once, it returns the empty list in a
    state in which every listed record is cached. *)
Lemma missing_of_now_cached st st' records ms :
  missing_of L st records = Ret ms →
  Forall (cached_record L st') records →
  missing_of L st' records = Ret [].
Proof.
  revert ms. induction records as [|p r IH]; intros ms; simpl; [done|].
  intros Hms Hall. apply Forall_cons in Hall as [Hp Hr].
  unfold wanted in *.
  destruct (_get_encoded_id L p) as [id|e|] eqn:Hid; simpl in *; [| |done].
  - rewrite (Hp id Hid). simpl.
    destruct (missing_of L st r) as [more| |]; simpl in Hms; [|done|done].
    by rewrite (IH more).
  - destruct (isinstance e ValueError); simpl in *; [|done].
    destruct (missing_of L st r) as [more| |]; simpl in Hms; [|done|done].
    by rewrite (IH more).
Qed.
End WithLib.
End Partition.

(** ** One download, and the download loop *)

Module Download.
Import Py World Sync Obs Logic Frame Paths Partition.

#[export] Instance entry_eq_dec : EqDecision entry.
Proof. solve_decision. Defined.

#[export] Instance calm_preorder : PreOrder calm.
Proof.
  split.
  - intros st. by repeat split.
  - intros a b c (?&?&?&?&?&?) (?&?&?&?&?&?). repeat split; try congruence. auto.
Qed.

#[export] Instance still_cached_preorder : PreOrder still_cached.
Proof. split; [by intros st id|]. intros a b c H1 H2 id H. auto. Qed.

#[export] Instance tracked_preorder : PreOrder tracked.
Proof.
  split.
  - intros st. split; [by exists []|]. split; [by exists []|]. by intros id [].
  - intros a b c ([g1 G1]&[w1 W1]&H1) ([g2 G2]&[w2 W2]&H2).
    split; [exists (g2 ++ g1)%list; by rewrite G2, G1, app_assoc|].
    split; [exists (w2 ++ w1)%list; by rewrite W2, W1, app_assoc|].
    intros id Hid.
    destruct (decide (payslips (mem c) !! id = payslips (mem b) !! id)) as [Heq|Hne].
    + destruct (H1 id) as (g&w&row&path&Hg&Hw&Hin&Hrow&Hp&Hpw); [congruence|].
      exists (g2 ++ g)%list, (w2 ++ w)%list, row, path.
      rewrite G2, W2, Hg, Hw, !app_assoc, Heq.
      repeat split; try done; apply elem_of_app; by right.
    + destruct (H2 id Hne) as (g&w&row&path&Hg&Hw&Hin&Hrow&Hp&Hpw).
      exists (g ++ g1)%list, (w ++ w1)%list, row, path.
      rewrite Hg, Hw, G1, W1, !app_assoc.
      repeat split; try done; apply elem_of_app; by left.
Qed.

Lemma quiet_calm st st' : quiet st st' → calm st st'.
Proof. intros (Hm&Hf&Hi&Hd&Hw&Hs). repeat split; try done. by rewrite Hf. Qed.

Lemma calm_tracked st st' : calm st st' → tracked st st'.
Proof.
  intros (Hm&Hi&Hd&Hw&Hs&Hf). split; [exists []; by rewrite Hd|].
  split; [exists []; by rewrite Hw|]. intros id []. by rewrite Hm.
Qed.

Lemma calm_still_cached st st' : calm st st' → still_cached st st'.
Proof.
  intros (Hm&Hi&Hd&Hw&Hs&Hf) id. unfold is_cached, exists_file. rewrite Hm.
  destruct (payslips (mem st) !! id) as [row|]; [|done]; simpl.
  destruct (json_path row) as [p|]; [|done].
  destruct (str_truthy p); [|done].
  rewrite !bool_decide_eq_true. apply Hf.
Qed.

Lemma write_bytes_calm path b : preserves calm (write_file path (Bytes b)).
Proof.
  intros st. unfold write_file; simpl. repeat split; try done.
  intros p Hp; simpl. destruct (decide (path = p)) as [->|].
  - rewrite lookup_insert_eq. eauto.
  - by rewrite lookup_insert_ne.
Qed.

Section WithEnv.
Variable L : pylib.
Variable E : env.

(** The state after [fetch_payslip_detail], whatever the answer. *)
Lemma fetch_payslip_detail_state id st :
  (fetch_payslip_detail E id st).2
  = push_event (EvHttp DetailFetcher (GET (detail_url id))) st.
Proof.
  unfold fetch_payslip_detail. rewrite bind_run. unfold send.
  fold (detail_url id).
  destruct (http E _ _) as [resp|e]; [|done].
  rewrite bind_run. unfold lift.
  destruct (_check_session_valid resp) as [[]|e|]; [|done|done].
  destruct (status_code resp =? 404); [done|].
  destruct (negb _); [done|].
  by destruct (resp_json resp).
Qed.

Lemma pdf_phase_calm skip_pdf pay_date sid iid :
  preserves calm (pdf_phase L E skip_pdf pay_date sid iid).
Proof.
  unfold pdf_phase.
  repeat (frame_step;
          try apply write_bytes_calm;
          try (apply (preserves_weaken quiet);
               [apply quiet_calm|apply fetch_payslip_pdf_quiet])).
Qed.

(** What one download does to the state, whatever the server answers. *)
Lemma download_one_spec skip_pdf id pay_date sid iid st :
  let path := _make_file_path L pay_date "json" in
  let final := download_one L E skip_pdf id pay_date sid iid st in
  detail_gets (trace final.2) = detail_url id :: detail_gets (trace st)
  ∧ index_json final.2 = index_json st
  ∧ index_saves (trace final.2) = index_saves (trace st)
  ∧ (∀ p, is_Some (files st !! p) → is_Some (files final.2 !! p))
  ∧ total_count (mem final.2) = total_count (mem st)
  ∧ last_sync (mem final.2) = last_sync (mem st)
  ∧ match final.1 with
    | Ret _ =>
        json_writes (trace final.2) = path :: json_writes (trace st)
        ∧ is_Some (files final.2 !! path)
        ∧ ∃ pdf stamp,
            payslips (mem final.2)
            = <[id := Entry pay_date (Some (rel_file_path L pay_date "json"))
                        pdf stamp]> (payslips (mem st))
    | _ =>
        payslips (mem final.2) = payslips (mem st)
        ∧ ∃ w, json_writes (trace final.2) = (w ++ json_writes (trace st))%list
    end.
Proof.
  intros path final. subst final.
  destruct (download_one L E skip_pdf id pay_date sid iid st) as [r st'] eqn:Hrun.
  unfold download_one in Hrun. rewrite bind_run in Hrun.
  pose proof (fetch_payslip_detail_state id st) as Hst.
  destruct (fetch_payslip_detail E id st) as [[detail|e|] st1]; simpl in Hst;
    subst st1; [|injection Hrun as <- <-; simpl; repeat split; try done;
                 by exists []..].
  rewrite bind_run in Hrun. unfold write_file at 1 in Hrun. fold path in Hrun.
  cbv beta iota in Hrun.
  set (st2 := push_event _ (set_files _ _)) in Hrun.
  assert (Hgrow : ∀ p, is_Some (files st !! p) → is_Some (files st2 !! p)).
  { intros p Hp. simpl. destruct (decide (path = p)) as [->|].
    - rewrite lookup_insert_eq. eauto.
    - by rewrite lookup_insert_ne. }
  assert (Hpath : is_Some (files st2 !! path)).
  { simpl. rewrite lookup_insert_eq. eauto. }
  rewrite bind_run in Hrun.
  pose proof (pdf_phase_calm skip_pdf pay_date sid iid st2) as Hcalm.
  destruct (pdf_phase L E skip_pdf pay_date sid iid st2) as [[pdf|e|] st3];
    simpl in Hcalm; destruct Hcalm as (Hm&Hi&Hd&Hw&Hs&Hf);
    [|injection Hrun as <- <-; simpl; rewrite ?Hm, ?Hi, ?Hd, ?Hw, ?Hs;
      repeat split; try done; [by auto|by exists [path]]..].
  rewrite bind_run in Hrun. unfold lift in Hrun. fold path in Hrun.
  destruct (relative_to path CACHE_DIR) as [rel|e|] eqn:Hrel;
    [|injection Hrun as <- <-; simpl; rewrite ?Hm, ?Hi, ?Hd, ?Hw, ?Hs;
      repeat split; try done; [by auto|by exists [path]]..].
  apply relative_to_make_file_path_inv in Hrel as [_ ->].
  unfold mark_cached in Hrun.
  injection Hrun as <- <-. simpl. rewrite Hm, Hi, Hd, Hw, Hs. simpl.
  repeat split; try done; [by auto|by auto|eauto].
Qed.

(** A download that completes has put its document below the cache
    directory. *)
Lemma download_one_relative skip_pdf id pay_date sid iid st :
  (download_one L E skip_pdf id pay_date sid iid st).1 = Ret () →
  is_absolute pay_date = false.
Proof.
  unfold download_one. rewrite bind_run.
  destruct (fetch_payslip_detail E id st) as [[detail|e|] st1]; [|done..].
  rewrite bind_run. unfold write_file at 1. cbv beta iota.
  rewrite bind_run.
  destruct (pdf_phase L E skip_pdf pay_date sid iid _) as [[pdf|e|] st3];
    [|done..].
  rewrite bind_run. unfold lift.
  destruct (relative_to _ CACHE_DIR) as [rel|e|] eqn:Hrel; [|done..].
  intros _. by apply relative_to_make_file_path_inv in Hrel as [? _].
Qed.

Lemma download_one_tracked skip_pdf id pay_date sid iid :
  preserves tracked (download_one L E skip_pdf id pay_date sid iid).
Proof.
  intros st.
  destruct (download_one_spec skip_pdf id pay_date sid iid st)
    as (Hg&_&_&_&_&_&Hr).
  pose proof (download_one_relative skip_pdf id pay_date sid iid st) as Hrel.
  destruct (download_one L E skip_pdf id pay_date sid iid st) as [r st'].
  simpl in *. split; [by exists [detail_url id]|].
  destruct r as [[]|e|].
  - destruct Hr as (Hw&Hp&pdf&stamp&Hrows).
    split; [by exists [_make_file_path L pay_date "json"]|].
    intros id' Hid'. rewrite Hrows in Hid'.
    destruct (decide (id = id')) as [<-|Hne];
      [|by rewrite lookup_insert_ne in Hid'].
    exists [detail_url id], [_make_file_path L pay_date "json"].
    eexists _, _. rewrite Hrows, lookup_insert_eq.
    repeat split; try done; [apply list_elem_of_singleton; done|].
    rewrite <- make_file_path_rel by auto. by apply list_elem_of_singleton.
  - destruct Hr as (Hrows&w&Hw). split; [by exists w|].
    intros id' []. by rewrite Hrows.
  - destruct Hr as (Hrows&w&Hw). split; [by exists w|].
    intros id' []. by rewrite Hrows.
Qed.

Lemma download_one_still_cached skip_pdf id pay_date sid iid :
  preserves still_cached (download_one L E skip_pdf id pay_date sid iid).
Proof.
  intros st.
  destruct (download_one_spec skip_pdf id pay_date sid iid st)
    as (_&_&_&Hf&_&_&Hr).
  pose proof (download_one_relative skip_pdf id pay_date sid iid st) as Hrel.
  destruct (download_one L E skip_pdf id pay_date sid iid st) as [r st'].
  simpl in *. intros id'. unfold is_cached, exists_file.
  assert (Hkeep : payslips (mem st') !! id' = payslips (mem st) !! id' →
                  match payslips (mem st) !! id' with
                  | Some row =>
                      match json_path row with
                      | Some p =>
                          if str_truthy p
                          then bool_decide (is_Some (files st !! path_join CACHE_DIR p))
                          else true
                      | None => true
                      end
                  | None => false
                  end = true →
                  match payslips (mem st') !! id' with
                  | Some row =>
                      match json_path row with
                      | Some p =>
                          if str_truthy p
                          then bool_decide (is_Some (files st' !! path_join CACHE_DIR p))
                          else true
                      | None => true
                      end
                  | None => false
                  end = true).
  { intros ->. destruct (payslips (mem st) !! id') as [row|]; [|done].
    destruct (json_path row) as [p|]; [|done].
    destruct (str_truthy p); [|done].
    rewrite !bool_decide_eq_true. apply Hf. }
  destruct r as [[]|e|]; simpl;
    [|destruct Hr as [Hrows _]; apply Hkeep; by rewrite Hrows..].
  destruct Hr as (_&Hp&pdf&stamp&Hrows).
  destruct (decide (id = id')) as [<-|Hne].
  - intros _. rewrite Hrows, lookup_insert_eq; simpl.
    rewrite rel_file_path_truthy, <- make_file_path_rel by auto.
    by apply bool_decide_eq_true.
  - apply Hkeep. by rewrite Hrows, lookup_insert_ne.
Qed.

Lemma save_calm_rows st :
  payslips (mem (save E st).2) = payslips (mem st)
  ∧ files (save E st).2 = files st
  ∧ detail_gets (trace (save E st).2) = detail_gets (trace st)
  ∧ json_writes (trace (save E st).2) = json_writes (trace st)
  ∧ index_saves (trace (save E st).2) = S (index_saves (trace st))
  ∧ stored_rows (index_json (save E st).2) = payslips (mem st)
  ∧ stored_count (index_json (save E st).2)
    = Some (Z.of_nat (size (payslips (mem st))))
  ∧ (save E st).1 = Ret ().
Proof. done. Qed.

Lemma save_tracked : preserves tracked (save E).
Proof.
  intros st. split; [by exists []|]. split; [by exists []|]. by intros id [].
Qed.

Lemma save_still_cached : preserves still_cached (save E).
Proof. by intros st id. Qed.

(** The loop preserves every relation that its steps preserve. *)
Lemma download_loop_preserves (R : relation state) skip_pdf missing n :
  PreOrder R →
  (∀ id pay_date sid iid,
      preserves R (download_one L E skip_pdf id pay_date sid iid)) →
  preserves R (save E) → preserves R sleep →
  preserves R (download_loop L E skip_pdf missing n).
Proof.
  intros HR Hone Hsave Hsleep. revert n.
  induction missing as [|ps rest IH]; intros n; simpl.
  { by apply preserves_ret. }
  unfold on_runtime_error.
  repeat (frame_step; try apply Hone; try apply Hsave; try apply Hsleep;
          try apply IH).
Qed.

Lemma download_loop_tracked skip_pdf missing n :
  preserves tracked (download_loop L E skip_pdf missing n).
Proof.
  apply download_loop_preserves; [exact _|apply download_one_tracked
                                 |apply save_tracked|].
  apply (preserves_weaken quiet); [|apply sleep_quiet].
  intros a b H. by apply calm_tracked, quiet_calm.
Qed.

Lemma download_loop_still_cached skip_pdf missing n :
  preserves still_cached (download_loop L E skip_pdf missing n).
Proof.
  apply download_loop_preserves; [exact _|apply download_one_still_cached
                                 |apply save_still_cached|].
  apply (preserves_weaken quiet); [|apply sleep_quiet].
  intros a b H. by apply calm_still_cached, quiet_calm.
Qed.

Lemma download_one_cached skip_pdf id pay_date sid iid st :
  (download_one L E skip_pdf id pay_date sid iid st).1 = Ret () →
  is_cached (download_one L E skip_pdf id pay_date sid iid st).2 id true = true.
Proof.
  destruct (download_one_spec skip_pdf id pay_date sid iid st)
    as (_&_&_&_&_&_&Hr).
  pose proof (download_one_relative skip_pdf id pay_date sid iid st) as Hrel.
  destruct (download_one L E skip_pdf id pay_date sid iid st) as [r st'].
  simpl in *. intros ->. destruct Hr as (_&Hp&pdf&stamp&Hrows).
  unfold is_cached, exists_file. rewrite Hrows, lookup_insert_eq; simpl.
  rewrite rel_file_path_truthy, <- make_file_path_rel by auto.
  by apply bool_decide_eq_true.
Qed.

(** How the loop ends.  When it returns, the index file is as before, the
    counter has grown by at most one per record, every record was
    requested, and if the counter has grown by one per record then every
    record is cached.  When it raises, either the index file is as
    before, or the exception is a [RuntimeError] with a session-expiry
    message and the index file was written just before. *)
Lemma download_loop_outcome skip_pdf missing n0 st :
  let final := download_loop L E skip_pdf missing n0 st in
  match final.1 with
  | Ret n =>
      index_json final.2 = index_json st
      ∧ index_saves (trace final.2) = index_saves (trace st)
      ∧ n0 ≤ n ≤ n0 + Z.of_nat (length missing)
      ∧ (∃ gets, detail_gets (trace final.2) = (gets ++ detail_gets (trace st))%list
                 ∧ Forall (requested_record L gets) missing)
      ∧ (n = n0 + Z.of_nat (length missing) →
         Forall (cached_record L final.2) missing)
  | Raise e =>
      (index_json final.2 = index_json st
       ∧ index_saves (trace final.2) = index_saves (trace st))
      ∨ (isinstance e RuntimeError = true
         ∧ is_expiry_message (exn_msg e) = true
         ∧ in_sync final.2
         ∧ index_saves (trace final.2) = S (index_saves (trace st)))
  | NoFuel =>
      index_json final.2 = index_json st
      ∧ index_saves (trace final.2) = index_saves (trace st)
  end.
Proof.
  revert n0 st. induction missing as [|ps rest IH]; intros n0 st final.
  { subst final; simpl. repeat split; try lia; try done.
    exists []. by split. }
  subst final.
  destruct (download_loop L E skip_pdf (ps :: rest) n0 st) as [r st'] eqn:Hrun.
  cbn [download_loop] in Hrun. rewrite bind_run in Hrun. unfold lift in Hrun.
  destruct (_get_encoded_id L ps) as [id|e|] eqn:Hid;
    [|injection Hrun as <- <-; simpl; auto..].
  rewrite bind_run in Hrun.
  destruct (_get_pay_date ps) as [pay_date|e|];
    [|injection Hrun as <- <-; simpl; auto..].
  rewrite bind_run in Hrun.
  destruct (_get_pdf_info ps) as [ids|e|];
    [|injection Hrun as <- <-; simpl; auto..].
  rewrite bind_run, try_run, bind_run in Hrun.
  pose proof (download_one_spec skip_pdf id pay_date ids.1 ids.2 st)
    as (Hg&Hi&Hs&_&_&_&_).
  pose proof (download_one_cached skip_pdf id pay_date ids.1 ids.2 st) as Hc.
  destruct (download_one L E skip_pdf id pay_date ids.1 ids.2 st)
    as [[[]|e|] st1]; simpl in Hg, Hi, Hs, Hc.
  - (* downloaded *)
    unfold ret at 1 in Hrun. rewrite bind_run in Hrun.
    unfold sleep, emit in Hrun.
    set (st2 := push_event EvSleep st1) in Hrun.
    specialize (IH (n0 + 1) st2).
    pose proof (download_loop_still_cached skip_pdf rest (n0 + 1) st2) as Hstill.
    rewrite Hrun in IH, Hstill. simpl in IH, Hstill.
    destruct r as [n|e|]; simpl.
    + destruct IH as (Hi'&Hs'&Hn&(gets&Hgets&Hreq)&Hall).
      rewrite Hi', Hs'. simpl. rewrite Hi, Hs.
      split; [done|]. split; [done|]. split; [lia|]. split.
      * exists (gets ++ [detail_url id])%list. split.
        { rewrite Hgets. simpl. rewrite Hg. by rewrite <- app_assoc. }
        constructor.
        { intros id' Hid'. rewrite Hid in Hid'. injection Hid' as <-.
          apply elem_of_app. right. by apply list_elem_of_singleton. }
        eapply Forall_impl; [exact Hreq|].
        intros ps' Hps' id' Hid'. apply elem_of_app. left. by apply Hps'.
      * intros Hn'. constructor.
        { intros id' Hid'. rewrite Hid in Hid'. injection Hid' as <-.
          apply Hstill. unfold is_cached, exists_file in *. simpl. by apply Hc. }
        apply Hall. lia.
    + destruct IH as [[Hi' Hs']|(?&?&?&Hs')].
      * left. rewrite Hi', Hs'. simpl. by rewrite Hi, Hs.
      * right. rewrite Hs'. simpl. by rewrite Hs.
    + destruct IH as [Hi' Hs']. rewrite Hi', Hs'. simpl. by rewrite Hi, Hs.
  - (* the download raised *)
    destruct (isinstance e RuntimeError) eqn:Hrt;
      [|injection Hrun as <- <-; simpl; auto].
    unfold on_runtime_error in Hrun.
    destruct (is_expiry_message (exn_msg e)) eqn:Hexp.
    + rewrite bind_run in Hrun. unfold save at 1 in Hrun.
      cbv beta iota zeta in Hrun. unfold raise in Hrun.
      injection Hrun as <- <-. simpl. right.
      repeat split; try done. by rewrite Hs.
    + unfold ret at 1 in Hrun. rewrite bind_run in Hrun.
      unfold sleep, emit in Hrun.
      set (st2 := push_event EvSleep st1) in Hrun.
      specialize (IH n0 st2). rewrite Hrun in IH. simpl in IH.
      destruct r as [n|e'|]; simpl.
      * destruct IH as (Hi'&Hs'&Hn&(gets&Hgets&Hreq)&Hall).
        rewrite Hi', Hs'. simpl. rewrite Hi, Hs.
        split; [done|]. split; [done|]. split; [lia|]. split.
        -- exists (gets ++ [detail_url id])%list. split.
           { rewrite Hgets. simpl. rewrite Hg. by rewrite <- app_assoc. }
           constructor.
           { intros id' Hid'. rewrite Hid in Hid'. injection Hid' as <-.
             apply elem_of_app. right. by apply list_elem_of_singleton. }
           eapply Forall_impl; [exact Hreq|].
           intros ps' Hps' id' Hid'. apply elem_of_app. left. by apply Hps'.
        -- intros Hn'. exfalso. simpl in Hn'. lia.
      * destruct IH as [[Hi' Hs']|(?&?&?&Hs')].
        -- left. rewrite Hi', Hs'. simpl. by rewrite Hi, Hs.
        -- right. rewrite Hs'. simpl. by rewrite Hs.
      * destruct IH as [Hi' Hs']. rewrite Hi', Hs'. simpl. by rewrite Hi, Hs.
  - injection Hrun as <- <-. simpl. auto.
Qed.
End WithEnv.
End Download.

(** ** A whole run *)

Module Runs.
Import Py World Sync Obs Logic Frame Paths Partition Download.

Section WithEnv.
Variable L : pylib.
Variable E : env.

(** [sync_all] is [load], the listing, and [sync_listed]. *)
Lemma sync_all_unfold fuel skip_pdf st :
  sync_all L E fuel skip_pdf st =
  match list_all_payslips L E fuel (load st).2 with
  | (Ret records, st1) => sync_listed L E skip_pdf records st1
  | (Raise e, st1) => (Raise e, st1)
  | (NoFuel, st1) => (NoFuel, st1)
  end.
Proof.
  unfold sync_all. rewrite bind_run.
  destruct (load_loaded st) as (_&_&_&_&_&_&Hr).
  destruct (load st) as [r st0]. simpl in Hr. subst r. by rewrite bind_run.
Qed.

(** The state in which the listing ends differs from the loaded state by
    its trace only. *)
Lemma listing_quiet fuel st :
  quiet (load st).2 (list_all_payslips L E fuel (load st).2).2.
Proof. apply list_loop_quiet. Qed.

(** Only rows that were not cached when [sync_listed] started are
    written, and only such records are requested. *)
Lemma sync_listed_evolves skip_pdf records st :
  evolves (λ id, is_cached st id true = false) st
    (sync_listed L E skip_pdf records st).2.
Proof.
  unfold sync_listed. destruct records as [|ps rest]; [reflexivity|].
  remember (ps :: rest) as records eqn:Hrec. clear Hrec.
  rewrite bind_run.
  destruct (find_missing_spec L records st) as [Hm Hq].
  destruct (find_missing L records st) as [[missing|e|] st1];
    simpl in Hm, Hq; [|by apply quiet_evolves..].
  symmetry in Hm. apply missing_of_Forall in Hm.
  etrans; [by apply quiet_evolves|].
  assert (HD : Forall (λ ps, ∀ id, _get_encoded_id L ps = Ret id
                             → is_cached st id true = false) missing).
  { eapply Forall_impl; [exact Hm|]. intros p (id&Hid&Hc) id' Hid'.
    rewrite Hid in Hid'. by injection Hid' as <-. }
  assert (Hsave : ∀ st2 x, evolves (λ id, is_cached st id true = false) st2
                        ((run save E in ret x) st2 : outcome (Z * Z * Z) * state).2).
  { intros st2 x. rewrite bind_run. apply save_evolves. }
  destruct missing as [|m ms]; [apply Hsave|].
  rewrite bind_run.
  pose proof (download_loop_evolves L E _ skip_pdf (m :: ms) 0 HD st1) as Hloop.
  destruct (download_loop L E skip_pdf (m :: ms) 0 st1) as [[n|e|] st2];
    simpl in Hloop; [|done..].
  etrans; [exact Hloop|]. apply Hsave.
Qed.

Lemma sync_listed_preserves (R : relation state) skip_pdf records :
  PreOrder R →
  (∀ a b, quiet a b → R a b) →
  (∀ id pay_date sid iid,
      preserves R (download_one L E skip_pdf id pay_date sid iid)) →
  preserves R (save E) →
  preserves R (sync_listed L E skip_pdf records).
Proof.
  intros HR Hq Hone Hsave. unfold sync_listed.
  assert (Hsleep : preserves R sleep).
  { apply (preserves_weaken quiet); [exact Hq|apply sleep_quiet]. }
  repeat (frame_step; try apply Hsave;
          try (by apply download_loop_preserves);
          try (apply (preserves_weaken quiet);
               [exact Hq|apply find_missing_quiet])).
Qed.

Lemma sync_listed_tracked skip_pdf records :
  preserves tracked (sync_listed L E skip_pdf records).
Proof.
  apply sync_listed_preserves; [exact _| |apply download_one_tracked
                               |apply save_tracked].
  intros a b H. by apply calm_tracked, quiet_calm.
Qed.

Lemma sync_listed_still_cached skip_pdf records :
  preserves still_cached (sync_listed L E skip_pdf records).
Proof.
  apply sync_listed_preserves; [exact _| |apply download_one_still_cached
                               |apply save_still_cached].
  intros a b H. by apply calm_still_cached, quiet_calm.
Qed.

(** When [sync_listed] ends, the index file is as it was, or it holds the
    rows that are in memory. *)
Lemma sync_listed_index skip_pdf records st :
  let final := sync_listed L E skip_pdf records st in
  (index_json final.2 = index_json st
   ∧ index_saves (trace final.2) = index_saves (trace st))
  ∨ (in_sync final.2
     ∧ index_saves (trace final.2) = S (index_saves (trace st))).
Proof.
  intros final. subst final. unfold sync_listed.
  destruct records as [|ps rest]; [by left|].
  rewrite bind_run.
  destruct (find_missing_spec L (ps :: rest) st) as [_ Hq].
  destruct (find_missing L (ps :: rest) st) as [[missing|e|] st1];
    simpl in Hq; destruct Hq as (Hm&Hf&Hi&Hd&Hw&Hs);
    [|left; simpl; by rewrite Hi, Hs..].
  destruct missing as [|m ms].
  { right. rewrite bind_run. simpl. by rewrite Hs. }
  rewrite bind_run.
  pose proof (download_loop_outcome L E skip_pdf (m :: ms) 0 st1) as Hloop.
  destruct (download_loop L E skip_pdf (m :: ms) 0 st1) as [[n|e|] st2];
    simpl in Hloop.
  - destruct Hloop as (_&Hs'&_). right. rewrite bind_run. simpl.
    by rewrite Hs', Hs.
  - destruct Hloop as [[Hi' Hs']|(_&_&Hsync&Hs')].
    + left. simpl. by rewrite Hi', Hs', Hi, Hs.
    + right. simpl. by rewrite Hs', Hs.
  - destruct Hloop as [Hi' Hs']. left. simpl. by rewrite Hi', Hs', Hi, Hs.
Qed.

(** A run of [sync_listed] that returns: the stages it went through. *)
Lemma sync_listed_ret skip_pdf records st t c n st' :
  sync_listed L E skip_pdf records st = (Ret (t, c, n), st') →
  (records = [] ∧ st' = st ∧ t = 0 ∧ c = 0 ∧ n = 0)
  ∨ ∃ missing st1 st2,
      records ≠ []
      ∧ find_missing L records st = (Ret missing, st1)
      ∧ download_loop L E skip_pdf missing 0 st1 = (Ret n, st2)
      ∧ st' = (save E st2).2
      ∧ t = Z.of_nat (length records)
      ∧ c = t - Z.of_nat (length missing).
Proof.
  unfold sync_listed. destruct records as [|ps rest].
  { intros [= <- <- <- <-]. by left. }
  remember (ps :: rest) as records eqn:Hrec.
  intros Hrun. right. rewrite bind_run in Hrun.
  destruct (find_missing L records st) as [[missing|e|] st1]; [|done..].
  exists missing, st1.
  destruct missing as [|m ms].
  - rewrite bind_run in Hrun. simpl in Hrun.
    injection Hrun as <- <- <- <-. eexists. repeat split; try done.
    by subst records.
  - rewrite bind_run in Hrun.
    destruct (download_loop L E skip_pdf (m :: ms) 0 st1) as [[k|e|] st2];
      [|done..].
    rewrite bind_run in Hrun. simpl in Hrun.
    injection Hrun as <- <- <- <-. exists st2. repeat split; try done.
    by subst records.
Qed.
End WithEnv.
End Runs.

(** ** The two listing loops against a server that returns short pages *)

Module Paging.
Import Py World Sync Obs Logic.

Lemma page_valid records k start :
  _check_session_valid (page_of records k start) = Ret ().
Proof. reflexivity. Qed.

Lemma post_start_query start batch_size :
  post_start (query_payload start batch_size) = start.
Proof. reflexivity. Qed.

Lemma post_start_batch start batch_size :
  post_start (Extractor.batch_payload start batch_size) = start.
Proof. reflexivity. Qed.

(** The records gathered after the page at offset [s]. *)
Lemma gathered (records : list json) (k : nat → nat) (s : nat) :
  (s ≤ length records)%nat →
  let got := (k s `min` (length records - s))%nat in
  (take s records ++ take (k s) (drop s records))%list
  = take (s + got) records
  ∧ length (take (k s) (drop s records)) = got
  ∧ length (take (s + got) records) = (s + got)%nat.
Proof.
  intros Hs got. rewrite take_take_drop. split; [|split].
  - subst got. destruct (decide (k s ≤ length records - s)%nat).
    + by rewrite Nat.min_l.
    + rewrite Nat.min_r by lia. rewrite !take_ge; [done|lia|lia].
  - rewrite length_take, length_drop. done.
  - rewrite length_take. lia.
Qed.

(** Where a listing that passes every non-empty page ends. *)
Lemma paged_complete k n starts final s :
  paged k n starts final → head starts = Some s → (s ≤ n)%nat →
  (∀ s, (s < n)%nat → (0 < k s)%nat) → final = n.
Proof.
  intros Hp Hh Hs Hk. revert s Hh Hs Hp.
  induction starts as [|s0 rest IH]; intros s Hh Hs Hp; [done|].
  injection Hh as ->. simpl in Hp. destruct rest as [|s' rest'].
  - destruct Hp as [-> [Hn|H0]]; [lia|].
    destruct (decide (s < n)%nat) as [Hlt|]; [|lia].
    specialize (Hk s Hlt). lia.
  - destruct Hp as (->&Hlt&_&Hp). apply (IH _ eq_refl); [lia|done].
Qed.

Section WithServer.
Variable L : pylib.
Variable E : env.
Variable records : list json.
Variable k : nat → nat.
Hypothesis Hserves : serves_pages E records k.

Lemma list_loop_step fuel batch_size all_payslips start st :
  let items := take (k (Z.to_nat start)) (drop (Z.to_nat start) records) in
  let st1 := push_event
               (EvHttp Lister (POST QUERY_API (query_payload start batch_size)))
               st in
  list_loop L E (S fuel) batch_size all_payslips start st =
  if (Z.of_nat (length (all_payslips ++ items)) >=? Z.of_nat (length records))
     || (length items =? 0)%nat
  then (Ret (all_payslips ++ items)%list, st1)
  else list_loop L E fuel batch_size (all_payslips ++ items)%list
         (start + Z.of_nat (length items)) (push_event EvSleep st1).
Proof.
  intros items st1. cbn [list_loop]. rewrite bind_run. unfold send.
  rewrite (proj1 (Hserves _ _ _)). rewrite bind_run. unfold lift.
  rewrite page_valid. cbn [status_code resp_json page_of Z.eqb negb Pos.eqb].
  rewrite bind_run. unfold ret at 1. rewrite bind_run.
  change (read_page L _ (push_event _ st))
    with (Ret (Some (JList items, JNum (Z.of_nat (length records)))), st1).
  cbv beta iota. rewrite bind_run. unfold lift, py_iter.
  cbv beta iota. rewrite bind_run. unfold lift, py_int. cbv beta iota.
  destruct (_ || _); [done|]. by rewrite bind_run.
Qed.

Lemma list_loop_paged fuel batch_size s st :
  (s ≤ length records)%nat → (length records - s < fuel)%nat →
  ∃ starts final,
    paged k (length records) starts final ∧ head starts = Some s
    ∧ (list_loop L E fuel batch_size (take s records) (Z.of_nat s) st).1
      = Ret (take final records)
    ∧ lister_starts
        (trace (list_loop L E fuel batch_size (take s records) (Z.of_nat s) st).2)
      = (rev (Z.of_nat <$> starts) ++ lister_starts (trace st))%list.
Proof.
  revert s st. induction fuel as [|fuel IH]; intros s st Hs Hfuel; [lia|].
  rewrite list_loop_step, Nat2Z.id.
  destruct (gathered records k s Hs) as (Hall&Hlen&Hlen').
  set (got := (k s `min` (length records - s))%nat) in *.
  rewrite Hall, Hlen, Hlen'.
  destruct (_ || _) eqn:Hstop.
  - exists [s], (s + got)%nat. simpl. repeat split; try done.
    apply orb_true_iff in Hstop as [H|H].
    + left. rewrite Z.geb_leb in H. apply Z.leb_le in H. lia.
    + right. by apply Nat.eqb_eq in H.
  - apply orb_false_iff in Hstop as [H1 H2]. apply Nat.eqb_neq in H2.
    rewrite Z.geb_leb in H1. apply Z.leb_gt in H1.
    assert (s + got < length records)%nat by lia.
    replace (Z.of_nat s + Z.of_nat got) with (Z.of_nat (s + got)) by lia.
    destruct (IH (s + got)%nat
                (push_event EvSleep
                   (push_event (EvHttp Lister
                      (POST QUERY_API (query_payload (Z.of_nat s) batch_size))) st)))
      as (starts&final&Hp&Hh&Hr&Ht); [lia|lia|].
    exists (s :: starts), final. destruct starts as [|s' rest]; [done|].
    injection Hh as ->. repeat split; try done; try lia.
    rewrite Ht. simpl. by rewrite <- !app_assoc.
Qed.

Lemma extract_loop_step fuel batch_size all_employees start total st :
  total = None ∨ total = Some (Z.of_nat (length records)) →
  let items := take (k (Z.to_nat start)) (drop (Z.to_nat start) records) in
  let st1 := push_event
               (EvHttp Lister
                  (POST Extractor.API_URL (Extractor.batch_payload start batch_size)))
               st in
  Extractor.extract_loop E batch_size (S fuel) all_employees start total st =
  if (length items =? 0)%nat then (Ret all_employees, st1)
  else if Z.of_nat (length (all_employees ++ items)) >=? Z.of_nat (length records)
  then (Ret (all_employees ++ items)%list, st1)
  else Extractor.extract_loop E batch_size fuel (all_employees ++ items)%list
         (start + Z.of_nat (length items))
         (Some (Z.of_nat (length records))) (push_event EvSleep st1).
Proof.
  intros Htotal items st1. cbn [Extractor.extract_loop]. rewrite bind_run.
  unfold Extractor.fetch_batch. rewrite bind_run. unfold send.
  rewrite (proj2 (Hserves _ _ _)).
  cbn [status_code page_of Z.eqb negb Pos.eqb text resp_json].
  change (startswith (strip "{}") "<!doctype" || startswith (strip "{}") "<html")
    with false. cbv beta iota.
  rewrite bind_run. unfold lift, Extractor.py_get. cbv beta iota.
  rewrite bind_run. cbv beta iota.
  change (default (JList []) (dict_get "data" _)) with (JList items).
  change (default (JNum 0) (dict_get "total" _))
    with (JNum (Z.of_nat (length records))).
  unfold ret at 1. cbv beta iota. rewrite bind_run.
  replace (negb (truthy (JList items))) with (length items =? 0)%nat
    by (by destruct items).
  fold st1.
  destruct Htotal as [-> | ->]; unfold ret at 1, Extractor.format_thousands;
    cbv beta iota;
    (destruct (length items =? 0)%nat; [done|]);
    rewrite bind_run; unfold py_iter; cbv beta iota;
    (destruct (_ >=? _); [done|]); by rewrite bind_run.
Qed.

Lemma extract_loop_paged fuel batch_size s total st :
  total = None ∨ total = Some (Z.of_nat (length records)) →
  (s ≤ length records)%nat → (length records - s < fuel)%nat →
  ∃ starts final,
    paged k (length records) starts final ∧ head starts = Some s
    ∧ (Extractor.extract_loop E batch_size fuel (take s records) (Z.of_nat s)
         total st).1
      = Ret (take final records)
    ∧ lister_starts
        (trace (Extractor.extract_loop E batch_size fuel (take s records)
                  (Z.of_nat s) total st).2)
      = (rev (Z.of_nat <$> starts) ++ lister_starts (trace st))%list.
Proof.
  revert s total st.
  induction fuel as [|fuel IH]; intros s total st Htotal Hs Hfuel; [lia|].
  rewrite (extract_loop_step _ _ _ _ _ _ Htotal), Nat2Z.id.
  destruct (gathered records k s Hs) as (Hall&Hlen&Hlen').
  set (got := (k s `min` (length records - s))%nat) in *.
  rewrite Hall, Hlen, Hlen'.
  destruct (got =? 0)%nat eqn:H0.
  { apply Nat.eqb_eq in H0. exists [s], (s + got)%nat. simpl.
    repeat split; try done; [by right|]. rewrite H0, Nat.add_0_r. done. }
  apply Nat.eqb_neq in H0.
  destruct (_ >=? _) eqn:Hstop; rewrite Z.geb_leb in Hstop.
  - apply Z.leb_le in Hstop.
    exists [s], (s + got)%nat. simpl. repeat split; try done. left. lia.
  - apply Z.leb_gt in Hstop.
    assert (s + got < length records)%nat by lia.
    replace (Z.of_nat s + Z.of_nat got) with (Z.of_nat (s + got)) by lia.
    destruct (IH (s + got)%nat (Some (Z.of_nat (length records)))
                (push_event EvSleep
                   (push_event (EvHttp Lister
                      (POST Extractor.API_URL
                         (Extractor.batch_payload (Z.of_nat s) batch_size))) st)))
      as (starts&final&Hp&Hh&Hr&Ht); [by right|lia|lia|].
    exists (s :: starts), final. destruct starts as [|s' rest]; [done|].
    injection Hh as ->. repeat split; try done; try lia.
    rewrite Ht. simpl. by rewrite <- !app_assoc.
Qed.

(** When no page is empty the listing returns every record. *)
Lemma listing_complete fuel st :
  (∀ s, (s < length records)%nat → (0 < k s)%nat) →
  (length records < fuel)%nat →
  (list_all_payslips L E fuel st).1 = Ret records.
Proof.
  intros Hk Hfuel.
  destruct (list_loop_paged fuel 100 0 st) as (starts&final&Hp&Hh&Hr&_);
    [lia|lia|].
  unfold list_all_payslips, list_all_payslips_with.
  change (list_loop L E fuel 100 [] 0 st)
    with (list_loop L E fuel 100 (take 0 records) (Z.of_nat 0) st).
  rewrite Hr. rewrite (paged_complete k _ starts final 0%nat Hp Hh); [|lia|done].
  by rewrite firstn_all.
Qed.
End WithServer.
End Paging.

(** ** Runs against a server that answers *)

Module Good.
Import Py World Sync Obs Logic Frame Paths Partition Download Runs.

Section WithLib.
Variable L : pylib.

(** Only a dict yields an identifier. *)
Lemma encoded_id_dict ps id :
  _get_encoded_id L ps = Ret id → ∃ o, ps = JObj o.
Proof.
  destruct ps as [| | |s|l|o]; try discriminate; [| |by eauto].
  - unfold _get_encoded_id, detail_link_id, id_fields, fallback_id; simpl.
    repeat (match goal with
            | |- context [if ?b then _ else _] => destruct b; simpl
            end; try discriminate).
  - unfold _get_encoded_id, detail_link_id, id_fields, fallback_id; simpl.
    repeat (match goal with
            | |- context [if ?b then _ else _] => destruct b; simpl
            end; try discriminate).
Qed.

Lemma pay_date_from_dict fields o : ∃ d, pay_date_from fields (JObj o) = Ret d.
Proof.
  induction fields as [|f rest IH]; simpl; [by eauto|].
  unfold dict_has. destruct (dict_get f o) as [v|] eqn:Hv; simpl.
  - rewrite ?Hv. destruct v; try exact IH. by eauto.
  - exact IH.
Qed.

Lemma pay_date_of_identified ps id :
  _get_encoded_id L ps = Ret id → ∃ d, _get_pay_date ps = Ret d.
Proof. intros [o ->]%encoded_id_dict. apply pay_date_from_dict. Qed.
End WithLib.

Section WithEnv.
Variable L : pylib.
Variable E : env.

Lemma fetch_payslip_detail_ok id st :
  answers_detail E id →
  ∃ doc, fetch_payslip_detail E id st
         = (Ret doc, push_event (EvHttp DetailFetcher (GET (detail_url id))) st).
Proof.
  intros Hok. destruct (Hok (length (trace st))) as (resp&doc&Hr&Hv&Hs&Hj).
  exists doc. unfold fetch_payslip_detail. rewrite bind_run. unfold send.
  fold (detail_url id). rewrite Hr, bind_run. unfold lift. rewrite Hv, Hs, Hj.
  done.
Qed.

(** A session-expiry answer makes the request raise a [RuntimeError] that
    the handler of the loop takes for an expiry. *)
Lemma fetch_payslip_detail_expired id st :
  expired_for E id →
  ∃ e, fetch_payslip_detail E id st
       = (Raise e, push_event (EvHttp DetailFetcher (GET (detail_url id))) st)
       ∧ isinstance e RuntimeError = true
       ∧ is_expiry_message (exn_msg e) = true.
Proof.
  intros Hex. destruct (Hex (length (trace st))) as (resp&Hr&Hcase).
  unfold fetch_payslip_detail. rewrite bind_run. unfold send.
  fold (detail_url id). rewrite Hr, bind_run. unfold lift, _check_session_valid.
  destruct (status_code resp =? 401) eqn:H401.
  { eexists. split; [done|]. split; by vm_compute. }
  destruct Hcase as [H|H]; [apply Z.eqb_neq in H401; done|].
  assert (startswith (strip (text resp)) "<!"
          || startswith (strip (text resp)) "<html" = true) as ->.
  { apply orb_true_iff. tauto. }
  eexists. split; [done|]. split; by vm_compute.
Qed.

Section Polite.
Hypothesis Hpolite : polite E.

Lemma follow_redirects_polite budget pdf_url response st :
  match (follow_redirects E budget pdf_url response st).1 with
  | Ret _ => True
  | Raise e => isinstance e RequestException = true
  | NoFuel => False
  end.
Proof.
  revert response st.
  induction budget as [|budget IH]; intros response st; simpl; [done|].
  destruct (is_redirect _); [|done].
  destruct (opt_truthy _); [|done].
  rewrite bind_run. unfold send.
  destruct (http E _ _) as [resp|e] eqn:Hh; [apply IH|].
  simpl. by apply Hpolite in Hh.
Qed.

Lemma fetch_payslip_pdf_returns pdf_url st :
  ∃ r, (fetch_payslip_pdf E pdf_url st).1 = Ret r.
Proof.
  unfold fetch_payslip_pdf. destruct (negb _); [by eexists|].
  unfold _fetch_pdf_via_requests. rewrite bind_run, try_run, bind_run.
  unfold send. destruct (http E _ _) as [resp|e] eqn:Hh.
  - rewrite bind_run.
    pose proof (follow_redirects_polite 10 pdf_url resp
                  (push_event (EvHttp PdfFetcher (GET pdf_url)) st)) as Hf.
    destruct (follow_redirects E 10 pdf_url resp _) as [[r|e|] st1];
      simpl in Hf; [| |done].
    + unfold ret at 1. cbv beta iota.
      destruct (negb _); [by eexists|].
      destruct (_ && _); by eexists.
    + rewrite Hf. by eexists.
  - apply Hpolite in Hh. rewrite Hh. by eexists.
Qed.

Lemma pdf_phase_returns skip_pdf pay_date sid iid st :
  is_absolute pay_date = false →
  ∃ r, (pdf_phase L E skip_pdf pay_date sid iid st).1 = Ret r.
Proof.
  intros Hrel. unfold pdf_phase. destruct (_ && _); [|by eexists].
  rewrite bind_run.
  destruct (fetch_payslip_pdf_returns
              (_build_pdf_api_url (default "" sid) (default "" iid)) st)
    as [r Hr].
  destruct (fetch_payslip_pdf E _ st) as [r' st1]. simpl in Hr. subst r'.
  destruct (opt_truthy r); [|by eexists].
  rewrite bind_run. unfold write_file at 1. cbv beta iota.
  rewrite bind_run. unfold lift. rewrite relative_to_make_file_path by done.
  by eexists.
Qed.

Lemma download_one_ok skip_pdf id pay_date sid iid st :
  answers_detail E id → is_absolute pay_date = false →
  (download_one L E skip_pdf id pay_date sid iid st).1 = Ret ().
Proof.
  intros Hok Hrel. unfold download_one. rewrite bind_run.
  destruct (fetch_payslip_detail_ok id st Hok) as [doc ->].
  rewrite bind_run. unfold write_file at 1. cbv beta iota.
  rewrite bind_run.
  match goal with
  | |- context [pdf_phase L E skip_pdf pay_date sid iid ?s] =>
      destruct (pdf_phase_returns skip_pdf pay_date sid iid s Hrel) as [r Hr];
      destruct (pdf_phase L E skip_pdf pay_date sid iid s) as [r' st1]
  end.
  simpl in Hr. subst r'. rewrite bind_run. unfold lift.
  by rewrite relative_to_make_file_path by done.
Qed.

(** One turn of the loop for a record whose detail the server
    returns: the record is downloaded and the loop goes on with the
    counter increased. *)
Lemma download_loop_turn skip_pdf ps rest id n0 st :
  _get_encoded_id L ps = Ret id →
  (∃ info, _get_pdf_info ps = Ret info) →
  (∃ d, _get_pay_date ps = Ret d ∧ is_absolute d = false) →
  answers_detail E id →
  ∃ st1,
    download_loop L E skip_pdf (ps :: rest) n0 st
    = download_loop L E skip_pdf rest (n0 + 1) (push_event EvSleep st1)
    ∧ detail_gets (trace st1) = detail_url id :: detail_gets (trace st)
    ∧ (∃ path, json_writes (trace st1) = path :: json_writes (trace st))
    ∧ index_json st1 = index_json st
    ∧ index_saves (trace st1) = index_saves (trace st)
    ∧ dom (payslips (mem st1)) = {[id]} ∪ dom (payslips (mem st))
    ∧ is_cached st1 id true = true
    ∧ still_cached st st1.
Proof.
  intros Hid [info Hinfo] (pay_date&Hdate&Hrel) Hok.
  pose proof (download_one_spec L E skip_pdf id pay_date info.1 info.2 st)
    as (Hg&Hi&Hs&_&_&_&Hr).
  pose proof (download_one_ok skip_pdf id pay_date info.1 info.2 st Hok Hrel)
    as Hret.
  pose proof (download_one_cached L E skip_pdf id pay_date info.1 info.2 st) as Hc.
  pose proof (download_one_still_cached L E skip_pdf id pay_date info.1 info.2 st)
    as Hstill.
  cbn [download_loop]. rewrite bind_run. unfold lift at 1. rewrite Hid.
  cbv beta iota. rewrite bind_run. unfold lift at 1. rewrite Hdate.
  cbv beta iota. rewrite bind_run. unfold lift at 1. rewrite Hinfo.
  cbv beta iota. rewrite bind_run, try_run, bind_run.
  destruct (download_one L E skip_pdf id pay_date info.1 info.2 st) as [r st1].
  simpl in Hg, Hi, Hs, Hr, Hret, Hc, Hstill. subst r.
  destruct Hr as (Hw&_&pdf&stamp&Hrows).
  exists st1. unfold ret at 1. cbv beta iota. rewrite bind_run.
  split; [done|]. repeat split; try done.
  - by eexists.
  - rewrite Hrows. by rewrite dom_insert_L.
  - by apply Hc.
Qed.

(** The loop over records whose details the server returns. *)
Lemma download_loop_all_ok skip_pdf missing ids n0 st :
  identified L missing ids → locatable missing → storable missing →
  Forall (answers_detail E) ids →
  ∃ st',
    download_loop L E skip_pdf missing n0 st
    = (Ret (n0 + Z.of_nat (length missing)), st')
    ∧ detail_gets (trace st')
      = (rev (detail_url <$> ids) ++ detail_gets (trace st))%list
    ∧ (∃ writes, json_writes (trace st') = (writes ++ json_writes (trace st))%list
                 ∧ length writes = length missing)
    ∧ index_json st' = index_json st
    ∧ index_saves (trace st') = index_saves (trace st)
    ∧ dom (payslips (mem st')) = dom (payslips (mem st)) ∪ list_to_set ids.
Proof.
  intros Hids. revert n0 st.
  induction Hids as [|ps id rest ids' Hid _ IH]; intros n0 st Hloc Hsto Hok.
  { exists st. simpl. rewrite Z.add_0_r. repeat split; try done.
    - by exists [].
    - set_solver. }
  apply Forall_cons in Hloc as [Hinfo Hloc].
  apply Forall_cons in Hsto as [(d&Hd&Hplain) Hsto].
  assert (Hdate : ∃ d, _get_pay_date ps = Ret d ∧ is_absolute d = false).
  { exists d. split; [done|by apply plain_name_relative]. }
  apply Forall_cons in Hok as [Hok1 Hok].
  destruct (download_loop_turn skip_pdf ps rest id n0 st Hid Hinfo Hdate Hok1)
    as (st1&Hrun&Hg&[path Hw]&Hi&Hs&Hdom&_&_).
  destruct (IH (n0 + 1) (push_event EvSleep st1) Hloc Hsto Hok)
    as (st'&Hrun'&Hg'&(writes&Hw'&Hlen)&Hi'&Hs'&Hdom').
  exists st'. rewrite Hrun, Hrun'. simpl in *.
  split; [f_equal; f_equal; lia|].
  split; [by rewrite Hg', Hg, <- app_assoc|].
  split; [exists (writes ++ [path])%list; split;
          [by rewrite Hw', Hw, <- app_assoc|rewrite length_app; simpl; lia]|].
  split; [by rewrite Hi'|]. split; [by rewrite Hs'|].
  rewrite Hdom', Hdom. set_solver.
Qed.

(** The loop when the session expires at the record [bad], after the
    records [done] have been downloaded: the index is saved with their
    rows and the error leaves the loop. *)
Lemma download_loop_expiry skip_pdf done ids bad id_bad rest n0 st :
  identified L done ids → locatable done → storable done →
  Forall (answers_detail E) ids →
  _get_encoded_id L bad = Ret id_bad →
  (∃ info, _get_pdf_info bad = Ret info) →
  expired_for E id_bad →
  ∃ e st',
    download_loop L E skip_pdf (done ++ bad :: rest) n0 st = (Raise e, st')
    ∧ isinstance e RuntimeError = true
    ∧ in_sync st'
    ∧ index_saves (trace st') = S (index_saves (trace st))
    ∧ dom (payslips (mem st')) = dom (payslips (mem st)) ∪ list_to_set ids
    ∧ Forall (cached_record L st') done
    ∧ still_cached st st'.
Proof.
  intros Hids. revert n0 st.
  induction Hids as [|ps id done' ids' Hid _ IH];
    intros n0 st Hloc Hsto Hok Hbad [info Hinfo] Hexp.
  - destruct (pay_date_of_identified L bad id_bad Hbad) as [pay_date Hdate].
    destruct (fetch_payslip_detail_expired id_bad st Hexp) as (e&Hf&Hrt&Hmsg).
    exists e. simpl app. cbn [download_loop]. rewrite bind_run.
    unfold lift at 1. rewrite Hbad. cbv beta iota. rewrite bind_run.
    unfold lift at 1. rewrite Hdate. cbv beta iota. rewrite bind_run.
    unfold lift at 1. rewrite Hinfo. cbv beta iota.
    rewrite bind_run, try_run, bind_run. unfold download_one.
    rewrite bind_run, Hf, Hrt. unfold on_runtime_error. rewrite Hmsg.
    rewrite bind_run. unfold save at 1. cbv beta iota zeta.
    eexists. split; [reflexivity|]. simpl.
    repeat split; try done; [set_solver|by intros id].
  - apply Forall_cons in Hloc as [Hinfo1 Hloc].
    apply Forall_cons in Hsto as [(d&Hd&Hplain) Hsto].
    assert (Hdate1 : ∃ d, _get_pay_date ps = Ret d ∧ is_absolute d = false).
    { exists d. split; [done|by apply plain_name_relative]. }
    apply Forall_cons in Hok as [Hok1 Hok].
    destruct (download_loop_turn skip_pdf ps (done' ++ bad :: rest) id n0 st
                Hid Hinfo1 Hdate1 Hok1)
      as (st1&Hrun&_&_&_&Hs&Hdom&Hc&Hstill).
    destruct (IH (n0 + 1) (push_event EvSleep st1) Hloc Hsto Hok Hbad
                (ex_intro _ info Hinfo) Hexp)
      as (e&st'&Hrun'&Hrt&Hsync&Hs'&Hdom'&Hcached&Hstill').
    exists e, st'. simpl app. rewrite Hrun, Hrun'. simpl in *.
    split; [done|]. split; [done|]. split; [done|].
    split; [by rewrite Hs', Hs|].
    split; [rewrite Hdom', Hdom; set_solver|].
    split.
    + constructor; [|done]. intros id' Hid'. rewrite Hid in Hid'.
      injection Hid' as <-. by apply Hstill'.
    + intros id' H. by apply Hstill', Hstill.
Qed.
End Polite.
End WithEnv.
End Good.

(** ** Places where the code departs from the design document *)

Module Departures.
Import Py World Sync Obs Fixtures.

(** C7. The payload of [token_exp_zero] is the JSON object with the single
    claim [exp = 0]: the token expired at the epoch, which is in the past at
    every later moment.  [is_token_expired] nevertheless answers [False]:
    the test [not exp_timestamp] of line 277 takes the claim 0 for a
    missing claim. *)
Theorem C7_exp_zero_reported_valid :
  Reference.loads (default "" (Reference.b64decode (Auth.pad_payload "eyJleHAiOjB9")))
  = Some (JObj [("exp", JNum 0)])
  ∧ ∀ now_us : Z,
      Auth.is_token_expired_default Reference.lib now_us token_exp_zero
      = Ret false.
Proof. split; [by vm_compute|]. intros now_us. reflexivity. Qed.

(** C8. The payload of [token_payload_one] is the JSON document [1].  It
    has no [get], and the [AttributeError] leaves [is_token_expired]: the
    handler of line 292 names [ValueError], [KeyError] and
    [JSONDecodeError] only. *)
Theorem C8_non_object_payload_raises :
  Reference.loads (default "" (Reference.b64decode (Auth.pad_payload "MQ")))
  = Some (JNum 1)
  ∧ ∀ now_us : Z,
      Auth.is_token_expired_default Reference.lib now_us token_payload_one
      = Raise (Exn AttributeError "object has no attribute 'get'").
Proof. split; [by vm_compute|]. intros now_us. reflexivity. Qed.

(** C3. Two records are missing; the first is downloaded and recorded in
    the in-memory index, and the user interrupts the request for the
    second.  The [KeyboardInterrupt] is not a [RuntimeError], so the handler
    of line 598 does not run: [sync_all] ends with the interrupt and the
    index file has not been written, although the first document is on
    disk. *)
Theorem C3_interrupt_skips_the_save :
  let final := sync_all Reference.lib (interrupted_server [january; february] 4)
               5 true fresh in
  final.1 = Raise (Exn KeyboardInterrupt "")
  ∧ payslips (mem final.2) !! "a"
    = Some (Entry "2024-01-31" (Some "2024/01/2024-01-31.json") None "T3")
  ∧ files final.2 !! ".cache/payslips/2024/01/2024-01-31.json"
    = Some (JsonText (JObj [("url", JStr (detail_url "a"))]))
  ∧ detail_gets (trace final.2) = [detail_url "b"; detail_url "a"]
  ∧ index_saves (trace final.2) = 0%nat
  ∧ index_json final.2 = IndexAbsent.
Proof. by vm_compute. Qed.

(** C9. The cache is empty and the server lists two records, one of them
    without an identifier.  The warning is printed and the other record is
    downloaded, and the run returns [already_cached = 1]: line 548 computes
    the number as [total_available - len(missing)], which counts the
    record that was left out as cached. *)
Theorem C9_skipped_record_counted_as_cached :
  let final := sync_all Reference.lib (server [january; nameless]) 5 true fresh in
  _get_encoded_id Reference.lib nameless
  = Raise (Exn ValueError "Could not find ID in payslip: ['payDate']")
  ∧ stored_rows (index_json fresh) = ∅
  ∧ final.1 = Ret (2, 1, 1)
  ∧ warnings (trace final.2)
    = ["  Warning: Could not find ID in payslip: ['payDate']"]
  ∧ detail_gets (trace final.2) = [detail_url "a"].
Proof. by vm_compute. Qed.
End Departures.

(** ** Properties of a run of [sync_all] *)

Module Claims.
Import Py World Sync Obs Logic Frame Paths Partition Download Runs Paging Good Fixtures.

(** C10.  A run of [sync_all] leaves the index row of every record that is
    satisfied when the run starts as it is: the row that the index file
    holds after the run is the row it held before, with its [pay_date],
    [json_path], [pdf_path] and [cached_at].  A row of the index file that
    differs after the run belongs to a record that the run downloaded: its
    detail was requested, its document was written, and the row points to
    that document. *)
Theorem C10_satisfied_rows_are_kept (L : pylib) (E : env) (fuel : nat)
    (skip_pdf : bool) (st : state) :
  let st' := (sync_all L E fuel skip_pdf st).2 in
  (∀ id, satisfied st id →
         stored_rows (index_json st') !! id = stored_rows (index_json st) !! id)
  ∧ (∀ id,
       stored_rows (index_json st') !! id ≠ stored_rows (index_json st) !! id →
       ∃ gets writes row path,
         detail_gets (trace st') = (gets ++ detail_gets (trace st))%list
         ∧ json_writes (trace st') = (writes ++ json_writes (trace st))%list
         ∧ detail_url id ∈ gets
         ∧ stored_rows (index_json st') !! id = Some row
         ∧ json_path row = Some path
         ∧ path_join CACHE_DIR path ∈ writes).
Proof.
  intros st'. subst st'. rewrite sync_all_unfold.
  destruct (load_loaded st) as (Hm0&Hf0&Hi0&Hd0&Hw0&Hs0&_).
  pose proof (listing_quiet L E fuel st) as (Hm1&Hf1&Hi1&Hd1&Hw1&Hs1).
  set (st0 := (load st).2) in *.
  destruct (list_all_payslips L E fuel st0) as [[records|e|] st1];
    simpl in Hm1, Hf1, Hi1, Hd1, Hw1, Hs1;
    [|simpl; rewrite Hi1, Hi0; split; [done|by intros id []]..].
  assert (Hrows1 : payslips (mem st1) = stored_rows (index_json st)).
  { by rewrite Hm1, Hm0. }
  assert (Hidx1 : index_json st1 = index_json st) by by rewrite Hi1.
  split.
  - intros id Hsat.
    destruct (sync_listed_evolves L E skip_pdf records st1) as (Hun&_&_).
    apply (Hun (stored_rows (index_json st))).
    + intros id' _. by rewrite Hrows1, Hidx1.
    + unfold satisfied in Hsat. rewrite <- is_cached_load in Hsat.
      fold st0 in Hsat.
      rewrite (is_cached_ext st0 st1) by (by rewrite ?Hm1, ?Hf1).
      by rewrite Hsat.
  - intros id Hid.
    destruct (sync_listed_index L E skip_pdf records st1) as [[Hi' _]|[[Hsync _] _]].
    { exfalso. apply Hid. by rewrite Hi', Hidx1. }
    destruct (sync_listed_tracked L E skip_pdf records st1) as (_&_&Htr).
    rewrite Hsync in Hid |- *.
    destruct (Htr id) as (gets&writes&row&path&Hg&Hw&?&?&?&?).
    { by rewrite Hrows1. }
    exists gets, writes, row, path.
    by rewrite Hg, Hw, Hd1, Hw1, Hd0, Hw0.
Qed.

(** After a first run, January is satisfied; a second run against a server
    that lists a third record keeps its row. *)
Lemma C10_witness :
  satisfied synced_once "a"
  ∧ stored_rows (index_json
      (sync_all Reference.lib (server [january; february; march]) 5 true
         synced_once).2) !! "a"
    = stored_rows (index_json synced_once) !! "a".
Proof.
  split; [by vm_compute|].
  apply (proj1 (C10_satisfied_rows_are_kept Reference.lib
                  (server [january; february; march]) 5%nat true synced_once)).
  by vm_compute.
Defined.

(** C5, as stated: [is_cached] accepts a row only if the document that the
    row names exists.  The row of [pathless] names no document and the
    directory is empty, and [is_cached] accepts it: the test
    [if json_path:] of line 105 skips the check for a row without a
    path. *)
Lemma C5_counterexample :
  ¬ (∀ st id,
       is_cached st id true = true →
       ∃ row path,
         payslips (mem st) !! id = Some row
         ∧ json_path row = Some path
         ∧ is_Some (files st !! path_join CACHE_DIR path)).
Proof.
  intros H. destruct (H pathless "x") as (row&path&Hrow&Hpath&_).
  { by vm_compute. }
  vm_compute in Hrow. injection Hrow as <-. discriminate Hpath.
Qed.

(** C5, amended.  For a row that names a document, [is_cached] accepts
    the row exactly when the document exists; a row that names none is
    accepted without a check.  When the index file has a row for a listed
    record and the document it names is gone, a run of [sync_all] that
    returns has requested the detail of that record again. *)
Theorem C5_dangling_row_is_fetched_again :
  (∀ st id row path,
     payslips (mem st) !! id = Some row →
     json_path row = Some path → path ≠ "" →
     (is_cached st id true = true
      ↔ is_Some (files st !! path_join CACHE_DIR path)))
  ∧ (∀ st id row,
       payslips (mem st) !! id = Some row →
       json_path row = None ∨ json_path row = Some "" →
       is_cached st id true = true)
  ∧ (∀ L E fuel skip_pdf st id row path records ps result st',
       stored_rows (index_json st) !! id = Some row →
       json_path row = Some path → path ≠ "" →
       files st !! path_join CACHE_DIR path = None →
       listing_of L E fuel st = Ret records →
       ps ∈ records → _get_encoded_id L ps = Ret id →
       sync_all L E fuel skip_pdf st = (Ret result, st') →
       ∃ gets, detail_gets (trace st') = (gets ++ detail_gets (trace st))%list
               ∧ detail_url id ∈ gets).
Proof.
  assert (Hiff : ∀ st id row path,
     payslips (mem st) !! id = Some row →
     json_path row = Some path → path ≠ "" →
     (is_cached st id true = true
      ↔ is_Some (files st !! path_join CACHE_DIR path))).
  { intros st id row path Hrow Hpath Hne. unfold is_cached, exists_file.
    rewrite Hrow; simpl. rewrite Hpath.
    assert (str_truthy path = true) as ->.
    { unfold str_truthy. destruct (String.eqb path "") eqn:Heq; [|done].
      by apply String.eqb_eq in Heq. }
    apply bool_decide_eq_true. }
  split; [exact Hiff|]. split.
  - intros st id row Hrow Hpath. unfold is_cached. rewrite Hrow; simpl.
    by destruct Hpath as [->| ->].
  - intros L E fuel skip_pdf st id row path records ps [[t c] n] st'
      Hrow Hpath Hne Hgone Hlist Hin Hid Hrun.
    rewrite sync_all_unfold in Hrun. unfold listing_of in Hlist.
    destruct (load_loaded st) as (Hm0&Hf0&Hi0&Hd0&Hw0&Hs0&_).
    pose proof (listing_quiet L E fuel st) as (Hm1&Hf1&Hi1&Hd1&Hw1&Hs1).
    destruct (list_all_payslips L E fuel (load st).2) as [r st1].
    simpl in Hlist, Hm1, Hf1, Hi1, Hd1, Hw1, Hs1. subst r.
    assert (Hwanted : wanted L st1 ps = Ret true).
    { unfold wanted. rewrite Hid. f_equal. apply negb_true_iff.
      apply not_true_is_false. intros Hc.
      apply (Hiff st1 id row path) in Hc; [|by rewrite Hm1, Hm0|done|done].
      rewrite Hf1, Hf0, Hgone in Hc. by destruct Hc. }
    apply sync_listed_ret in Hrun
      as [(->&_)|(missing&st2&st3&_&Hfind&Hloop&->&_)].
    { by apply elem_of_nil in Hin. }
    destruct (find_missing_spec L records st1) as [Hmiss Hq].
    rewrite Hfind in Hmiss, Hq. simpl in Hmiss, Hq.
    destruct Hq as (_&_&_&Hd2&_).
    pose proof (download_loop_outcome L E skip_pdf missing 0 st2) as Hout.
    rewrite Hloop in Hout. simpl in Hout.
    destruct Hout as (_&_&_&(gets&Hgets&Hreq)&_).
    exists gets. split.
    + simpl. by rewrite Hgets, Hd2, Hd1, Hd0.
    + rewrite Forall_forall in Hreq. apply (Hreq ps); [|done].
      by apply (missing_of_elem L st1 records).
Qed.

(** The January document of [dangling] is gone: [is_cached] rejects the
    row, and the next run requests the record again. *)
Lemma C5_witness :
  is_cached (loaded dangling) "a" true = false
  ∧ ∃ gets,
      detail_gets (trace (sync_all Reference.lib (server [january; february])
                            5 true dangling).2)
      = (gets ++ detail_gets (trace dangling))%list
      ∧ detail_url "a" ∈ gets.
Proof.
  split; [by vm_compute|].
  destruct (sync_all Reference.lib (server [january; february]) 5 true dangling)
    as [result st'] eqn:Hrun.
  assert (Hret : result = Ret (2, 1, 1)).
  { by apply (f_equal fst) in Hrun; vm_compute in Hrun. }
  subst result.
  apply (proj2 (proj2 C5_dangling_row_is_fetched_again)
           Reference.lib (server [january; february]) 5%nat true dangling "a"
           (Entry "2024-01-31" (Some "2024/01/2024-01-31.json") None "T3")
           "2024/01/2024-01-31.json" [january; february] january (2, 1, 1) st');
    try (by vm_compute); try done.
  by left.
Defined.

(** C4.  Against a server that holds [records], reports their number as the
    total and returns [k s] records at offset [s] whatever page size is
    asked for, both listing loops request the offsets [starts] and return
    the first [final] records, where [paged] holds: the first offset is 0,
    each further offset is the previous one plus the number of records
    that the previous page held, and the loop stops at the first page that
    is empty or with which the total is reached.  When no page is empty,
    all records are returned.  In the scenario of a total of four records
    returned two at a time under a page size of three, four records are
    returned with two requests, at the offsets 0 and 2. *)
Theorem C4_pagination :
  (∀ L E records k batch_size fuel st,
     serves_pages E records k → (length records < fuel)%nat →
     (∃ starts final,
        paged k (length records) starts final ∧ head starts = Some 0%nat
        ∧ ((∀ s, (s < length records)%nat → (0 < k s)%nat) →
           final = length records)
        ∧ (list_all_payslips_with L E batch_size fuel st).1
          = Ret (take final records)
        ∧ lister_starts (trace (list_all_payslips_with L E batch_size fuel st).2)
          = (rev (Z.of_nat <$> starts) ++ lister_starts (trace st))%list)
     ∧ (∃ starts final,
          paged k (length records) starts final ∧ head starts = Some 0%nat
          ∧ ((∀ s, (s < length records)%nat → (0 < k s)%nat) →
             final = length records)
          ∧ (Extractor.extract_all E batch_size fuel st).1
            = Ret (take final records)
          ∧ lister_starts (trace (Extractor.extract_all E batch_size fuel st).2)
            = (rev (Z.of_nat <$> starts) ++ lister_starts (trace st))%list))
  ∧ ((list_all_payslips_with Reference.lib two_by_two 3 5 fresh).1 = Ret four
     ∧ lister_starts
         (trace (list_all_payslips_with Reference.lib two_by_two 3 5 fresh).2)
       = [2; 0]
     ∧ (list_all_payslips Reference.lib two_by_two 5 fresh).1 = Ret four
     ∧ lister_starts (trace (list_all_payslips Reference.lib two_by_two 5 fresh).2)
       = [2; 0]
     ∧ (Extractor.extract_all two_by_two 3 5 fresh).1 = Ret four
     ∧ lister_starts (trace (Extractor.extract_all two_by_two 3 5 fresh).2)
       = [2; 0]).
Proof.
  split; [|by vm_compute].
  intros L E records k batch_size fuel st Hserves Hfuel. split.
  - destruct (list_loop_paged L E records k Hserves fuel batch_size 0 st)
      as (starts&final&Hp&Hh&Hr&Ht); [lia|lia|].
    exists starts, final. repeat split; try done.
    intros Hk. by apply (paged_complete k _ starts final 0%nat); [| |lia|].
  - destruct (extract_loop_paged E records k Hserves fuel batch_size 0 None st)
      as (starts&final&Hp&Hh&Hr&Ht); [by left|lia|lia|].
    exists starts, final. repeat split; try done.
    intros Hk. by apply (paged_complete k _ starts final 0%nat); [| |lia|].
Qed.

(** The scenario as an instance: the server [two_by_two] answers with pages
    of two. *)
Lemma C4_witness :
  serves_pages two_by_two four (λ _, 2%nat)
  ∧ ∃ starts final,
      paged (λ _, 2%nat) (length four) starts final ∧ head starts = Some 0%nat
      ∧ ((∀ s, (s < length four)%nat → (0 < 2)%nat) → final = length four)
      ∧ (list_all_payslips_with Reference.lib two_by_two 3 5 fresh).1
        = Ret (take final four)
      ∧ lister_starts
          (trace (list_all_payslips_with Reference.lib two_by_two 3 5 fresh).2)
        = (rev (Z.of_nat <$> starts) ++ lister_starts (trace fresh))%list.
Proof.
  assert (Hserves : serves_pages two_by_two four (λ _, 2%nat)).
  { intros t start batch_size. by split. }
  split; [exact Hserves|].
  apply (proj1 C4_pagination Reference.lib two_by_two four (λ _, 2%nat) 3 5%nat
           fresh Hserves).
  simpl. lia.
Defined.



(** The state in which a run starts its work, as far as the partition and
    the downloads see it. *)
Lemma listed_state (L : pylib) (E : env) (fuel : nat) (st : state) :
  let sa := (list_all_payslips L E fuel (load st).2).2 in
  payslips (mem sa) = stored_rows (index_json st)
  ∧ files sa = files st
  ∧ index_json sa = index_json st
  ∧ detail_gets (trace sa) = detail_gets (trace st)
  ∧ json_writes (trace sa) = json_writes (trace st)
  ∧ index_saves (trace sa) = index_saves (trace st).
Proof.
  intros sa. subst sa.
  destruct (load_loaded st) as (Hm0&Hf0&Hi0&Hd0&Hw0&Hs0&_).
  pose proof (listing_quiet L E fuel st) as (Hm&Hf&Hi&Hd&Hw&Hs).
  rewrite Hm, Hf, Hi, Hd, Hw, Hs, Hm0. done.
Qed.

(** A run does not write the row of a record that is satisfied when it
    starts. *)
Lemma satisfied_row_kept (L : pylib) (E : env) (fuel : nat) (skip_pdf : bool)
    (st : state) (id : string) :
  satisfied st id →
  stored_rows (index_json (sync_all L E fuel skip_pdf st).2) !! id
  = stored_rows (index_json st) !! id.
Proof.
  intros Hsat. rewrite sync_all_unfold.
  pose proof (listed_state L E fuel st) as (Hm&Hf&Hi&_).
  destruct (list_all_payslips L E fuel (load st).2) as [[records|e|] sa];
    simpl in Hm, Hf, Hi; [|by simpl; rewrite Hi..].
  destruct (sync_listed_evolves L E skip_pdf records sa) as (Hun&_&_).
  apply (Hun (stored_rows (index_json st))).
  - intros id' _. by rewrite Hm, Hi.
  - unfold satisfied in Hsat.
    rewrite <- (is_cached_ext (loaded st) sa) in Hsat by (by rewrite ?Hm).
    by rewrite Hsat.
Qed.

(** With something to download, a run takes the download branch. *)
Lemma nonempty_branch {A B : Type} (l : list A) (x y : B) :
  l ≠ [] → match l with [] => x | _ :: _ => y end = y.
Proof. by destruct l. Qed.




End Claims.

(** ** The index: saving, loading and looking up *)

Module IndexFacts.
Import Py World Sync Obs Logic Frame Paths Partition Download Runs Good Fixtures.
Import Watch Scenarios.

(** X1.  [load] after [save] restores the rows that were in memory when the
    index was saved, with their number as [total_count] and the time of the
    save as [last_sync]; it prints no warning, and [is_cached] answers as
    before the save. *)
Theorem save_then_load (E : env) (st : state) :
  let saved := (save E st).2 in
  let back := (load saved).2 in
  mem back = mem saved
  ∧ payslips (mem back) = payslips (mem st)
  ∧ total_count (mem back) = Z.of_nat (size (payslips (mem st)))
  ∧ last_sync (mem back) = Some (clock E (length (trace st)))
  ∧ trace back = trace saved
  ∧ ∀ id v, is_cached back id v = is_cached st id v.
Proof. intros saved back. by repeat split. Qed.

(** X2.  After [mark_cached] the identifier is in the index; with the file check
    it is cached exactly when the recorded document exists (always, when
    the recorded path is empty); the answer for every other identifier is
    as before. *)
Theorem mark_cached_then_is_cached (E : env) (st : state)
    (encoded_id pay_date json_path : string) (pdf_path : option string) :
  let st' := (mark_cached E encoded_id pay_date json_path pdf_path st).2 in
  payslips (mem st') !! encoded_id
  = Some (Entry pay_date (Some json_path) pdf_path (clock E (length (trace st))))
  ∧ is_cached st' encoded_id false = true
  ∧ is_cached st' encoded_id true
    = (if str_truthy json_path
       then exists_file st (path_join CACHE_DIR json_path) else true)
  ∧ ∀ other v, other ≠ encoded_id → is_cached st' other v = is_cached st other v.
Proof.
  intros st'. subst st'. unfold mark_cached, is_cached; simpl.
  rewrite lookup_insert_eq. repeat split; try done.
  intros other v Hne. by rewrite lookup_insert_ne.
Qed.
End IndexFacts.

(** ** Runs of [sync_all]: errors, counts and what a run never does *)

Module RunFacts.
Import Py World Sync Obs Logic Frame Paths Partition Download Runs Good Fixtures.
Import Watch Scenarios.

(** *** Exceptions of the pure helpers *)

Lemma tame_ret {A} (a : A) : tame (Ret a).
Proof. by intros e. Qed.

Lemma tame_obind {A B} (x : outcome A) (f : A → outcome B) :
  tame x → (∀ a, tame (f a)) → tame (obind x f).
Proof.
  intros Hx Hf e. destruct x as [a|e'|]; simpl; [apply Hf| |done].
  intros [= ->]. by apply Hx.
Qed.

Lemma tame_py_in k v : tame (py_in k v).
Proof. intros e. by destruct v; simpl; intros [= <-]. Qed.

Lemma tame_py_getitem v k : tame (py_getitem v k).
Proof.
  intros e. destruct v; simpl; try (by intros [= <-]).
  destruct (dict_get k o); by intros [= <-].
Qed.

Lemma tame_py_split_item v sep n : tame (py_split_item v sep n).
Proof.
  intros e. destruct v; simpl; try (by intros [= <-]).
  destruct (split s sep !! n); by intros [= <-].
Qed.

Lemma tame_py_keys v : tame (py_keys v).
Proof. intros e. by destruct v; simpl; intros [= <-]. Qed.

Ltac tame_step :=
  lazymatch goal with
  | |- tame (obind _ _) => apply tame_obind; [|intros ?]
  | |- tame (Ret _) => apply tame_ret
  | |- tame (py_in _ _) => apply tame_py_in
  | |- tame (py_getitem _ _) => apply tame_py_getitem
  | |- tame (py_split_item _ _ _) => apply tame_py_split_item
  | |- tame (py_keys _) => apply tame_py_keys
  | |- tame (Raise _) => by intros ? [= <-]
  | |- tame (if ?b then _ else _) => destruct b
  | |- tame (match ?x with _ => _ end) => destruct x
  end.

Lemma tame_get_encoded_id L ps : tame (_get_encoded_id L ps).
Proof.
  unfold _get_encoded_id, detail_link_id, id_fields; simpl.
  repeat tame_step.
Qed.

Lemma tame_pay_date_from fields ps : tame (pay_date_from fields ps).
Proof. induction fields as [|f fields IH]; simpl; repeat tame_step; done. Qed.

Lemma tame_get_pdf_info ps : tame (_get_pdf_info ps).
Proof. unfold _get_pdf_info. repeat tame_step. Qed.

(** *** Errors *)

(** X3.  An error of [_check_session_valid] is a [RuntimeError] whose message
    the handler of the download loop, line 599, takes for an expired
    session. *)
Theorem session_errors_are_expiries (r : response) (e : exn) :
  _check_session_valid r = Raise e →
  isinstance e RuntimeError = true
  ∧ is_expiry_message (exn_msg e) = true
  ∧ (status_code r = 401
     ∨ startswith (strip (text r)) "<!" = true
     ∨ startswith (strip (text r)) "<html" = true).
Proof.
  unfold _check_session_valid.
  destruct (status_code r =? 401) eqn:H401.
  { intros [= <-]. apply Z.eqb_eq in H401. repeat split; [by vm_compute..|by left]. }
  destruct (startswith (strip (text r)) "<!") eqn:H1;
    [intros [= <-]; repeat split; [by vm_compute..|by right; left]|].
  destruct (startswith (strip (text r)) "<html") eqn:H2;
    [intros [= <-]; repeat split; [by vm_compute..|by right; right]|].
  done.
Qed.

Lemma session_errors_witness :
  isinstance (Exn RuntimeError
    ("Authentication failed (401). Session may have expired." +:+ nl +:+
     "Try running with --clear-cache to force fresh authentication."))
    RuntimeError = true.
Proof.
  apply (session_errors_are_expiries (Response 401 "" (inl "") None None "")).
  reflexivity.
Defined.

(** X4.  Every [RuntimeError] that leaves the download loop has a message that
    line 599 takes for an expired session, and leaves after the index has
    been saved once: the index file holds the rows that are in memory. *)
Theorem runtime_errors_leave_after_a_save (L : pylib) (E : env) (skip_pdf : bool)
    (missing : list json) (n0 : Z) (st st' : state) (e : exn) :
  download_loop L E skip_pdf missing n0 st = (Raise e, st') →
  isinstance e RuntimeError = true →
  is_expiry_message (exn_msg e) = true
  ∧ in_sync st'
  ∧ index_saves (trace st') = S (index_saves (trace st)).
Proof.
  revert n0 st. induction missing as [|ps rest IH]; intros n0 st Hrun He;
    [done|].
  simpl in Hrun. rewrite bind_run in Hrun. unfold lift at 1 in Hrun.
  destruct (_get_encoded_id L ps) as [id|e0|] eqn:Hid;
    [|injection Hrun as <- <-; by rewrite (tame_get_encoded_id L ps e0) in He|done].
  rewrite bind_run in Hrun. unfold lift at 1 in Hrun.
  destruct (_get_pay_date ps) as [d|e0|] eqn:Hd;
    [|injection Hrun as <- <-;
      by rewrite (tame_pay_date_from _ ps e0 Hd) in He|done].
  rewrite bind_run in Hrun. unfold lift at 1 in Hrun.
  destruct (_get_pdf_info ps) as [info|e0|] eqn:Hinfo;
    [|injection Hrun as <- <-; by rewrite (tame_get_pdf_info ps e0) in He|done].
  rewrite bind_run, try_run, bind_run in Hrun.
  destruct (download_one_spec L E skip_pdf id d info.1 info.2 st)
    as (_&_&Hs&_).
  destruct (download_one L E skip_pdf id d info.1 info.2 st) as [[[]|e1|] st1];
    simpl in Hs.
  - unfold ret at 1, sleep, emit in Hrun. rewrite bind_run in Hrun.
    destruct (IH _ _ Hrun He) as (?&?&Hsaves). by rewrite Hsaves, <- Hs.
  - destruct (isinstance e1 RuntimeError) eqn:He1.
    + unfold on_runtime_error in Hrun.
      destruct (is_expiry_message (exn_msg e1)) eqn:Hmsg.
      * rewrite bind_run in Hrun.
        destruct (save_calm_rows E st1) as (Hm&_&_&_&Hsv&Hrows&Hcount&Hret).
        destruct (save E st1) as [r st2]. simpl in *. subst r.
        injection Hrun as <- <-. rewrite Hsv, Hs. repeat split; try done.
        -- by rewrite Hm.
        -- by rewrite Hm.
      * unfold ret at 1, sleep, emit in Hrun. rewrite bind_run in Hrun.
        destruct (IH _ _ Hrun He) as (?&?&Hsaves). by rewrite Hsaves, <- Hs.
    + injection Hrun as <- <-. congruence.
  - done.
Qed.

(** The session expires at February, after January has been downloaded. *)
Lemma runtime_errors_witness :
  in_sync (download_loop Reference.lib (expiring_server [january; february] "b")
             true [january; february] 0 fresh).2.
Proof.
  edestruct (runtime_errors_leave_after_a_save Reference.lib
               (expiring_server [january; february] "b") true
               [january; february] 0 fresh) as (_&H&_).
  - vm_compute. reflexivity.
  - reflexivity.
  - exact H.
Defined.



(** *** Counts *)

(** X6.  A run that returns [(total, cached, new)] has listed [total] records;
    the counts are not negative and [cached + new] does not exceed
    [total].  When they add up to [total], every listed record that has an
    identifier is cached when the run ends. *)
Theorem counts_add_up (L : pylib) (E : env) (fuel : nat) (skip_pdf : bool)
    (st st' : state) (total cached new : Z) :
  sync_all L E fuel skip_pdf st = (Ret (total, cached, new), st') →
  ∃ records,
    listing_of L E fuel st = Ret records
    ∧ total = Z.of_nat (length records)
    ∧ 0 ≤ cached ∧ 0 ≤ new ∧ cached + new ≤ total
    ∧ (cached + new = total → Forall (cached_record L st') records).
Proof.
  intros Hrun. rewrite sync_all_unfold in Hrun. unfold listing_of.
  destruct (list_all_payslips L E fuel (load st).2) as [[records|e|] sa];
    [|done..].
  exists records. split; [done|].
  apply sync_listed_ret in Hrun
    as [(->&->&->&->&->)|(missing&sb1&sb2&Hne&Hfind&Hloop&->&->&->)].
  { repeat split; try done. }
  destruct (find_missing_spec L records sa) as [Hmiss Hq].
  rewrite Hfind in Hmiss, Hq. simpl in Hmiss, Hq. symmetry in Hmiss.
  pose proof (missing_of_length L sa records missing Hmiss) as Hlen.
  pose proof (download_loop_outcome L E skip_pdf missing 0 sb1) as Hout.
  pose proof (download_loop_still_cached L E skip_pdf missing 0 sb1) as Hstill.
  rewrite Hloop in Hout, Hstill. simpl in Hout, Hstill.
  destruct Hout as (_&_&Hn&_&Hall).
  split; [done|]. split; [lia|]. split; [lia|]. split; [lia|].
  intros Hsum. specialize (Hall ltac:(lia)).
  pose proof (save_still_cached E sb2) as Hsave.
  apply Forall_forall. intros ps Hin id Hid. apply Hsave.
  destruct (is_cached sa id true) eqn:Hc.
  - apply Hstill. by rewrite (is_cached_quiet sa sb1).
  - rewrite Forall_forall in Hall. apply (Hall ps); [|done].
    apply (missing_of_elem L sa records); [done|done|].
    unfold wanted. by rewrite Hid, Hc.
Qed.

(** The first run against a server with January and February. *)
Lemma counts_witness :
  ∃ records,
    listing_of Reference.lib (server [january; february]) 5 fresh = Ret records
    ∧ 2 = Z.of_nat (length records).
Proof.
  edestruct (counts_add_up Reference.lib (server [january; february]) 5 true
               fresh) as (records&Hl&Ht&_).
  - vm_compute. reflexivity.
  - exists records. split; [exact Hl|exact Ht].
Defined.

(** X7.  A run that returns has saved the index exactly once when the listing
    was not empty, and the index file then holds the rows that are in
    memory, with their number as [total_count]; it has not saved it when
    the listing was empty. *)
Theorem returning_run_saves_once (L : pylib) (E : env) (fuel : nat)
    (skip_pdf : bool) (st st' : state) (total cached new : Z) :
  sync_all L E fuel skip_pdf st = (Ret (total, cached, new), st') →
  if decide (total = 0)
  then index_json st' = index_json st
       ∧ index_saves (trace st') = index_saves (trace st)
  else in_sync st'
       ∧ index_saves (trace st') = S (index_saves (trace st)).
Proof.
  intros Hrun. rewrite sync_all_unfold in Hrun.
  destruct (load_loaded st) as (_&_&Hi0&_&_&Hs0&_).
  pose proof (listing_quiet L E fuel st) as (_&_&Hi1&_&_&Hs1).
  destruct (list_all_payslips L E fuel (load st).2) as [[records|e|] sa];
    [|done..].
  simpl in Hi1, Hs1.
  apply sync_listed_ret in Hrun
    as [(->&->&->&->&->)|(missing&sb1&sb2&Hne&Hfind&Hloop&->&->&->)].
  { simpl. by rewrite Hi1, Hs1. }
  destruct (decide (Z.of_nat (length records) = 0)) as [Hz|_].
  { destruct records; [done|simpl in Hz; lia]. }
  destruct (find_missing_spec L records sa) as [_ Hq].
  rewrite Hfind in Hq. destruct Hq as (_&_&_&_&_&Hsb).
  pose proof (download_loop_outcome L E skip_pdf missing 0 sb1) as Hout.
  rewrite Hloop in Hout. simpl in Hout, Hsb. destruct Hout as (_&Hsl&_).
  destruct (save_calm_rows E sb2) as (Hm&_&_&_&Hsv&Hrows&Hcount&_).
  split; [split; by rewrite ?Hm|].
  by rewrite Hsv, Hsl, Hsb, Hs1, Hs0.
Qed.

Lemma returning_run_witness : in_sync synced_once.
Proof.
  assert (Hrun : sync_all Reference.lib (server [january; february]) 5 true fresh
                 = (Ret (2, 0, 2), synced_once)) by (vm_compute; reflexivity).
  pose proof (returning_run_saves_once _ _ _ _ _ _ _ _ _ Hrun) as H.
  destruct (decide (2 = 0)) as [Hz|_] in H; [discriminate Hz|].
  exact (proj1 H).
Defined.

(** X8.  When the listing fails, [sync_all] fails with the same error; no file
    has been written, the index file is as it was, and no detail has been
    requested. *)
Theorem failed_listing_changes_nothing (L : pylib) (E : env) (fuel : nat)
    (skip_pdf : bool) (st : state) (e : exn) :
  listing_of L E fuel st = Raise e →
  (sync_all L E fuel skip_pdf st).1 = Raise e
  ∧ files (sync_all L E fuel skip_pdf st).2 = files st
  ∧ index_json (sync_all L E fuel skip_pdf st).2 = index_json st
  ∧ detail_gets (trace (sync_all L E fuel skip_pdf st).2) = detail_gets (trace st)
  ∧ index_saves (trace (sync_all L E fuel skip_pdf st).2) = index_saves (trace st).
Proof.
  unfold listing_of. intros Hl. rewrite sync_all_unfold.
  destruct (load_loaded st) as (_&Hf0&Hi0&Hd0&_&Hs0&_).
  pose proof (listing_quiet L E fuel st) as (_&Hf1&Hi1&Hd1&_&Hs1).
  destruct (list_all_payslips L E fuel (load st).2) as [r sa].
  simpl in Hl, Hf1, Hi1, Hd1, Hs1. subst r. simpl.
  by rewrite Hf1, Hi1, Hd1, Hs1.
Qed.

(** The listing endpoint answers with the status 500. *)
Lemma failed_listing_witness :
  index_json (sync_all Reference.lib (broken_lister 500) 5 true synced_once).2
  = index_json synced_once.
Proof.
  edestruct (failed_listing_changes_nothing Reference.lib (broken_lister 500)
               5 true synced_once) as (_&_&H&_).
  - vm_compute. reflexivity.
  - exact H.
Defined.

(** *** What a run never does *)

#[export] Instance grows_preorder : PreOrder grows.
Proof.
  split.
  - intros st. by split.
  - intros a b c [H1 H2] [H3 H4]. split; [set_solver|auto].
Qed.

#[export] Instance without_pdf_preorder : PreOrder without_pdf.
Proof.
  split.
  - intros st. repeat split; auto.
  - intros a b c (G1&W1&H1) (G2&W2&H2). repeat split; [congruence..|].
    intros id row Hrow. destruct (H2 id row Hrow) as [Hb|Hnone]; auto.
Qed.

Lemma quiet_grows st st' : quiet st st' → grows st st'.
Proof. intros (Hm&Hf&_). split; by rewrite ?Hm, ?Hf. Qed.

Lemma download_one_grows L E skip_pdf id pay_date sid iid :
  preserves grows (download_one L E skip_pdf id pay_date sid iid).
Proof.
  intros st.
  destruct (download_one_spec L E skip_pdf id pay_date sid iid st)
    as (_&_&_&Hf&_&_&Hr).
  split; [|done].
  destruct (download_one L E skip_pdf id pay_date sid iid st) as [[[]|e|] st'];
    simpl in *.
  - destruct Hr as (_&_&pdf&stamp&->). set_solver.
  - destruct Hr as [-> _]. done.
  - destruct Hr as [-> _]. done.
Qed.

Lemma save_grows E : preserves grows (save E).
Proof. intros st. by split. Qed.

(** X9.  [sync_all] removes nothing: a file of the cache directory that exists
    when the run starts exists when it ends, and an identifier that has a
    row in the index file when the run starts has one when it ends, however
    the run ends. *)
Theorem run_removes_nothing (L : pylib) (E : env) (fuel : nat) (skip_pdf : bool)
    (st : state) :
  (∀ p, is_Some (files st !! p)
        → is_Some (files (sync_all L E fuel skip_pdf st).2 !! p))
  ∧ dom (stored_rows (index_json st))
    ⊆ dom (stored_rows (index_json (sync_all L E fuel skip_pdf st).2)).
Proof.
  rewrite sync_all_unfold.
  destruct (load_loaded st) as (Hm0&Hf0&Hi0&_).
  pose proof (listing_quiet L E fuel st) as (Hm1&Hf1&Hi1&_).
  destruct (list_all_payslips L E fuel (load st).2) as [[records|e|] sa];
    simpl in Hm1, Hf1, Hi1;
    [|simpl; by rewrite Hf1, Hf0, Hi1, Hi0..].
  pose proof (sync_listed_preserves L E grows skip_pdf records _ quiet_grows
                (download_one_grows L E skip_pdf) (save_grows E) sa) as [Hd Hf].
  split.
  { intros p Hp. apply Hf. by rewrite Hf1, Hf0. }
  destruct (sync_listed_index L E skip_pdf records sa) as [[-> _]|[[-> _] _]].
  - by rewrite Hi1, Hi0.
  - etrans; [|exact Hd]. by rewrite Hm1, Hm0, loaded_rows.
Qed.

Lemma emit_without_pdf e :
  match e with
  | EvHttp PdfFetcher (GET _) | EvWrite _ (Bytes _) => False
  | _ => True
  end → preserves without_pdf (emit e).
Proof.
  intros He st. unfold emit, without_pdf; simpl.
  destruct e as [[] []| ? []| | |]; try done; auto.
Qed.

Lemma send_without_pdf E who r :
  who ≠ PdfFetcher → preserves without_pdf (send E who r).
Proof.
  intros Hw st. unfold send.
  destruct (http E _ r); unfold without_pdf; simpl; destruct who; try done;
    destruct r; repeat split; auto.
Qed.

Lemma write_json_without_pdf path doc :
  preserves without_pdf (write_file path (JsonText doc)).
Proof. intros st. unfold write_file, without_pdf; simpl. auto. Qed.

Lemma mark_cached_without_pdf E id pay_date jp :
  preserves without_pdf (mark_cached E id pay_date jp None).
Proof.
  intros st. unfold mark_cached, without_pdf; simpl. repeat split; try done.
  intros id' row. destruct (decide (id = id')) as [<-|Hne].
  - rewrite lookup_insert_eq. intros [= <-]. by right.
  - rewrite lookup_insert_ne by done. auto.
Qed.

Lemma save_without_pdf E : preserves without_pdf (save E).
Proof. intros st. unfold save, without_pdf; simpl. auto. Qed.

Section SkipPdf.
Variable L : pylib.
Variable E : env.

Lemma list_loop_without_pdf fuel batch_size all_payslips start :
  preserves without_pdf (list_loop L E fuel batch_size all_payslips start).
Proof.
  revert all_payslips start.
  induction fuel as [|fuel IH]; intros all_payslips start; simpl.
  { by apply preserves_lift; exact _. }
  unfold read_page, sleep.
  repeat (frame_step;
          try (by apply send_without_pdf); try (by apply emit_without_pdf);
          try apply IH).
Qed.

Lemma find_missing_without_pdf payslips :
  preserves without_pdf (find_missing L payslips).
Proof.
  induction payslips as [|ps rest IH]; simpl.
  { by apply preserves_ret; exact _. }
  repeat (frame_step; try (by apply emit_without_pdf); try apply IH).
  intros st. reflexivity.
Qed.

Lemma download_one_without_pdf id pay_date sid iid :
  preserves without_pdf (download_one L E true id pay_date sid iid).
Proof.
  unfold download_one, pdf_phase, fetch_payslip_detail; simpl.
  repeat (first [ lazymatch goal with
                  | |- preserves ?R (bind (ret ?a) ?f) =>
                      change (preserves R (f a)); cbv beta
                  end
                | frame_step ];
          try (by apply send_without_pdf);
          try apply write_json_without_pdf;
          try apply mark_cached_without_pdf).
Qed.

Lemma sync_listed_without_pdf records :
  preserves without_pdf (sync_listed L E true records).
Proof.
  unfold sync_listed.
  repeat (frame_step;
          try apply find_missing_without_pdf;
          try apply save_without_pdf;
          try (apply download_loop_preserves;
               [exact _|apply download_one_without_pdf|apply save_without_pdf
               |by apply emit_without_pdf])).
Qed.
End SkipPdf.

(** X10.  With [skip_pdf] a run requests no PDF and writes none, and every row of
    the index file that the run has written or replaced has no
    [pdf_path]. *)
Theorem skip_pdf_leaves_pdfs_alone (L : pylib) (E : env) (fuel : nat)
    (st : state) :
  pdf_gets (trace (sync_all L E fuel true st).2) = pdf_gets (trace st)
  ∧ pdf_writes (trace (sync_all L E fuel true st).2) = pdf_writes (trace st)
  ∧ ∀ id row,
      stored_rows (index_json (sync_all L E fuel true st).2) !! id = Some row →
      stored_rows (index_json st) !! id = Some row ∨ pdf_path row = None.
Proof.
  rewrite sync_all_unfold.
  assert (H0 : pdf_gets (trace (load st).2) = pdf_gets (trace st)
               ∧ pdf_writes (trace (load st).2) = pdf_writes (trace st)).
  { unfold load. by destruct (index_json st). }
  destruct H0 as [Hg0 Hw0].
  destruct (load_loaded st) as (Hm0&_&Hi0&_).
  pose proof (listing_quiet L E fuel st) as (Hm1&_&Hi1&_).
  pose proof (list_loop_without_pdf L E fuel 100 [] 0 (load st).2) as (Hg1&Hw1&_).
  fold (list_all_payslips_with L E 100 fuel) in Hg1, Hw1.
  fold (list_all_payslips L E fuel) in Hg1, Hw1.
  destruct (list_all_payslips L E fuel (load st).2) as [[records|e|] sa];
    simpl in Hm1, Hi1, Hg1, Hw1;
    [|simpl; rewrite Hg1, Hw1, Hi1, Hi0; auto..].
  destruct (sync_listed_without_pdf L E records sa) as (Hg&Hw&Hrows).
  split; [congruence|]. split; [congruence|].
  intros id row.
  destruct (sync_listed_index L E true records sa) as [[-> _]|[[-> _] _]].
  - rewrite Hi1, Hi0. auto.
  - intros Hrow. destruct (Hrows id row Hrow) as [Hb|Hnone]; [left|by right].
    by rewrite Hm1, Hm0, loaded_rows in Hb.
Qed.
End RunFacts.

(** ** Fetching a PDF *)

Module PdfFacts.
Import Py World Sync Obs Logic Frame Paths Partition Download Runs Good Fixtures.
Import Watch Scenarios.

Section WithEnv.
Variable E : env.

Lemma follow_redirects_trace budget pdf_url response st :
  ∃ news,
    trace (follow_redirects E budget pdf_url response st).2
    = (news ++ trace st)%list
    ∧ Forall is_pdf_get news ∧ (length news ≤ budget)%nat.
Proof.
  revert response st. induction budget as [|budget IH]; intros response st; simpl.
  { exists []. split; [done|split; [done|simpl; lia]]. }
  destruct (is_redirect (status_code response)); [|exists []; split; [done|split; [done|simpl; lia]]].
  destruct (opt_truthy (location response)); [|exists []; split; [done|split; [done|simpl; lia]]].
  rewrite bind_run. unfold send.
  set (u := if startswith _ _ then _ else _).
  destruct (http E (length (trace st)) (GET u)) as [resp|e].
  - destruct (IH resp (push_event (EvHttp PdfFetcher (GET u)) st))
      as (news&Hnews&Hall&Hlen).
    exists (news ++ [EvHttp PdfFetcher (GET u)])%list. rewrite Hnews. simpl.
    rewrite <- app_assoc. split; [done|]. split.
    + apply Forall_app. split; [done|]. constructor; [by exists u|done].
    + rewrite length_app. simpl. lia.
  - exists [EvHttp PdfFetcher (GET u)]. simpl. split; [done|]. split.
    + constructor; [by exists u|done].
    + lia.
Qed.

Lemma follow_redirects_outcome budget pdf_url response st :
  (∃ t u, http E t (GET u) = Responds response) →
  match (follow_redirects E budget pdf_url response st).1 with
  | Ret r => ∃ t u, http E t (GET u) = Responds r
  | Raise e => ∃ t u, http E t (GET u) = Fails e
  | NoFuel => False
  end.
Proof.
  revert response st. induction budget as [|budget IH]; intros response st H;
    simpl; [done|].
  destruct (is_redirect (status_code response)); [|done].
  destruct (opt_truthy (location response)); [|done].
  rewrite bind_run. unfold send.
  set (u := if startswith _ _ then _ else _).
  destruct (http E (length (trace st)) (GET u)) as [resp|e] eqn:Hu.
  - apply IH. eauto.
  - simpl. eauto.
Qed.
End WithEnv.

(** X11.  [fetch_payslip_pdf] makes at most eleven requests, the first one and
    ten redirects, and nothing else: the index and the files are as
    before.  It ends, and it raises no exception of [requests]: such a
    failure gives [None]. *)
Theorem pdf_fetch_is_bounded (E : env) (pdf_url : string) (st : state) :
  (∃ news,
     trace (fetch_payslip_pdf E pdf_url st).2 = (news ++ trace st)%list
     ∧ Forall is_pdf_get news ∧ (length news ≤ 11)%nat)
  ∧ mem (fetch_payslip_pdf E pdf_url st).2 = mem st
  ∧ files (fetch_payslip_pdf E pdf_url st).2 = files st
  ∧ index_json (fetch_payslip_pdf E pdf_url st).2 = index_json st
  ∧ (fetch_payslip_pdf E pdf_url st).1 ≠ NoFuel
  ∧ ∀ e, (fetch_payslip_pdf E pdf_url st).1 = Raise e
         → isinstance e RequestException = false.
Proof.
  destruct (fetch_payslip_pdf_quiet E pdf_url st) as (Hm&Hf&Hi&_).
  split; [|split; [done|split; [done|split; [done|]]]].
  - unfold fetch_payslip_pdf.
    destruct (negb (str_truthy pdf_url));
      [exists []; split; [done|split; [done|simpl; lia]]|].
    unfold _fetch_pdf_via_requests.
    remember 10%nat as budget eqn:Hbudget.
    rewrite bind_run, try_run, bind_run.
    unfold send.
    destruct (http E (length (trace st)) (GET pdf_url)) as [resp|e].
    + rewrite bind_run.
      destruct (follow_redirects_trace E budget pdf_url resp
                  (push_event (EvHttp PdfFetcher (GET pdf_url)) st))
        as (news&Hnews&Hall&Hlen).
      assert (Hgoal : ∃ news0,
                 trace (follow_redirects E budget pdf_url resp
                          (push_event (EvHttp PdfFetcher (GET pdf_url)) st)).2
                 = (news0 ++ trace st)%list
                 ∧ Forall is_pdf_get news0 ∧ (length news0 ≤ S budget)%nat).
      { exists (news ++ [EvHttp PdfFetcher (GET pdf_url)])%list.
        rewrite Hnews. split; [by rewrite <- app_assoc|]. split.
        - apply Forall_app. split; [done|]. constructor; [by exists pdf_url|done].
        - rewrite length_app. simpl length. lia. }
      destruct (follow_redirects E budget pdf_url resp _) as [[r|e|] st1].
      * unfold ret at 1. cbv beta iota.
        destruct (negb (status_code r =? 200)); [exact Hgoal|].
        destruct (_ && _); exact Hgoal.
      * destruct (isinstance e RequestException); exact Hgoal.
      * exact Hgoal.
    + assert (Hgoal : ∃ news0,
                 trace (push_event (EvHttp PdfFetcher (GET pdf_url)) st)
                 = (news0 ++ trace st)%list
                 ∧ Forall is_pdf_get news0 ∧ (length news0 ≤ S budget)%nat).
      { exists [EvHttp PdfFetcher (GET pdf_url)]. split; [done|]. split.
        - constructor; [by exists pdf_url|done].
        - simpl length. lia. }
      destruct (isinstance e RequestException); exact Hgoal.
  - assert (Hcls : match (fetch_payslip_pdf E pdf_url st).1 with
                    | Ret _ => True
                    | Raise e => isinstance e RequestException = false
                    | NoFuel => False
                    end).
    { unfold fetch_payslip_pdf.
      destruct (negb (str_truthy pdf_url)); [done|].
      unfold _fetch_pdf_via_requests.
      generalize 10%nat as budget. intros budget.
      rewrite bind_run, try_run, bind_run.
      unfold send.
      destruct (http E (length (trace st)) (GET pdf_url)) as [resp|e] eqn:Hfirst.
      + rewrite bind_run.
        pose proof (follow_redirects_outcome E budget pdf_url resp
                      (push_event (EvHttp PdfFetcher (GET pdf_url)) st)
                      ltac:(eauto)) as Hout.
        destruct (follow_redirects E budget pdf_url resp _) as [[r|e|] st1];
          cbn [fst] in Hout.
        * unfold ret at 1. cbv beta iota.
          destruct (negb (status_code r =? 200)); [done|].
          by destruct (_ && _).
        * by destruct (isinstance e RequestException) eqn:He.
        * done.
      + by destruct (isinstance e RequestException) eqn:He. }
    destruct (fetch_payslip_pdf E pdf_url st).1; [by split| |done].
    split; [done|]. by intros e' [= <-].
Qed.

(** The bound is reached by a server that redirects for ever. *)
Example eleven_requests_are_made :
  length (trace (fetch_payslip_pdf redirecting_server "https://ihcm.adp.com/file"
                   fresh).2) = 11%nat.
Proof. by vm_compute. Qed.

(** X12.  The bytes that [fetch_payslip_pdf] returns are the content of a
    response with the status 200 and a content type that names a PDF or an
    octet stream. *)
Theorem pdf_comes_from_a_pdf_response (E : env) (pdf_url : string) (st : state)
    (data : string) :
  (fetch_payslip_pdf E pdf_url st).1 = Ret (Some data) →
  ∃ t url resp,
    http E t (GET url) = Responds resp
    ∧ status_code resp = 200
    ∧ pdf_content_type resp = true
    ∧ content resp = data.
Proof.
  unfold fetch_payslip_pdf.
  destruct (negb (str_truthy pdf_url)); [done|].
  unfold _fetch_pdf_via_requests.
  generalize 10%nat as budget. intros budget.
  rewrite bind_run, try_run, bind_run.
  unfold send.
  destruct (http E (length (trace st)) (GET pdf_url)) as [resp|e] eqn:Hfirst.
  - rewrite bind_run.
    pose proof (follow_redirects_outcome E budget pdf_url resp
                  (push_event (EvHttp PdfFetcher (GET pdf_url)) st)
                  ltac:(eauto)) as Hout.
    destruct (follow_redirects E budget pdf_url resp _) as [[r|e|] st1];
      cbn [fst] in Hout.
    + unfold ret at 1. cbv beta iota.
      destruct Hout as (t&u&Hr).
      destruct (status_code r =? 200) eqn:H200; cbn [negb]; [|done].
      apply Z.eqb_eq in H200.
      destruct (contains "application/pdf" (default "" (content_type r))) eqn:Hc1;
        cbn [negb andb].
      * intros [= <-]. exists t, u, r. unfold pdf_content_type.
        by rewrite Hc1.
      * destruct (contains "octet-stream" (default "" (content_type r))) eqn:Hc2;
          cbn [negb]; [|done].
        intros [= <-]. exists t, u, r. unfold pdf_content_type.
        by rewrite Hc1, Hc2.
    + by destruct (isinstance e RequestException).
    + done.
  - by destruct (isinstance e RequestException).
Qed.

Lemma pdf_response_witness :
  ∃ t url resp,
    http (pdf_server []) t (GET url) = Responds resp
    ∧ status_code resp = 200
    ∧ pdf_content_type resp = true
    ∧ content resp = "%PDF".
Proof.
  apply (pdf_comes_from_a_pdf_response (pdf_server []) "https://ihcm.adp.com/file" fresh).
  reflexivity.
Defined.
End PdfFacts.

(** ** Identifiers, paths and the document of a record *)

Module RecordFacts.
Import Py World Sync Obs Logic Frame Paths Partition Download Runs Good Fixtures.
Import Watch Scenarios.

Lemma append_nil_r (s : string) : s +:+ "" = s.
Proof. induction s as [|c s IH]; [done|]. by rewrite append_cons, IH. Qed.

(** A string without an occurrence of [sep] is one piece. *)
Lemma split_go_absent (sep cur s : string) :
  contains sep s = false → split_go sep 0 cur s = [cur +:+ s].
Proof.
  revert cur. induction s as [|c s IH]; intros cur H; simpl.
  { by rewrite append_nil_r. }
  simpl in H. apply orb_false_elim in H as [Hp Hc].
  rewrite Hp, (IH _ Hc), append_assoc. done.
Qed.

Lemma prefix_nil (s : string) : String.prefix "" s = true.
Proof. by destruct s. Qed.

Lemma contains_prefix (sep s : string) :
  String.prefix sep s = true → contains sep s = true.
Proof. destruct s; simpl; by intros ->. Qed.

Lemma contains_cons (sep : string) (c : ascii) (s : string) :
  contains sep s = true → contains sep (String c s) = true.
Proof. simpl. intros ->. by rewrite orb_true_r. Qed.

Lemma split_go_pass (sep cur : string) (c : ascii) (s : string) :
  String.prefix sep (String c s) = false →
  split_go sep 0 cur (String c s) = split_go sep 0 (cur +:+ String c "") s.
Proof. simpl. by intros ->. Qed.

Lemma split_go_hit (sep cur : string) (c : ascii) (s : string) :
  String.prefix sep (String c s) = true →
  split_go sep 0 cur (String c s)
  = cur :: split_go sep (String.length sep - 1) "" s.
Proof. simpl. by intros ->. Qed.

(** The link of the documented form holds the marker, and its second piece
    is the identifier. *)
Lemma detail_link_pieces (encoded_id : string) :
  contains "/payStatement/" encoded_id = false →
  contains "/payStatement/" ("/v1_0/O/A/payStatement/" +:+ encoded_id) = true
  ∧ split ("/v1_0/O/A/payStatement/" +:+ encoded_id) "/payStatement/" !! 1%nat
    = Some encoded_id.
Proof.
  intros Hid. rewrite !append_cons.
  change ("" +:+ encoded_id) with encoded_id. split.
  - do 9 apply contains_cons. apply contains_prefix. simpl. apply prefix_nil.
  - unfold split.
    do 9 (rewrite split_go_pass by reflexivity).
    rewrite split_go_hit by (simpl; apply prefix_nil).
    cbn [String.length Nat.sub split_go].
    by rewrite (split_go_absent _ _ _ Hid).
Qed.

(** X13.  The identifier of a record whose detail link has the form
    [/v1_0/O/A/payStatement/<id>] is [<id>], whether the link is a string
    or an object with an [href], and whatever other fields the record has,
    provided that [<id>] does not itself contain [/payStatement/]. *)
Theorem encoded_id_of_detail_link (L : pylib) (o : list (string * json))
    (uri : json) (encoded_id : string) :
  dict_get "payDetailUri" o = Some uri →
  href_of uri = JStr ("/v1_0/O/A/payStatement/" +:+ encoded_id) →
  contains "/payStatement/" encoded_id = false →
  _get_encoded_id L (JObj o) = Ret encoded_id.
Proof.
  intros Ho Hhref Hid.
  destruct (detail_link_pieces encoded_id Hid) as [Hin Hpiece].
  remember ("/v1_0/O/A/payStatement/" +:+ encoded_id) as href eqn:Heq.
  assert (Hne : truthy (JStr href) = true).
  { subst href. by rewrite append_cons. }
  unfold _get_encoded_id, detail_link_id.
  cbn [py_in obind py_getitem]. unfold dict_has. rewrite Ho.
  rewrite bool_decide_eq_true_2 by eauto.
  cbn [obind]. rewrite Hhref, Hne.
  cbn [py_in obind py_split_item]. rewrite Hin.
  cbn [obind]. by rewrite Hpiece.
Qed.

Lemma encoded_id_witness :
  _get_encoded_id Reference.lib (summary "YWJj" "2024-01-31") = Ret "YWJj".
Proof.
  apply (encoded_id_of_detail_link Reference.lib _
           (JObj [("href", JStr ("/v1_0/O/A/payStatement/" +:+ "YWJj"))]) "YWJj").
  - reflexivity.
  - reflexivity.
  - reflexivity.
Defined.

(** *** The document of a record *)

Lemma json_and_pdf_paths_differ (L : pylib) (pay_date : string) :
  _make_file_path L pay_date "json" ≠ _make_file_path L pay_date "pdf".
Proof.
  destruct (is_absolute pay_date) eqn:Habs.
  - rewrite !make_file_path_absolute by done. intros H.
    do 2 apply append_inj_l in H. discriminate H.
  - rewrite !make_file_path_rel by done. unfold path_join.
    rewrite !rel_file_path_relative. unfold rel_file_path.
    destruct (fromisoformat L _) as [[y m]|]; intros H;
      do 8 apply append_inj_l in H; discriminate H.
Qed.

Section WithEnv.
Variable L : pylib.
Variable E : env.

Lemma fetch_payslip_detail_ret id st doc st1 :
  fetch_payslip_detail E id st = (Ret doc, st1) →
  ∃ resp,
    http E (length (trace st)) (GET (detail_url id)) = Responds resp
    ∧ resp_json resp = inr doc
    ∧ st1 = push_event (EvHttp DetailFetcher (GET (detail_url id))) st.
Proof.
  unfold fetch_payslip_detail. rewrite bind_run. unfold send.
  fold (detail_url id).
  destruct (http E _ _) as [resp|e]; [|done].
  rewrite bind_run. unfold lift.
  destruct (_check_session_valid resp) as [[]|e|]; [|done|done].
  destruct (status_code resp =? 404); [done|].
  destruct (negb _); [done|].
  destruct (resp_json resp) as [err|d] eqn:Hj; [done|].
  intros [= <- <-]. by exists resp.
Qed.

Lemma pdf_phase_files skip_pdf pay_date sid iid st p :
  p ≠ _make_file_path L pay_date "pdf" →
  files (pdf_phase L E skip_pdf pay_date sid iid st).2 !! p = files st !! p.
Proof.
  intros Hp. unfold pdf_phase.
  destruct (_ && _); [|done].
  rewrite bind_run.
  destruct (fetch_payslip_pdf_quiet E
              (_build_pdf_api_url (default "" sid) (default "" iid)) st)
    as (_&Hf&_).
  destruct (fetch_payslip_pdf E _ st) as [[data|e|] st1]; simpl in Hf;
    [|simpl; by rewrite Hf..].
  destruct (opt_truthy data); [|simpl; by rewrite Hf].
  rewrite bind_run. unfold write_file at 1. cbv beta iota.
  rewrite bind_run. unfold lift.
  destruct (relative_to _ CACHE_DIR); simpl; by rewrite lookup_insert_ne, Hf.
Qed.
End WithEnv.

(** What a completed download leaves behind. *)
Lemma download_one_document (L : pylib) (E : env) (skip_pdf : bool)
    (encoded_id pay_date : string) (statement_id image_id : option string)
    (st st' : state) :
  download_one L E skip_pdf encoded_id pay_date statement_id image_id st
  = (Ret (), st') →
  ∃ resp doc row,
    http E (length (trace st)) (GET (detail_url encoded_id)) = Responds resp
    ∧ resp_json resp = inr doc
    ∧ files st' !! _make_file_path L pay_date "json" = Some (JsonText doc)
    ∧ payslips (mem st') !! encoded_id = Some row
    ∧ World.pay_date row = pay_date
    ∧ json_path row = Some (rel_file_path L pay_date "json")
    ∧ path_join CACHE_DIR (rel_file_path L pay_date "json")
      = _make_file_path L pay_date "json"
    ∧ is_cached st' encoded_id true = true.
Proof.
  intros Hrun.
  pose proof (download_one_cached L E skip_pdf encoded_id pay_date statement_id
                image_id st) as Hcached.
  rewrite Hrun in Hcached. specialize (Hcached eq_refl). simpl in Hcached.
  unfold download_one in Hrun. rewrite bind_run in Hrun.
  destruct (fetch_payslip_detail E encoded_id st) as [[doc|e|] st1] eqn:Hfetch;
    [|done..].
  apply fetch_payslip_detail_ret in Hfetch as (resp&Hhttp&Hjson&->).
  rewrite bind_run in Hrun. unfold write_file at 1 in Hrun.
  cbv beta iota in Hrun. rewrite bind_run in Hrun.
  set (path := _make_file_path L pay_date "json") in *.
  set (st2 := push_event (EvWrite path (JsonText doc)) _) in Hrun.
  pose proof (pdf_phase_files L E skip_pdf pay_date statement_id image_id st2 path
                (json_and_pdf_paths_differ L pay_date)) as Hfiles.
  pose proof (pdf_phase_calm L E skip_pdf pay_date statement_id image_id st2)
    as (Hm&_).
  destruct (pdf_phase L E skip_pdf pay_date statement_id image_id st2)
    as [[pdf|e|] st3]; [|done..].
  simpl in Hfiles, Hm.
  rewrite bind_run in Hrun. unfold lift in Hrun.
  destruct (relative_to path CACHE_DIR) as [rel|e|] eqn:Hrel; [|done..].
  apply relative_to_make_file_path_inv in Hrel as [Hinside ->].
  unfold mark_cached in Hrun.
  injection Hrun as <-.
  exists resp, doc. eexists. simpl. rewrite lookup_insert_eq.
  split; [done|]. split; [done|]. split.
  { rewrite Hfiles. subst st2. simpl. by rewrite lookup_insert_eq. }
  split; [done|]. split; [done|]. split; [done|].
  split; [by rewrite <- make_file_path_rel|done].
Qed.

(** X14.  When [download_one] returns, the server has answered the detail
    request with a document; that document is in the file that
    [_make_file_path] names for the pay date, and the row of the
    identifier records the pay date and the path of that file relative to
    the cache directory, so that [is_cached] finds it. *)
Theorem download_records_the_document (L : pylib) (E : env) (skip_pdf : bool)
    (encoded_id pay_date : string) (statement_id image_id : option string)
    (st st' : state) :
  download_one L E skip_pdf encoded_id pay_date statement_id image_id st
  = (Ret (), st') →
  ∃ resp doc row,
    http E (length (trace st)) (GET (detail_url encoded_id)) = Responds resp
    ∧ resp_json resp = inr doc
    ∧ files st' !! _make_file_path L pay_date "json" = Some (JsonText doc)
    ∧ payslips (mem st') !! encoded_id = Some row
    ∧ World.pay_date row = pay_date
    ∧ json_path row = Some (rel_file_path L pay_date "json")
    ∧ path_join CACHE_DIR (rel_file_path L pay_date "json")
      = _make_file_path L pay_date "json"
    ∧ is_cached st' encoded_id true = true.
Proof. apply download_one_document. Qed.

Lemma download_records_witness :
  ∃ resp doc row,
    http (server [january]) 0 (GET (detail_url "a")) = Responds resp
    ∧ resp_json resp = inr doc
    ∧ files (download_one Reference.lib (server [january]) true "a"
               "2024-01-31" None None fresh).2
        !! ".cache/payslips/2024/01/2024-01-31.json" = Some (JsonText doc)
    ∧ payslips (mem (download_one Reference.lib (server [january]) true "a"
                       "2024-01-31" None None fresh).2) !! "a" = Some row.
Proof.
  destruct (download_records_the_document Reference.lib (server [january]) true
              "a" "2024-01-31" None None fresh
              (download_one Reference.lib (server [january]) true "a"
                 "2024-01-31" None None fresh).2)
    as (resp&doc&row&H1&H2&H3&H4&_).
  - reflexivity.
  - by exists resp, doc, row.
Defined.

(** X15.  Two records with the same pay date share one file: when both are
    downloaded, one after the other as in the loop, their rows record the
    same path, the file holds the document of the second, and [is_cached]
    still accepts the first. *)
Theorem same_date_records_share_a_file (L : pylib) (E : env) (skip_pdf : bool)
    (id1 id2 pay_date : string) (sid1 iid1 sid2 iid2 : option string)
    (st st1 st2 : state) :
  id1 ≠ id2 →
  download_one L E skip_pdf id1 pay_date sid1 iid1 st = (Ret (), st1) →
  download_one L E skip_pdf id2 pay_date sid2 iid2 (push_event EvSleep st1)
  = (Ret (), st2) →
  ∃ row1 row2 resp2 doc2,
    payslips (mem st2) !! id1 = Some row1
    ∧ payslips (mem st2) !! id2 = Some row2
    ∧ json_path row1 = json_path row2
    ∧ http E (S (length (trace st1))) (GET (detail_url id2)) = Responds resp2
    ∧ resp_json resp2 = inr doc2
    ∧ files st2 !! _make_file_path L pay_date "json" = Some (JsonText doc2)
    ∧ is_cached st2 id1 true = true.
Proof.
  intros Hne Hrun1 Hrun2.
  destruct (download_one_document L E skip_pdf id1 pay_date sid1 iid1
              st st1 Hrun1) as (_&_&row1&_&_&_&Hrow1&_&Hpath1&Hjoin&_).
  destruct (download_one_document L E skip_pdf id2 pay_date sid2 iid2
              _ st2 Hrun2) as (resp2&doc2&row2&Hhttp&Hjson&Hfile&Hrow2&_&Hpath2&_&_).
  pose proof (download_one_spec L E skip_pdf id2 pay_date sid2 iid2
                (push_event EvSleep st1)) as (_&_&_&_&_&_&Hspec).
  rewrite Hrun2 in Hspec. simpl in Hspec. destruct Hspec as (_&_&pdf&stamp&Hrows).
  assert (Hkeep : payslips (mem st2) !! id1 = Some row1).
  { rewrite Hrows, lookup_insert_ne by done. exact Hrow1. }
  exists row1, row2, resp2, doc2. repeat split; try done.
  - by rewrite Hpath1, Hpath2.
  - unfold is_cached, exists_file. rewrite Hkeep, Hpath1, rel_file_path_truthy.
    simpl. rewrite Hjoin, Hfile. by apply bool_decide_eq_true_2.
Qed.

Lemma same_date_witness :
  let st1 := (download_one Reference.lib (server []) true "a" "2024-01-31"
                None None fresh).2 in
  let st2 := (download_one Reference.lib (server []) true "b" "2024-01-31"
                None None (push_event EvSleep st1)).2 in
  ∃ row1 row2,
    payslips (mem st2) !! "a" = Some row1
    ∧ payslips (mem st2) !! "b" = Some row2
    ∧ json_path row1 = json_path row2.
Proof.
  intros st1 st2.
  destruct (same_date_records_share_a_file Reference.lib (server []) true
              "a" "b" "2024-01-31" None None None None fresh st1 st2)
    as (row1&row2&_&_&H1&H2&H3&_).
  - done.
  - by vm_compute.
  - by vm_compute.
  - exists row1, row2. split; [exact H1|]. split; [exact H2|exact H3].
Defined.

(** A pay date that is an absolute path takes the document out of the cache
    directory: the document is written to the path that the pay date names,
    line 591 raises [ValueError], which the handler of the loop lets through,
    and the run ends without a row for the record and without having saved
    the index. *)
Example absolute_pay_date_stops_the_run :
  ∃ e st1,
    sync_all Reference.lib (server [stray]) 5 true fresh = (Raise e, st1)
    ∧ isinstance e ValueError = true
    ∧ _make_file_path Reference.lib "/tmp/x" "json" = "/tmp/x.json"
    ∧ is_Some (files st1 !! "/tmp/x.json")
    ∧ payslips (mem st1) = ∅
    ∧ index_json st1 = IndexAbsent
    ∧ index_saves (trace st1) = 0%nat.
Proof.
  exists (Exn ValueError "path is not in the subpath of base"),
    (sync_all Reference.lib (server [stray]) 5 true fresh).2.
  split; [by vm_compute|]. split; [by vm_compute|]. split; [by vm_compute|].
  split; [apply (bool_decide_unpack _); by vm_compute|].
  split; [by vm_compute|]. split; by vm_compute.
Qed.

(** In the PDF-only mode the same error is swallowed by the handler of the
    loop: the PDF is written outside the cache directory, the row keeps no
    [pdf_path] and is not counted as downloaded. *)
Example absolute_pay_date_leaves_the_row :
  let st0 := set_index_json
               (IndexStored (Some {["z" := Entry "/tmp/x" None None "T0"]})
                  (Some 1) None) fresh in
  ∃ st1,
    PdfOnly.sync_pdfs_only Reference.lib
      (pdf_server [with_image "z" "/tmp/x" "S1" "I1"]) map_to_list 5 st0
    = (Ret (1, 0, 0), st1)
    ∧ is_Some (files st1 !! "/tmp/x.pdf")
    ∧ stored_rows (index_json st1) = {["z" := Entry "/tmp/x" None None "T0"]}.
Proof.
  intros st0.
  exists (PdfOnly.sync_pdfs_only Reference.lib
            (pdf_server [with_image "z" "/tmp/x" "S1" "I1"]) map_to_list 5 st0).2.
  split; [by vm_compute|].
  split; [apply (bool_decide_unpack _); by vm_compute|by vm_compute].
Qed.
End RecordFacts.

(** ** Listings whose answer has no total *)

Module PagingFacts.
Import Py World Sync Obs Logic Frame Paths Partition Download Runs Good Fixtures.
Import Watch Scenarios.

(** X16.  When the first page of the payslip listing is a JSON object with the
    records under [data] and no [total], the number of records of the page
    is taken for the total: [list_all_payslips] returns that page after
    one request. *)
Theorem listing_without_total_is_one_page (L : pylib) (E : env) (fuel : nat)
    (st : state) (resp : response) (o : list (string * json)) (l : list json) :
  http E (length (trace st)) (POST QUERY_API (query_payload 0 100))
  = Responds resp →
  _check_session_valid resp = Ret () →
  status_code resp = 200 →
  resp_json resp = inr (JObj o) →
  dict_get "data" o = Some (JList l) →
  dict_get "total" o = None →
  list_all_payslips L E (S fuel) st
  = (Ret l, push_event (EvHttp Lister (POST QUERY_API (query_payload 0 100))) st).
Proof.
  intros Hhttp Hvalid H200 Hjson Hdata Htotal.
  unfold list_all_payslips, list_all_payslips_with. simpl.
  rewrite bind_run. unfold send. rewrite Hhttp.
  rewrite bind_run. unfold lift at 1. rewrite Hvalid, H200. simpl.
  rewrite Hjson. rewrite bind_run. unfold ret at 1.
  rewrite bind_run. unfold read_page, dict_has. rewrite Hdata.
  rewrite bool_decide_eq_true_2 by eauto.
  rewrite bind_run. unfold lift at 1. simpl. rewrite Hdata.
  rewrite bind_run. unfold lift at 1. simpl. rewrite Htotal. unfold ret at 1.
  rewrite bind_run. unfold lift at 1. simpl.
  rewrite bind_run. unfold lift at 1. simpl.
  replace (Z.of_nat (length l) >=? Z.of_nat (length l)) with true
    by (symmetry; rewrite Z.geb_leb; apply Z.leb_refl).
  done.
Qed.

(** A server that sends two records and no total. *)
Lemma listing_without_total_witness :
  (list_all_payslips Reference.lib
     (Env (λ _ _, Responds (ok_json (JObj [("data", JList [january; february])])))
          stamp) 5 fresh).1
  = Ret [january; february].
Proof.
  erewrite (listing_without_total_is_one_page Reference.lib _ 4 fresh
              (ok_json (JObj [("data", JList [january; february])]))
              [("data", JList [january; february])] [january; february]);
    reflexivity.
Defined.

(** X17.  When the first page of the employee listing has no [total], the total
    is taken to be 0: [extract_all] returns that page after one request. *)
Theorem extraction_without_total_is_one_page (E : env) (batch_size : Z)
    (fuel : nat) (st : state) (resp : response) (o : list (string * json))
    (l : list json) :
  http E (length (trace st))
    (POST Extractor.API_URL (Extractor.batch_payload 0 batch_size))
  = Responds resp →
  status_code resp = 200 →
  startswith (strip (text resp)) "<!doctype" = false →
  startswith (strip (text resp)) "<html" = false →
  resp_json resp = inr (JObj o) →
  dict_get "data" o = Some (JList l) →
  dict_get "total" o = None →
  Extractor.extract_all E batch_size (S fuel) st
  = (Ret l,
     push_event
       (EvHttp Lister
          (POST Extractor.API_URL (Extractor.batch_payload 0 batch_size))) st).
Proof.
  intros Hhttp H200 Hdoc Hhtml Hjson Hdata Htotal.
  unfold Extractor.extract_all. simpl.
  rewrite bind_run. unfold Extractor.fetch_batch.
  rewrite bind_run. unfold send. rewrite Hhttp.
  rewrite H200, Hdoc, Hhtml, Hjson. simpl.
  rewrite bind_run. unfold lift at 1. simpl. rewrite Hdata. simpl.
  rewrite Htotal. cbn [default Extractor.format_thousands].
  destruct l as [|x l]; [done|]. cbn [negb].
  rewrite bind_run. unfold lift. cbv beta iota.
  replace (Z.of_nat (length (x :: l)) >=? 0) with true
    by (symmetry; rewrite Z.geb_leb; apply Z.leb_le; lia).
  done.
Qed.

Lemma extraction_without_total_witness :
  (Extractor.extract_all
     (Env (λ _ _, Responds (ok_json (JObj [("data", JList [january; february])])))
          stamp) 100 5 fresh).1
  = Ret [january; february].
Proof.
  erewrite (extraction_without_total_is_one_page _ 100 4 fresh
              (ok_json (JObj [("data", JList [january; february])]))
              [("data", JList [january; february])] [january; february]);
    reflexivity.
Defined.
End PagingFacts.

(** ** The PDF-only mode *)

Module PdfOnlyFacts.
Import Py World Sync Obs Logic Frame Paths Partition Download Runs Good Fixtures.
Import Watch Scenarios PdfOnly.

Lemma filter_none {A} (f : A → bool) (l : list A) :
  (∀ x, x ∈ l → f x = false) → List.filter f l = [].
Proof.
  induction l as [|x l IH]; intros H; simpl; [done|].
  rewrite (H x) by (by left). apply IH. intros y Hy. apply H. by right.
Qed.

Lemma filter_some {A} (f : A → bool) (l : list A) (x : A) :
  x ∈ l → f x = true → List.filter f l ≠ [].
Proof.
  intros Hin Hx Hnil.
  assert (Hx' : In x (List.filter f l)).
  { apply filter_In. split; [by apply list_elem_of_In|done]. }
  by rewrite Hnil in Hx'.
Qed.

Lemma filter_length_le {A} (f : A → bool) (l : list A) :
  (length (List.filter f l) ≤ length l)%nat.
Proof.
  induction l as [|x l IH]; simpl; [done|]. destruct (f x); simpl; lia.
Qed.

Lemma lacks_pdf_ext st st' row :
  files st' = files st → lacks_pdf st' row = lacks_pdf st row.
Proof. intros H. unfold lacks_pdf, exists_file. by rewrite H. Qed.

Section WithItems.
Variable L : pylib.
Variable E : env.
Variable items : gmap string entry → list (string * entry).
Hypothesis Hitems : ∀ m, items m ≡ₚ map_to_list m.

Lemma items_lookup m id row : (id, row) ∈ items m ↔ m !! id = Some row.
Proof. rewrite (Hitems m). apply elem_of_map_to_list. Qed.

Lemma items_length m : length (items m) = size m.
Proof. rewrite (Hitems m). by rewrite length_map_to_list. Qed.

Lemma sync_pdfs_only_unfold fuel st :
  sync_pdfs_only L E items fuel st = sync_pdfs_loaded L E items fuel (load st).2.
Proof.
  unfold sync_pdfs_only. rewrite bind_run.
  destruct (load_loaded st) as (_&_&_&_&_&_&Hret).
  destruct (load st) as [r st1]. simpl in Hret. by subst r.
Qed.

Lemma missing_pdf_none st :
  (∀ id row, payslips (mem st) !! id = Some row → lacks_pdf st row = false) →
  missing_pdf_of items st = [].
Proof.
  intros H. apply filter_none. intros [id row] Hin. simpl.
  apply (H id). by apply items_lookup.
Qed.

Lemma missing_pdf_some st id row :
  payslips (mem st) !! id = Some row → lacks_pdf st row = true →
  missing_pdf_of items st ≠ [].
Proof.
  intros Hrow Hl. apply (filter_some _ _ (id, row)); [|done].
  by apply items_lookup.
Qed.
End WithItems.

(** X18.  When every row of the index file names a PDF that exists, the PDF-only
    mode returns the number of rows as total and as already complete, and 0
    downloads; it makes no request, writes nothing and does not save the
    index.  In particular it returns [(0, 0, 0)] for an index without
    rows. *)
Theorem pdf_only_is_idle_when_complete (L : pylib) (E : env)
    (items : gmap string entry → list (string * entry)) (fuel : nat)
    (st : state) :
  (∀ m, items m ≡ₚ map_to_list m) →
  (∀ id row, stored_rows (index_json st) !! id = Some row
             → lacks_pdf st row = false) →
  sync_pdfs_only L E items fuel st
  = (Ret (Z.of_nat (size (stored_rows (index_json st))),
          Z.of_nat (size (stored_rows (index_json st))), 0),
     (load st).2).
Proof.
  intros Hitems Hall. rewrite sync_pdfs_only_unfold.
  destruct (load_loaded st) as (Hm&Hf&_).
  unfold sync_pdfs_loaded, get_all. rewrite Hm, loaded_rows.
  destruct (size (stored_rows (index_json st)) =? 0)%nat eqn:Hsize.
  { apply Nat.eqb_eq in Hsize. by rewrite Hsize. }
  rewrite (missing_pdf_none items Hitems).
  - simpl. by rewrite Z.sub_0_r.
  - intros id row Hrow. rewrite (lacks_pdf_ext st) by done.
    apply (Hall id). by rewrite Hm, loaded_rows in Hrow.
Qed.

(** Every row of [with_pdfs] has its PDF. *)
Lemma pdf_only_idle_witness :
  sync_pdfs_only Reference.lib (pdf_server [january_image]) map_to_list 5 with_pdfs
  = (Ret (Z.of_nat (size (stored_rows (index_json with_pdfs))),
          Z.of_nat (size (stored_rows (index_json with_pdfs))), 0),
     (load with_pdfs).2).
Proof.
  apply (pdf_only_is_idle_when_complete Reference.lib (pdf_server [january_image])
           map_to_list 5 with_pdfs).
  - done.
  - apply (bool_decide_unpack
             (map_Forall (λ _ row, lacks_pdf with_pdfs row = false)
                (stored_rows (index_json with_pdfs)))).
    by vm_compute.
Defined.

Lemma lacks_pdf_grows st st' row row' :
  (∀ p, is_Some (files st !! p) → is_Some (files st' !! p)) →
  pdf_path row' = pdf_path row →
  lacks_pdf st row = false → lacks_pdf st' row' = false.
Proof.
  intros Hf Hp. unfold lacks_pdf, exists_file. rewrite Hp.
  destruct (pdf_path row) as [p|]; [|done].
  destruct (str_truthy p); [|done].
  rewrite !negb_false_iff, !bool_decide_eq_true. apply Hf.
Qed.

#[export] Instance gains_pdfs_preorder : PreOrder gains_pdfs.
Proof.
  split.
  - intros st. repeat split; try done.
    intros id row Hrow. exists row. repeat split; auto.
  - intros a b c (D1&R1&F1&G1&W1&I1) (D2&R2&F2&G2&W2&I2).
    repeat split; try congruence; [|auto].
    intros id row Hrow.
    destruct (R1 id row Hrow) as (row'&Hrow'&P1&J1&C1&H1).
    destruct (R2 id row' Hrow') as (row''&Hrow''&P2&J2&C2&H2).
    exists row''. repeat split; try congruence.
    destruct H2 as [H2|H2]; [|by right].
    destruct H1 as [H1|H1]; [left; congruence|].
    right. by apply (lacks_pdf_grows b c row').
Qed.

Lemma calm_gains st st' : calm st st' → gains_pdfs st st'.
Proof.
  intros (Hm&Hi&Hd&Hw&Hs&Hf). repeat split; try done; [by rewrite Hm|].
  intros id row Hrow. exists row. rewrite Hm. repeat split; auto.
Qed.

Lemma quiet_gains st st' : quiet st st' → gains_pdfs st st'.
Proof. intros H. by apply calm_gains, quiet_calm. Qed.

Section Loop.
Variable L : pylib.
Variable E : env.

Lemma pdf_only_one_gains pdf_id_map id pay_date n0 :
  preserves gains_pdfs (pdf_only_one L E pdf_id_map id pay_date n0).
Proof.
  intros st. unfold pdf_only_one.
  destruct (pdf_id_map !! id) as [[sid iid]|]; [|reflexivity].
  rewrite bind_run.
  pose proof (fetch_payslip_pdf_quiet E (_build_pdf_api_url sid iid) st) as Hq.
  destruct (fetch_payslip_pdf E _ st) as [[data|e|] st1]; simpl in Hq;
    [|by apply quiet_gains..].
  destruct (opt_truthy data); [|by apply quiet_gains].
  rewrite bind_run. unfold write_file at 1. cbv beta iota.
  set (path := _make_file_path L pay_date "pdf").
  set (st2 := push_event _ (set_files _ st1)).
  assert (H12 : gains_pdfs st st2).
  { etrans; [by apply quiet_gains|].
    apply calm_gains. apply (write_bytes_calm path (default "" data) st1). }
  rewrite bind_run. unfold lift.
  destruct (relative_to path CACHE_DIR) as [rel|e|] eqn:Hrel; [|exact H12..].
  apply relative_to_make_file_path_inv in Hrel as [Hinside ->].
  rewrite bind_run. unfold set_pdf_path at 1.
  change (payslips (mem st2)) with (payslips (mem st1)).
  destruct (payslips (mem st1) !! id) as [row|] eqn:Hrow; [|exact H12].
  simpl. etrans; [exact H12|].
  repeat split; try done.
  - simpl. apply dom_insert_lookup_L. by rewrite Hrow.
  - intros id' row' Hrow'. simpl in Hrow'. simpl.
    destruct (decide (id = id')) as [<-|Hne].
    + rewrite lookup_insert_eq. eexists. split; [done|].
      rewrite Hrow in Hrow'. injection Hrow' as <-.
      repeat split; try done. right.
      unfold lacks_pdf, exists_file. cbn [pdf_path].
      rewrite rel_file_path_truthy, <- make_file_path_rel by done. fold path.
      subst st2. simpl. rewrite lookup_insert_eq.
      apply negb_false_iff, bool_decide_eq_true. eauto.
    + rewrite lookup_insert_ne by done. exists row'. repeat split; auto.
Qed.

Lemma pdf_only_one_count pdf_id_map id pay_date n0 st n :
  (pdf_only_one L E pdf_id_map id pay_date n0 st).1 = Ret (Some n) →
  n = n0 ∨ n = n0 + 1.
Proof.
  unfold pdf_only_one.
  destruct (pdf_id_map !! id) as [[sid iid]|]; [|done].
  rewrite bind_run.
  destruct (fetch_payslip_pdf E _ st) as [[data|e|] st1]; [|done..].
  destruct (opt_truthy data); [|intros [= <-]; by left].
  rewrite bind_run. unfold write_file at 1. cbv beta iota.
  rewrite bind_run. unfold lift.
  destruct (relative_to _ CACHE_DIR) as [rel|e|]; [|done..].
  rewrite bind_run.
  destruct (set_pdf_path _ _ _) as [[[]|e|] st3]; [|done..].
  intros [= <-]. by right.
Qed.

Lemma pdf_only_loop_gains pdf_id_map missing n0 :
  preserves gains_pdfs (pdf_only_loop L E pdf_id_map missing n0).
Proof.
  revert n0. induction missing as [|[id info] rest IH]; intros n0; simpl.
  { by apply preserves_ret; exact _. }
  repeat (frame_step; try apply pdf_only_one_gains; try apply IH;
          try (apply (preserves_weaken quiet);
               [apply quiet_gains|apply sleep_quiet])).
Qed.

Lemma pdf_only_loop_count pdf_id_map missing n0 st n :
  (pdf_only_loop L E pdf_id_map missing n0 st).1 = Ret n →
  n0 ≤ n ≤ n0 + Z.of_nat (length missing).
Proof.
  revert n0 st. induction missing as [|[id info] rest IH]; intros n0 st; simpl.
  { intros [= <-]. lia. }
  rewrite bind_run, try_run.
  pose proof (pdf_only_one_count pdf_id_map id (pay_date info) n0 st) as Hone.
  destruct (pdf_only_one L E pdf_id_map id (pay_date info) n0 st)
    as [[[n1|]|e|] st1]; simpl in Hone.
  - rewrite bind_run. unfold sleep, emit. intros H%IH.
    destruct (Hone n1 eq_refl) as [-> | ->]; lia.
  - intros H%IH. lia.
  - destruct (is_exception e); [|done]. unfold ret at 1.
    rewrite bind_run. unfold sleep, emit. intros H%IH. lia.
  - done.
Qed.

Lemma get_pdf_statement_ids_quiet fuel :
  preserves quiet (_get_pdf_statement_ids L E fuel).
Proof.
  unfold _get_pdf_statement_ids, list_all_payslips, list_all_payslips_with.
  repeat (frame_step; try apply list_loop_quiet).
Qed.

(** How the part of the PDF-only mode that follows [load] ends. *)
Lemma sync_pdfs_loaded_ends items fuel st :
  gains_pdfs st (sync_pdfs_loaded L E items fuel st).2
  ∨ ∃ sb n,
      gains_pdfs st sb
      ∧ sync_pdfs_loaded L E items fuel st
        = (Ret (Z.of_nat (size (payslips (mem st))),
                Z.of_nat (size (payslips (mem st)))
                - Z.of_nat (length (missing_pdf_of items st)), n),
           (save E sb).2)
      ∧ 0 ≤ n ≤ Z.of_nat (length (missing_pdf_of items st)).
Proof.
  unfold sync_pdfs_loaded, get_all.
  destruct (size (payslips (mem st)) =? 0)%nat; [by left|].
  destruct (missing_pdf_of items st) as [|m ms] eqn:Hmiss; [by left|].
  rewrite <- Hmiss. rewrite bind_run.
  pose proof (get_pdf_statement_ids_quiet fuel st) as Hq.
  destruct (_get_pdf_statement_ids L E fuel st) as [[id_map|e|] st1];
    simpl in Hq; [|left; by apply quiet_gains..].
  rewrite bind_run.
  pose proof (pdf_only_loop_gains id_map (missing_pdf_of items st) 0 st1) as Hg.
  pose proof (pdf_only_loop_count id_map (missing_pdf_of items st) 0 st1) as Hc.
  destruct (pdf_only_loop L E id_map (missing_pdf_of items st) 0 st1)
    as [[n|e|] st2]; simpl in Hg, Hc;
    [|left; simpl; etrans; [by apply quiet_gains|done]..].
  right. exists st2, n. split; [etrans; [by apply quiet_gains|done]|].
  split; [by rewrite bind_run|].
  specialize (Hc n eq_refl). lia.
Qed.
End Loop.

(** X19.  The PDF-only mode keeps the rows of the index: the index file has a row
    for the same identifiers after the run as before, each with the same
    pay date, document path and time stamp, and a [pdf_path] that differs
    names a PDF that exists.  It requests no detail, writes no document,
    and removes no file, however it ends. *)
Theorem pdf_only_keeps_the_rows (L : pylib) (E : env)
    (items : gmap string entry → list (string * entry)) (fuel : nat)
    (st : state) :
  let final := (sync_pdfs_only L E items fuel st).2 in
  dom (stored_rows (index_json final)) = dom (stored_rows (index_json st))
  ∧ (∀ id row, stored_rows (index_json st) !! id = Some row →
       ∃ row', stored_rows (index_json final) !! id = Some row'
               ∧ same_but_pdf final row row')
  ∧ (∀ p, is_Some (files st !! p) → is_Some (files final !! p))
  ∧ detail_gets (trace final) = detail_gets (trace st)
  ∧ json_writes (trace final) = json_writes (trace st).
Proof.
  intros final. subst final. rewrite sync_pdfs_only_unfold.
  destruct (load_loaded st) as (Hm&Hf&Hi&Hd&Hw&_).
  assert (Hrows : payslips (mem (load st).2) = stored_rows (index_json st)).
  { by rewrite Hm, loaded_rows. }
  destruct (sync_pdfs_loaded_ends L E items fuel (load st).2)
    as [(HD&HR&HF&HG&HW&HI)|(sb&n&(HD&HR&HF&HG&HW&HI)&Hrun&_)].
  - rewrite HI, Hi, HG, HW, Hd, Hw. repeat split; try done.
    + intros id row Hrow. exists row. repeat split; auto.
    + intros p Hp. apply HF. by rewrite Hf.
  - rewrite Hrun.
    destruct (save_calm_rows E sb) as (_&Hsf&Hsd&Hsw&_&Hsr&_).
    cbn [snd]. rewrite Hsr, HD, Hrows, Hsd, Hsw, HG, HW, Hd, Hw.
    repeat split; try done.
    + intros id row Hrow. rewrite <- Hrows in Hrow.
      destruct (HR id row Hrow) as (row'&Hrow'&P&J&C&H).
      exists row'. split; [done|]. split; [done|]. split; [done|].
      split; [done|].
      destruct H as [H|H]; [by left|right].
      by rewrite (lacks_pdf_ext sb).
    + intros p Hp. rewrite Hsf. apply HF. by rewrite Hf.
Qed.

(** X20.  A run of the PDF-only mode that returns [(total, have, new)] has found
    [total] rows in the index file; the counts are not negative and
    [have + new] does not exceed [total]. *)
Theorem pdf_only_counts (L : pylib) (E : env)
    (items : gmap string entry → list (string * entry)) (fuel : nat)
    (st st' : state) (total have new : Z) :
  (∀ m, items m ≡ₚ map_to_list m) →
  sync_pdfs_only L E items fuel st = (Ret (total, have, new), st') →
  total = Z.of_nat (size (stored_rows (index_json st)))
  ∧ 0 ≤ have ∧ 0 ≤ new ∧ have + new ≤ total.
Proof.
  intros Hitems. rewrite sync_pdfs_only_unfold.
  destruct (load_loaded st) as (Hm&_).
  assert (Hrows : payslips (mem (load st).2) = stored_rows (index_json st)).
  { by rewrite Hm, loaded_rows. }
  assert (Hlen : (length (missing_pdf_of items (load st).2)
                  ≤ size (stored_rows (index_json st)))%nat).
  { unfold missing_pdf_of, get_all. etrans; [apply filter_length_le|].
    by rewrite (items_length items Hitems), Hrows. }
  destruct (sync_pdfs_loaded_ends L E items fuel (load st).2)
    as [_|(sb&n&_&Hrun&Hn)].
  - unfold sync_pdfs_loaded, get_all. rewrite Hrows in *.
    destruct (size (stored_rows (index_json st)) =? 0)%nat eqn:Hz.
    { apply Nat.eqb_eq in Hz. rewrite Hz. intros [= <- <- <-]. done. }
    destruct (missing_pdf_of items (load st).2) as [|m ms] eqn:Hmiss.
    { intros [= <- <- <-]. simpl. lia. }
    rewrite <- Hmiss in *. rewrite bind_run.
    destruct (_get_pdf_statement_ids L E fuel (load st).2) as [[id_map|e|] st1];
      [|done..].
    rewrite bind_run.
    pose proof (pdf_only_loop_count L E id_map (missing_pdf_of items (load st).2)
                  0 st1) as Hc.
    destruct (pdf_only_loop L E id_map (missing_pdf_of items (load st).2) 0 st1)
      as [[k|e|] st2]; [|done..].
    rewrite bind_run. unfold save at 1. cbv beta iota. unfold ret.
    intros [= <- <- <-]. specialize (Hc k eq_refl). simpl in Hc. lia.
  - rewrite Hrun, Hrows. intros [= <- <- <-]. lia.
Qed.

Lemma pdf_only_counts_witness :
  1 = Z.of_nat (size (stored_rows (index_json json_only))).
Proof.
  edestruct (pdf_only_counts Reference.lib (pdf_server [january_image]) map_to_list
               5 json_only) as [H _].
  - done.
  - vm_compute. reflexivity.
  - exact H.
Defined.

Section Nameless.
Variable L : pylib.

Lemma pdf_ids_of_nameless done ids bad rest e id_map :
  identified L done ids → locatable done →
  _get_encoded_id L bad = Raise e →
  pdf_ids_of L (done ++ bad :: rest)%list id_map = Raise e.
Proof.
  intros Hids Hloc Hbad. revert id_map.
  induction Hids as [|ps id done ids Hid _ IH]; intros id_map; simpl.
  { by rewrite Hbad. }
  apply Forall_cons in Hloc as [[info Hinfo] Hloc].
  rewrite Hid, Hinfo. simpl. destruct (_ && _); by apply IH.
Qed.
End Nameless.

(** X21.  When a row lacks its PDF and the listing holds a record without an
    identifier, the PDF-only mode ends with the [ValueError] of
    [_get_encoded_id]: no PDF is looked for, nothing is written and the
    index is not saved. *)
Theorem pdf_only_stops_at_a_nameless_record (L : pylib) (E : env)
    (items : gmap string entry → list (string * entry)) (fuel : nat)
    (st : state) (done rest : list json) (bad : json) (ids : list string)
    (e : exn) (id0 : string) (row0 : entry) :
  (∀ m, items m ≡ₚ map_to_list m) →
  stored_rows (index_json st) !! id0 = Some row0 →
  lacks_pdf st row0 = true →
  listing_of L E fuel st = Ret (done ++ bad :: rest)%list →
  identified L done ids → locatable done →
  _get_encoded_id L bad = Raise e →
  (sync_pdfs_only L E items fuel st).1 = Raise e
  ∧ index_json (sync_pdfs_only L E items fuel st).2 = index_json st
  ∧ files (sync_pdfs_only L E items fuel st).2 = files st
  ∧ index_saves (trace (sync_pdfs_only L E items fuel st).2)
    = index_saves (trace st).
Proof.
  intros Hitems Hrow0 Hlacks Hlist Hids Hloc Hbad.
  rewrite sync_pdfs_only_unfold.
  destruct (load_loaded st) as (Hm&Hf&Hi&_&_&Hs&_).
  assert (Hrows : payslips (mem (load st).2) = stored_rows (index_json st)).
  { by rewrite Hm, loaded_rows. }
  unfold sync_pdfs_loaded, get_all. rewrite Hrows.
  destruct (size (stored_rows (index_json st)) =? 0)%nat eqn:Hz.
  { apply Nat.eqb_eq, map_size_empty_iff in Hz. by rewrite Hz in Hrow0. }
  pose proof (missing_pdf_some items Hitems (load st).2 id0 row0) as Hsome.
  rewrite Hrows, (lacks_pdf_ext st) in Hsome by done.
  specialize (Hsome Hrow0 Hlacks).
  destruct (missing_pdf_of items (load st).2) as [|m ms]; [done|].
  rewrite bind_run. unfold _get_pdf_statement_ids. rewrite bind_run.
  unfold listing_of in Hlist.
  pose proof (listing_quiet L E fuel st) as (_&Hf1&Hi1&_&_&Hs1).
  destruct (list_all_payslips L E fuel (load st).2) as [r st1].
  simpl in Hlist, Hf1, Hi1, Hs1. subst r. unfold lift.
  rewrite (pdf_ids_of_nameless L done ids bad rest e ∅ Hids Hloc Hbad).
  simpl. by rewrite Hf1, Hi1, Hs1.
Qed.

Lemma pdf_only_nameless_witness :
  (sync_pdfs_only Reference.lib (pdf_server [january_image; nameless])
     map_to_list 5 json_only).1
  = Raise (Exn ValueError "Could not find ID in payslip: ['payDate']").
Proof.
  destruct (pdf_only_stops_at_a_nameless_record Reference.lib
              (pdf_server [january_image; nameless]) map_to_list 5 json_only
              [january_image] [] nameless ["a"]
              (Exn ValueError "Could not find ID in payslip: ['payDate']") "a"
              (Entry "2024-01-31" (Some "2024/01/2024-01-31.json") None "T3"))
    as [H _].
  - done.
  - by vm_compute.
  - by vm_compute.
  - by vm_compute.
  - repeat constructor.
  - repeat constructor. by eexists.
  - reflexivity.
  - exact H.
Defined.

(** *** A server that delivers every PDF *)

Lemma filter_empty_inv {A} (f : A → bool) (l : list A) (x : A) :
  List.filter f l = [] → x ∈ l → f x = false.
Proof.
  intros Hnil Hin. destruct (f x) eqn:Hx; [|done].
  by destruct (filter_some f l x Hin Hx).
Qed.

Lemma build_pdf_api_url_truthy sid iid :
  str_truthy (_build_pdf_api_url sid iid) = true.
Proof.
  unfold _build_pdf_api_url, IHCM_BASE_URL. by rewrite !append_cons.
Qed.

Section Delivered.
Variable L : pylib.
Variable E : env.
Hypothesis Hdelivers : delivers_pdfs E.

Lemma fetch_pdf_delivered pdf_url st :
  str_truthy pdf_url = true →
  ∃ data,
    fetch_payslip_pdf E pdf_url st
    = (Ret (Some data), push_event (EvHttp PdfFetcher (GET pdf_url)) st)
    ∧ str_truthy data = true.
Proof.
  intros Hurl. unfold fetch_payslip_pdf. rewrite Hurl. cbn [negb].
  unfold _fetch_pdf_via_requests. generalize 10%nat as budget. intros budget.
  rewrite bind_run, try_run, bind_run. unfold send.
  destruct (Hdelivers (length (trace st)) pdf_url) as (resp&Hhttp&H200&Hct&Hdata).
  rewrite Hhttp. rewrite bind_run.
  assert (Hstay : ∀ s, follow_redirects E budget pdf_url resp s = (Ret resp, s)).
  { intros s. destruct budget; [done|]. simpl. by rewrite H200. }
  rewrite Hstay. unfold ret at 1. cbv beta iota. rewrite H200. cbn [Z.eqb Pos.eqb negb].
  unfold pdf_content_type in Hct.
  destruct (contains "application/pdf" _); [by eexists|].
  simpl in Hct. rewrite Hct. by eexists.
Qed.

Lemma pdf_ids_of_covers records ids id_map :
  pictured L records ids →
  ∃ id_map',
    pdf_ids_of L records id_map = Ret id_map'
    ∧ ∀ id, id ∈ ids ∨ is_Some (id_map !! id) → is_Some (id_map' !! id).
Proof.
  intros H. revert id_map.
  induction H as [|ps id records ids (Hid&sid&iid&Hinfo&Hs&Hi) _ IH];
    intros id_map; simpl.
  { exists id_map. split; [done|]. intros id [Hin|H']; [|done].
    by apply elem_of_nil in Hin. }
  rewrite Hid, Hinfo. simpl. unfold opt_truthy. rewrite Hs, Hi. simpl.
  destruct (IH (<[id := (sid, iid)]> id_map)) as (m'&Hm'&Hcov).
  exists m'. split; [done|]. intros id' [Hin|H'].
  - apply elem_of_cons in Hin as [->|Hin].
    + apply Hcov. right. rewrite lookup_insert_eq. eauto.
    + apply Hcov. by left.
  - apply Hcov. right. destruct (decide (id = id')) as [->|Hne].
    + rewrite lookup_insert_eq. eauto.
    + by rewrite lookup_insert_ne.
Qed.

Lemma pdf_only_one_delivered pdf_id_map id pay_date n0 st :
  is_Some (pdf_id_map !! id) → is_Some (payslips (mem st) !! id) →
  is_absolute pay_date = false →
  ∃ st' row',
    pdf_only_one L E pdf_id_map id pay_date n0 st = (Ret (Some (n0 + 1)), st')
    ∧ payslips (mem st') !! id = Some row'
    ∧ lacks_pdf st' row' = false.
Proof.
  intros [[sid iid] Hmap] [row Hrow] Hinside. unfold pdf_only_one. rewrite Hmap.
  rewrite bind_run.
  destruct (fetch_pdf_delivered (_build_pdf_api_url sid iid) st
              (build_pdf_api_url_truthy sid iid)) as (data&Hfetch&Hdata).
  rewrite Hfetch. unfold opt_truthy. rewrite Hdata.
  rewrite bind_run. unfold write_file at 1. cbv beta iota.
  rewrite bind_run. unfold lift. rewrite relative_to_make_file_path by done.
  rewrite bind_run. unfold set_pdf_path at 1. cbn [mem push_event set_files].
  rewrite Hrow. eexists _, _. split; [done|]. simpl.
  rewrite lookup_insert_eq. split; [done|].
  unfold lacks_pdf, exists_file. cbn [pdf_path].
  rewrite rel_file_path_truthy, <- make_file_path_rel by done. simpl.
  rewrite lookup_insert_eq. apply negb_false_iff, bool_decide_eq_true. eauto.
Qed.

Lemma pdf_only_loop_delivered pdf_id_map missing n0 st :
  Forall (λ kv, is_Some (pdf_id_map !! kv.1)
                ∧ is_Some (payslips (mem st) !! kv.1)
                ∧ is_absolute (pay_date kv.2) = false) missing →
  ∃ st',
    pdf_only_loop L E pdf_id_map missing n0 st
    = (Ret (n0 + Z.of_nat (length missing)), st')
    ∧ gains_pdfs st st'
    ∧ Forall (λ kv, ∃ row', payslips (mem st') !! kv.1 = Some row'
                            ∧ lacks_pdf st' row' = false) missing.
Proof.
  revert n0 st. induction missing as [|[id info] rest IH]; intros n0 st Hall.
  { exists st. simpl. rewrite Z.add_0_r. split; [done|].
    split; [reflexivity|constructor]. }
  apply Forall_cons in Hall as [(Hmap&Hrow&Hinside) Hrest].
  simpl in Hmap, Hrow, Hinside.
  simpl. rewrite bind_run, try_run.
  pose proof (pdf_only_one_gains L E pdf_id_map id (pay_date info) n0 st) as Hg1.
  destruct (pdf_only_one_delivered pdf_id_map id (pay_date info) n0 st Hmap Hrow
              Hinside)
    as (st1&row1&Hone&Hrow1&Hlacks1).
  rewrite Hone in Hg1 |- *. simpl in Hg1.
  rewrite bind_run. unfold sleep, emit.
  set (st1' := push_event EvSleep st1).
  assert (Hg1' : gains_pdfs st st1').
  { etrans; [exact Hg1|]. apply quiet_gains. by repeat split. }
  destruct (IH (n0 + 1) st1') as (st'&Hloop&Hg&Hdone).
  { eapply Forall_impl; [exact Hrest|]. intros [id' info'] (Hm&Hr&Hin').
    cbn [fst snd] in *.
    split; [done|]. split; [|done]. destruct Hg1' as (Hdom&_).
    apply elem_of_dom. rewrite Hdom. by apply elem_of_dom. }
  exists st'. rewrite Hloop. split; [f_equal; f_equal; lia|].
  split; [by etrans|]. constructor; [|done]. simpl.
  destruct Hg as (_&HR&HF&_).
  destruct (HR id row1 Hrow1) as (row'&Hrow'&_&_&_&Hp).
  exists row'. split; [done|].
  destruct Hp as [Hp|Hp]; [|done].
  apply (lacks_pdf_grows st1 st' row1 row'); [|done..].
  intros p Hp'. by apply HF.
Qed.
End Delivered.


End PdfOnlyFacts.

(** ** The session cache file *)

Module SessionFacts.
Import Py World Session Fixtures.

Section WithCache.
Variable L : pylib.
Variable verbose : bool.

Lemma log_file msg d : session_file (_log verbose msg d) = session_file d.
Proof. unfold _log. by destruct verbose. Qed.

Lemma log_reads msg d : clock_reads (_log verbose msg d) = clock_reads d.
Proof. unfold _log. by destruct verbose. Qed.

Lemma clear_file d : session_file (clear verbose d) = Missing.
Proof.
  unfold clear. destruct (session_file d) eqn:H; [done|].
  by rewrite log_file.
Qed.

Lemma load_missing d :
  session_file d = Missing → load L verbose d = (Ret None, d).
Proof. unfold load. by intros ->. Qed.

Lemma dict_get_set_eq k v o : dict_get k (dict_set k v o) = Some v.
Proof.
  induction o as [|[k' v'] o IH]; simpl.
  - by rewrite String.eqb_refl.
  - destruct (String.eqb k k') eqn:Hk; simpl; by rewrite ?String.eqb_refl, ?Hk.
Qed.

Lemma dict_get_set_ne k k' v o :
  k' ≠ k → dict_get k' (dict_set k v o) = dict_get k' o.
Proof.
  intros Hne. induction o as [|[k0 v0] o IH]; simpl.
  - by apply String.eqb_neq in Hne as ->.
  - destruct (String.eqb k k0) eqn:Hk; simpl.
    + apply String.eqb_eq in Hk as <-.
      by apply String.eqb_neq in Hne as ->.
    + destruct (String.eqb k' k0); [done|exact IH].
Qed.

Lemma has_all_object fields o :
  has_all fields (JObj o)
  = Ret (forallb (λ f, bool_decide (is_Some (dict_get f o))) fields).
Proof.
  induction fields as [|f fields IH]; simpl; [done|].
  unfold dict_has. destruct (bool_decide _); [exact IH|done].
Qed.

Lemma has_all_scalar data f fields :
  scalar data →
  has_all (f :: fields) data = Raise (Exn TypeError "argument is not iterable").
Proof. by destruct data. Qed.
End WithCache.

(** X23.  [load] after [save] returns the document that was saved, with the
    bearer token, the cookies and the XSRF token that were given; the file
    has the permission bits [0o600], and [load] leaves it and prints
    nothing. *)
Theorem save_then_load_session (L : pylib) (clock : nat → string)
    (verbose : bool) (CACHE_FILE : string) (default_mode : Z)
    (bearer_token : string) (cookies : json) (xsrf_token : option string)
    (d : disk) :
  let saved := save clock verbose CACHE_FILE default_mode bearer_token cookies
                 xsrf_token d in
  ∃ doc,
    load L verbose saved = (Ret (Some (JObj doc)), saved)
    ∧ session_file saved = Holds (JsonText (JObj doc)) 384
    ∧ dict_get "bearer_token" doc = Some (JStr bearer_token)
    ∧ dict_get "cookies" doc = Some cookies
    ∧ dict_get "xsrf_token" doc
      = Some (match xsrf_token with Some x => JStr x | None => JNull end)
    ∧ dict_get "created_at" doc = Some (JStr (clock (clock_reads d)))
    ∧ dict_get "last_validated" doc = Some (JStr (clock (S (clock_reads d)))).
Proof.
  intros saved.
  set (doc := [("bearer_token", JStr bearer_token);
               ("cookies", cookies);
               ("xsrf_token", match xsrf_token with
                              | Some x => JStr x
                              | None => JNull
                              end);
               ("created_at", JStr (clock (clock_reads d)));
               ("last_validated", JStr (clock (S (clock_reads d))))]).
  exists doc.
  assert (Hfile : session_file saved = Holds (JsonText (JObj doc)) 384).
  { subst saved. unfold save. simpl. rewrite log_file. simpl.
    by destruct (session_file d). }
  split; [|split; [exact Hfile|by repeat split]].
  unfold load. rewrite Hfile. cbn [read_json]. by rewrite has_all_object.
Qed.



(** X25.  A cache file that holds a JSON number, truth value or [null] makes
    [load] raise a [TypeError]; the file stays, so that every later [load]
    raises as well, and so does [update_last_validated]. *)
Theorem scalar_cache_is_not_handled (L : pylib) (clock : nat → string)
    (verbose : bool) (default_mode : Z) (d : disk) (c : file_content)
    (mode : Z) (data : json) :
  session_file d = Holds c mode →
  read_json L c = Some data →
  scalar data →
  load L verbose d = (Raise (Exn TypeError "argument is not iterable"), d)
  ∧ update_last_validated L clock verbose default_mode d
    = (Raise (Exn TypeError "argument is not iterable"), d).
Proof.
  intros Hf Hread Hscalar.
  assert (Hload : load L verbose d
                  = (Raise (Exn TypeError "argument is not iterable"), d)).
  { unfold load. rewrite Hf, Hread. unfold required_fields.
    by rewrite has_all_scalar. }
  split; [done|]. unfold update_last_validated. by rewrite Hload.
Qed.

(** A cache file that holds the text [1]. *)
Lemma scalar_cache_witness :
  load Reference.lib true (Disk (Holds (Bytes "1") 384) 0 [])
  = (Raise (Exn TypeError "argument is not iterable"),
     Disk (Holds (Bytes "1") 384) 0 []).
Proof.
  apply (scalar_cache_is_not_handled Reference.lib (λ _, "") true 420
           (Disk (Holds (Bytes "1") 384) 0 []) (Bytes "1") 384 (JNum 1)).
  - reflexivity.
  - reflexivity.
  - exact I.
Defined.

(** X26.  When the cache file holds a JSON object that is not empty and has the
    required fields, [update_last_validated] rewrites it with
    [last_validated] set to the time of the call and every other field as
    it was; the permission bits stay, and [load] returns the new
    document. *)
Theorem update_keeps_the_session (L : pylib) (clock : nat → string)
    (verbose : bool) (default_mode : Z) (d : disk) (c : file_content)
    (mode : Z) (o : list (string * json)) :
  session_file d = Holds c mode →
  read_json L c = Some (JObj o) →
  (∀ field, field ∈ required_fields → is_Some (dict_get field o)) →
  ∃ o' d',
    update_last_validated L clock verbose default_mode d = (Ret (), d')
    ∧ session_file d' = Holds (JsonText (JObj o')) mode
    ∧ dict_get "last_validated" o' = Some (JStr (clock (clock_reads d)))
    ∧ (∀ k, k ≠ "last_validated" → dict_get k o' = dict_get k o)
    ∧ load L verbose d' = (Ret (Some (JObj o')), d').
Proof.
  intros Hf Hread Hreq.
  assert (Hall : ∀ o0, (∀ field, field ∈ required_fields
                                 → is_Some (dict_get field o0)) →
                       forallb (λ f, bool_decide (is_Some (dict_get f o0)))
                         required_fields = true).
  { intros o0 H0. apply forallb_forall. intros f Hin.
    apply bool_decide_eq_true, H0. by apply list_elem_of_In. }
  assert (Hload : load L verbose d = (Ret (Some (JObj o)), d)).
  { unfold load. rewrite Hf, Hread, has_all_object. by rewrite Hall. }
  assert (Hne : truthy (JObj o) = true).
  { destruct o; [|done]. destruct (Hreq "cookies") as [v Hv]; [|done].
    unfold required_fields. set_solver. }
  exists (dict_set "last_validated" (JStr (clock (clock_reads d))) o).
  eexists. unfold update_last_validated. rewrite Hload, Hne. simpl.
  rewrite Hf. simpl. split; [done|]. split; [done|].
  split; [apply dict_get_set_eq|].
  split; [intros k Hk; by apply dict_get_set_ne|].
  unfold load. cbn [session_file set_file read_json].
  rewrite has_all_object, Hall; [done|].
  intros field Hin. rewrite dict_get_set_ne; [by apply Hreq|].
  intros ->. unfold required_fields in Hin. set_solver.
Qed.

(** A session is saved and validated later. *)
Lemma update_keeps_witness :
  ∃ o' d',
    update_last_validated Reference.lib stamp true 420
      (save stamp true "session.json" 420 "tok" (JList []) None (Disk Missing 0 []))
    = (Ret (), d')
    ∧ session_file d' = Holds (JsonText (JObj o')) 384
    ∧ dict_get "bearer_token" o' = Some (JStr "tok").
Proof.
  destruct (update_keeps_the_session Reference.lib stamp true 420
              (save stamp true "session.json" 420 "tok" (JList []) None
                 (Disk Missing 0 []))
              (JsonText (JObj [("bearer_token", JStr "tok");
                               ("cookies", JList []);
                               ("xsrf_token", JNull);
                               ("created_at", JStr (stamp 0));
                               ("last_validated", JStr (stamp 1))])) 384 _
              eq_refl eq_refl)
    as (o'&d'&Hrun&Hfile&_&Hkeep&_).
  - intros field Hin. unfold required_fields in Hin.
    repeat (apply elem_of_cons in Hin as [->|Hin]; [by eexists|]).
    by apply elem_of_nil in Hin.
  - exists o', d'. split; [exact Hrun|]. split; [exact Hfile|].
    by rewrite Hkeep.
Defined.
End SessionFacts.

(** ** Getting the credentials *)

Module CredentialFacts.
Import Py Credentials.

Lemma truthy_not_empty (s : string) : str_truthy s = true → s ≠ "".
Proof. unfold str_truthy. intros H ->. done. Qed.

Lemma prompt_not_empty (T : terminal) (u p : string) :
  (get_credentials_from_prompt T).1 = Ret (u, p) → u ≠ "" ∧ p ≠ "".
Proof.
  unfold get_credentials_from_prompt. simpl.
  destruct (typed_username T) as [typed|e|]; simpl; [|done..].
  destruct (typed_password T) as [pw|e|]; simpl; [|done..].
  destruct (str_truthy (strip typed)) eqn:Hu; simpl; [|done].
  destruct (str_truthy pw) eqn:Hp; simpl; [|done].
  intros [= <- <-]. split; by apply truthy_not_empty.
Qed.

(** X27.  The credentials that [get_credentials] returns are not empty, neither
    the user name nor the password, whether they come from 1Password or
    from the prompt. *)
Theorem credentials_are_not_empty (T : terminal) (item_name : string)
    (verbose : bool) (username password : string) :
  (get_credentials T item_name verbose).1 = Ret (username, password) →
  username ≠ "" ∧ password ≠ "".
Proof.
  unfold get_credentials, is_1password_available.
  destruct (which_op T); [|by apply prompt_not_empty].
  destruct (get_credentials_from_1password T item_name) as [[u p]|e|] eqn:Hop.
  - simpl. intros [= <- <-]. revert Hop. unfold get_credentials_from_1password.
    destruct (run_op (op_get T item_name "username")) as [o1|e|]; simpl;
      [|done..].
    destruct (run_op (op_get T item_name "password")) as [o2|e|]; simpl;
      [|done..].
    destruct (str_truthy (strip o1)) eqn:Hu; simpl; [|done].
    destruct (str_truthy (strip o2)) eqn:Hp; simpl; [|done].
    intros [= <- <-]. split; by apply truthy_not_empty.
  - destruct (isinstance e RuntimeError); [by apply prompt_not_empty|done].
  - done.
Qed.

Lemma credentials_witness : "ann@example.com" ≠ "" ∧ "s3cret" ≠ "".
Proof.
  apply (credentials_are_not_empty
           (Terminal true (λ _ field, Completed (if String.eqb field "username"
                                                 then " ann@example.com "
                                                 else "s3cret"))
              (Ret "") (Ret ""))
           "ADP IHCM" true).
  reflexivity.
Defined.

(** X28.  When the 1Password command succeeds with a user name or a password
    that is empty once stripped, [get_credentials] raises the [ValueError]
    of [get_credentials_from_1password] and the user is not asked: what the
    user would type does not matter. *)
Theorem empty_vault_entry_is_an_error (T : terminal) (item_name : string)
    (verbose : bool) (out1 out2 : string) :
  which_op T = true →
  op_get T item_name "username" = Completed out1 →
  op_get T item_name "password" = Completed out2 →
  strip out1 = "" ∨ strip out2 = "" →
  get_credentials T item_name verbose
  = (Raise (Exn ValueError
              ("Empty credentials retrieved from 1Password item " +:+ dq
                 +:+ item_name +:+ dq)),
     if verbose
     then ["Getting credentials from 1Password (" +:+ item_name +:+ ")..."]
     else []).
Proof.
  intros Hop H1 H2 Hempty.
  unfold get_credentials, is_1password_available. rewrite Hop.
  unfold get_credentials_from_1password. rewrite H1, H2. simpl.
  assert (Hraise : negb (str_truthy (strip out1)) || negb (str_truthy (strip out2))
                   = true).
  { destruct Hempty as [-> | ->]; [done|]. by rewrite orb_true_r. }
  rewrite Hraise. done.
Qed.

Lemma empty_vault_entry_witness :
  (get_credentials
     (Terminal true (λ _ field, Completed (if String.eqb field "username"
                                           then "ann@example.com" else "  "))
        (Ret "ann@example.com") (Ret "s3cret"))
     "ADP IHCM" false).1
  = Raise (Exn ValueError
             ("Empty credentials retrieved from 1Password item " +:+ dq
                +:+ "ADP IHCM" +:+ dq)).
Proof.
  erewrite (empty_vault_entry_is_an_error _ "ADP IHCM" false
              "ann@example.com" "  ").
  - reflexivity.
  - reflexivity.
  - reflexivity.
  - reflexivity.
  - by right.
Defined.

(** X29.  When the 1Password command is installed but is not found when it is
    run, or fails, for the user name or for the password, [get_credentials]
    returns what the prompt gives. *)
Theorem failing_vault_falls_back (T : terminal) (item_name : string)
    (verbose : bool) (field : string) :
  which_op T = true →
  field = "username"
  ∨ (field = "password"
     ∧ ∃ stdout, op_get T item_name "username" = Completed stdout) →
  op_get T item_name field = FileNotFoundError
  ∨ (∃ stderr, op_get T item_name field = CalledProcessError stderr) →
  (get_credentials T item_name verbose).1 = (get_credentials_from_prompt T).1.
Proof.
  intros Hop Hfield Hfails.
  unfold get_credentials, is_1password_available. rewrite Hop.
  assert (Hraise : ∃ e, get_credentials_from_1password T item_name = Raise e
                        ∧ isinstance e RuntimeError = true).
  { unfold get_credentials_from_1password.
    destruct Hfield as [-> | [-> [stdout Hout]]].
    - destruct Hfails as [-> | [stderr ->]]; simpl; by eexists.
    - rewrite Hout. simpl.
      destruct Hfails as [-> | [stderr ->]]; simpl; by eexists. }
  destruct Hraise as (e&->&->). done.
Qed.

Lemma failing_vault_witness :
  (get_credentials
     (Terminal true (λ _ _, CalledProcessError "not signed in")
        (Ret "ann@example.com") (Ret "s3cret"))
     "ADP IHCM" true).1
  = Ret ("ann@example.com", "s3cret").
Proof.
  rewrite (failing_vault_falls_back _ "ADP IHCM" true "username").
  - reflexivity.
  - reflexivity.
  - by left.
  - right. by eexists.
Defined.
End CredentialFacts.

(** ** The expiry check as time passes *)

Module ExpiryFacts.
Import Py Auth.

(** X30.  A token that [is_token_expired] reports as expired at some moment is
    reported as expired at every later moment, for the same buffer. *)
Theorem expired_stays_expired (L : pylib) (now_us later_us : Z)
    (bearer_token : string) (buffer_minutes : Z) :
  is_token_expired L now_us bearer_token buffer_minutes = Ret true →
  now_us ≤ later_us →
  is_token_expired L later_us bearer_token buffer_minutes = Ret true.
Proof.
  intros H Hle. revert H. unfold is_token_expired, is_token_expired_try.
  destruct (negb (length (split bearer_token ".") =? 3)%nat); [done|].
  destruct (split bearer_token "." !! 1%nat) as [payload_b64|]; [|done].
  destruct (urlsafe_b64decode L (pad_payload payload_b64)) as [bytes|]; [|done].
  destruct (json_loads L bytes) as [payload|]; [|done].
  destruct (payload_get_exp payload) as [exp|e|]; simpl; [|done..].
  destruct (negb (truthy exp)); [done|].
  destruct (exp_seconds L exp) as [exp_s|e|]; simpl; [|done..].
  destruct (exp_s * 1000000 - now_us <? buffer_minutes * 60 * 1000000) eqn:Hnow;
    [|done].
  intros _. apply Z.ltb_lt in Hnow.
  replace (exp_s * 1000000 - later_us <? buffer_minutes * 60 * 1000000) with true;
    [done|].
  symmetry. apply Z.ltb_lt. lia.
Qed.

(** The token expires one hour after the epoch; it is expired a year
    later, and at every later moment. *)
Lemma expired_stays_expired_witness :
  is_token_expired Reference.lib 63072000000000 "h.eyJleHAiOjM2MDB9.s" 5
  = Ret true.
Proof.
  apply (expired_stays_expired Reference.lib 31536000000000 63072000000000
           "h.eyJleHAiOjM2MDB9.s" 5).
  - by vm_compute.
  - lia.
Defined.
End ExpiryFacts.
